(** * Nailgun network validation and default network assignment

    A shallow embedding of the validators of
    [nailgun/api/v1/validators/network.py] and
    [nailgun/api/v1/validators/ip_addr.py], and of the default network
    placement of [nailgun/objects/node.py], together with the properties
    the specification states about them.

    Request payloads are the parsed JSON values the validators receive;
    database rows are records; a raised exception is the [Raise] branch of
    the [result] monad. *)

From stdpp Require Import base option list strings gmap.
From Stdlib Require Import ZArith Lia Ascii Sorted.

Set Warnings "-register-all".

Open Scope string_scope.
Open Scope Z_scope.

(** ** Parsed JSON values *)

Inductive json : Type :=
| JNull
| JBool (b : bool)
| JNum (n : Z)
| JStr (s : string)
| JList (items : list json)
| JDict (items : list (string * json)).

(** A Python [dict] with string keys; the order is the iteration order. *)
Definition dict : Type := list (string * json).

Fixpoint dict_lookup (k : string) (d : dict) : option json :=
  match d with
  | [] => None
  | (k', v) :: d' => if String.eqb k k' then Some v else dict_lookup k d'
  end.

(** [k in d] *)
Definition has_key (k : string) (d : dict) : bool :=
  match dict_lookup k d with Some _ => true | None => false end.

(** [d.get(k, dflt)] and [d.get(k)] *)
Definition get_or (k : string) (dflt : json) (d : dict) : json :=
  match dict_lookup k d with Some v => v | None => dflt end.

Definition get (k : string) (d : dict) : json := get_or k JNull d.

(** [d.keys()] *)
Definition keys (d : dict) : list string := map fst d.

(** [d.pop(k, None)]: the dict without the key. *)
Fixpoint dict_remove (k : string) (d : dict) : dict :=
  match d with
  | [] => []
  | (k', v) :: d' =>
      if String.eqb k k' then dict_remove k d' else (k', v) :: dict_remove k d'
  end.

(** [d[k] = v] *)
Fixpoint dict_set (k : string) (v : json) (d : dict) : dict :=
  match d with
  | [] => [(k, v)]
  | (k', v') :: d' =>
      if String.eqb k k' then (k, v) :: d' else (k', v') :: dict_set k v d'
  end.

(** [a.update(b)] on a copy of [a] *)
Definition dict_update (a b : dict) : dict :=
  fold_left (fun acc kv => dict_set (fst kv) (snd kv) acc) b a.

(** Python truth value of a JSON value. *)
Definition truthy (j : json) : bool :=
  match j with
  | JNull => false
  | JBool b => b
  | JNum n => negb (n =? 0)
  | JStr s => negb (String.eqb s "")
  | JList l => match l with [] => false | _ => true end
  | JDict d => match d with [] => false | _ => true end
  end.

(** [a == b]: numbers and booleans compare by value, lists pointwise, dicts
    key by key whatever the order. *)
Fixpoint json_eqb (a b : json) : bool :=
  match a, b with
  | JNull, JNull => true
  | JBool x, JBool y => Bool.eqb x y
  | JBool x, JNum y => Z.b2z x =? y
  | JNum x, JBool y => x =? Z.b2z y
  | JNum x, JNum y => x =? y
  | JStr x, JStr y => String.eqb x y
  | JList xs, JList ys =>
      (fix go (xs ys : list json) : bool :=
         match xs, ys with
         | [], [] => true
         | x :: xs', y :: ys' => json_eqb x y && go xs' ys'
         | _, _ => false
         end) xs ys
  | JDict xs, JDict ys =>
      (length xs =? length ys)%nat &&
      (fix go (xs : list (string * json)) : bool :=
         match xs with
         | [] => true
         | (k, x) :: xs' =>
             match dict_lookup k ys with
             | Some y => json_eqb x y
             | None => false
             end && go xs'
         end) xs
  | _, _ => false
  end.

(** [a is None] *)
Definition is_none (j : json) : bool :=
  match j with JNull => true | _ => false end.

(** [a or b] on values *)
Definition py_or (a b : json) : json := if truthy a then a else b.

(** ** Messages

    A message is kept as the format template and its arguments, so that
    what an error names can be read off it. *)

Inductive text : Type :=
| TStr (s : string)                            (* a literal *)
| TVal (j : json)                              (* str(value) *)
| TRepr (j : json)                             (* repr(value) *)
| TDumps (j : json)                            (* jsonutils.dumps(value) *)
| TFormat (template : string) (args : list text) (* template.format(args...) *)
| TJoin (sep : string) (items : list text).      (* sep.join(items) *)

(** ** Exceptions *)

Inductive error : Type :=
| InvalidData (msg : text)     (* errors.InvalidData *)
| AlreadyExists (msg : text)   (* errors.AlreadyExists *)
| PyError (cls : string).      (* KeyError, TypeError, IndexError, ... *)

Inductive result (A : Type) : Type :=
| Ok (a : A)
| Raise (e : error).
Arguments Ok {A} a.
Arguments Raise {A} e.

#[export] Instance result_ret : MRet result := fun A a => Ok a.
#[export] Instance result_bind : MBind result := fun A B f m =>
  match m with
  | Ok a => f a
  | Raise e => Raise e
  end.

(** [if cond: raise e] *)
Definition raise_if (cond : bool) (e : error) : result unit :=
  if cond then Raise e else Ok tt.

(** [for x in xs: body(x)], stopping at the first exception. *)
Fixpoint for_each {A : Type} (body : A → result unit) (xs : list A)
  : result unit :=
  match xs with
  | [] => Ok tt
  | x :: xs' => body x ;; for_each body xs'
  end.

(** The same loop threading the local variables [S] of the enclosing
    function. *)
Fixpoint for_fold {A S : Type} (body : S → A → result S) (s : S)
    (xs : list A) : result S :=
  match xs with
  | [] => Ok s
  | x :: xs' => s' ← body s x; for_fold body s' xs'
  end.

(** [d[k]] *)
Definition getitem (k : string) (d : dict) : result json :=
  match dict_lookup k d with
  | Some v => Ok v
  | None => Raise (PyError "KeyError")
  end.

(** The value as a dict, a list, a string, where the code uses it as one. *)
Definition as_dict (j : json) : result dict :=
  match j with JDict d => Ok d | _ => Raise (PyError "TypeError") end.

Definition as_list (j : json) : result (list json) :=
  match j with JList l => Ok l | _ => Raise (PyError "TypeError") end.

Definition as_str (j : json) : result string :=
  match j with JStr s => Ok s | _ => Raise (PyError "TypeError") end.

(** ** Constants of [nailgun.consts] *)

Module consts.
Module NETWORKS.
Definition fuelweb_admin : string := "fuelweb_admin".
Definition public : string := "public".
Definition private : string := "private".
End NETWORKS.
Module NETWORK_NOTATION.
Definition cidr : string := "cidr".
Definition ip_ranges : string := "ip_ranges".
End NETWORK_NOTATION.
Module CLUSTER_STATUSES.
Definition new : string := "new".
End CLUSTER_STATUSES.
Module NODE_STATUSES.
Definition discover : string := "discover".
Definition error : string := "error".
End NODE_STATUSES.
Module NETWORK_INTERFACE_TYPES.
Definition ether : string := "ether".
Definition bond : string := "bond".
End NETWORK_INTERFACE_TYPES.
Definition NETWORK_INTERFACE_TYPES_all : list string :=
  [NETWORK_INTERFACE_TYPES.ether; NETWORK_INTERFACE_TYPES.bond].
Module BOND_TYPES.
Definition dpdkovs : string := "dpdkovs".
End BOND_TYPES.
Module HYPERVISORS.
Definition kvm : string := "kvm".
End HYPERVISORS.
End consts.

(** ** IPv4 addresses, networks and ranges ([netaddr]) *)

Module netaddr.

Definition digit (c : Ascii.ascii) : option Z :=
  let n := Z.of_N (Ascii.N_of_ascii c) in
  if (48 <=? n) && (n <=? 57) then Some (n - 48) else None.

Fixpoint decimal_from (acc : Z) (s : string) : option Z :=
  match s with
  | EmptyString => Some acc
  | String c s' =>
      match digit c with
      | Some d => decimal_from (10 * acc + d) s'
      | None => None
      end
  end.

Definition decimal (s : string) : option Z :=
  match s with
  | EmptyString => None
  | _ => decimal_from 0 s
  end.

Fixpoint split_on (sep : Ascii.ascii) (s : string) : list string :=
  match s with
  | EmptyString => [EmptyString]
  | String c s' =>
      let r := split_on sep s' in
      if Ascii.eqb c sep then EmptyString :: r
      else match r with
           | p :: ps => String c p :: ps
           | [] => [String c EmptyString]
           end
  end.

Definition octet (s : string) : option Z :=
  match decimal s with
  | Some n => if n <=? 255 then Some n else None
  | None => None
  end.

(** [IPAddress(s)], as its 32-bit value. *)
Definition IPAddress (s : string) : result Z :=
  match split_on "." s with
  | [a; b; c; d] =>
      match octet a, octet b, octet c, octet d with
      | Some a, Some b, Some c, Some d =>
          Ok (((a * 256 + b) * 256 + c) * 256 + d)
      | _, _, _, _ => Raise (PyError "AddrFormatError")
      end
  | _ => Raise (PyError "AddrFormatError")
  end.

Record IPNetwork_t : Type := { ip : Z; prefixlen : Z }.

(** [expand_partial_address(addr)] then [IPAddress]: one to four decimal
    octets, the missing ones being 0. *)
Definition partial_address (s : string) : result Z :=
  match map octet (split_on "." s) with
  | [Some a] => Ok (a * 16777216)
  | [Some a; Some b] => Ok ((a * 256 + b) * 65536)
  | [Some a; Some b; Some c] => Ok (((a * 256 + b) * 256 + c) * 256)
  | [Some a; Some b; Some c; Some d] =>
      Ok (((a * 256 + b) * 256 + c) * 256 + d)
  | _ => Raise (PyError "AddrFormatError")
  end.

(** The address part of a network: a full address, or else a partial
    one. *)
Definition network_address (s : string) : result Z :=
  match IPAddress s with
  | Ok v => Ok v
  | Raise _ => partial_address s
  end.

(** [IPNetwork(s)] for ["a.b.c.d/len"] or ["a.b.c.d"], and for the
    abbreviated forms ["a.b.c/len"], ["a.b/len"], ["a/len"]; the prefix is
    a decimal number. *)
Definition IPNetwork (s : string) : result IPNetwork_t :=
  match split_on "/" s with
  | [a] => v ← network_address a; Ok {| ip := v; prefixlen := 32 |}
  | [a; p] =>
      v ← network_address a;
      match decimal p with
      | Some n =>
          if n <=? 32 then Ok {| ip := v; prefixlen := n |}
          else Raise (PyError "AddrFormatError")
      | None => Raise (PyError "AddrFormatError")
      end
  | _ => Raise (PyError "AddrFormatError")
  end.

Definition size (n : IPNetwork_t) : Z := 2 ^ (32 - prefixlen n).

(** The network address: the host bits of [ip] cleared. *)
Definition first (n : IPNetwork_t) : Z :=
  Z.shiftl (Z.shiftr (ip n) (32 - prefixlen n)) (32 - prefixlen n).

(** The broadcast address. *)
Definition last (n : IPNetwork_t) : Z := first n + size n - 1.

(** [network[i]], negative indices counting from the end. *)
Definition getitem (n : IPNetwork_t) (i : Z) : result Z :=
  if (0 <=? i) && (i <? size n) then Ok (first n + i)
  else if (- size n <=? i) && (i <? 0) then Ok (last n + i + 1)
  else Raise (PyError "IndexError").

(** [IPRange(first, last)] *)
Definition IPRange (lo hi : Z) : result (Z * Z) :=
  if hi <? lo then Raise (PyError "AddrFormatError") else Ok (lo, hi).

(** [addr in range] *)
Definition contains (r : Z * Z) (a : Z) : bool :=
  (fst r <=? a) && (a <=? snd r).

End netaddr.

(** ** Database rows ([nailgun.db.sqlalchemy.models])

    A nullable column compared with request values is kept as a JSON value
    ([JNull] for NULL); a foreign key is an optional id. *)

Module models.

Record Cluster : Type := {
  cluster_id : Z;
  cluster_status : string;
  (* objects.Cluster.get_network_roles(cluster) *)
  cluster_network_roles : list json;
}.

Record NodeGroup : Type := {
  nodegroup_id : Z;
  nodegroup_name : string;
  nodegroup_cluster_id : option Z;
  nodegroup_is_default : bool;
}.

Record NetworkGroup : Type := {
  ng_id : Z;
  ng_name : string;
  ng_release : json;
  ng_cidr : json;
  ng_gateway : json;
  ng_group_id : option Z;
  ng_meta : dict;
  ng_ip_ranges : list (string * string);   (* IPAddrRange.first, .last *)
}.

Record Node : Type := {
  node_id : Z;
  node_ip : string;
  node_group_id : option Z;
  node_cluster_id : option Z;
}.

Record IPAddr : Type := {
  ipaddr_id : Z;
  ipaddr_network : option Z;
  ipaddr_node : option Z;
  ipaddr_ip_addr : string;
  ipaddr_vip_name : json;
  ipaddr_vip_namespace : json;
  ipaddr_is_user_defined : bool;
}.

(** The tables a validator reads, each in the order its queries return
    the rows. *)
Record Database : Type := {
  clusters : list Cluster;
  nodegroups : list NodeGroup;
  network_groups : list NetworkGroup;
  nodes : list Node;
  ip_addrs : list IPAddr;
}.

(** [db().query(NetworkGroup).get(id)] *)
Definition get_network_group (db : Database) (id : Z) : option NetworkGroup :=
  List.find (fun ng => ng_id ng =? id) (network_groups db).

Definition get_nodegroup (db : Database) (id : Z) : option NodeGroup :=
  List.find (fun g => nodegroup_id g =? id) (nodegroups db).

Definition get_cluster (db : Database) (id : Z) : option Cluster :=
  List.find (fun c => cluster_id c =? id) (clusters db).

(** [ng.nodegroup] and [nodegroup.cluster] *)
Definition ng_nodegroup (db : Database) (ng : NetworkGroup)
  : option NodeGroup :=
  g ← ng_group_id ng; get_nodegroup db g.

Definition nodegroup_cluster (db : Database) (g : NodeGroup)
  : option Cluster :=
  c ← nodegroup_cluster_id g; get_cluster db c.

(** [not column] for a nullable integer column. *)
Definition falsy_id (o : option Z) : bool :=
  match o with
  | None => true
  | Some n => n =? 0
  end.

Definition opt_id_eqb (a b : option Z) : bool :=
  match a, b with
  | Some x, Some y => x =? y
  | None, None => true
  | _, _ => false
  end.

End models.
Import models.

(** ** The network manager's address queries *)

Module NetworkManager.

(** Ranges as the validators hold them: the request's (or the rows')
    literal pairs, or pairs of [netaddr.IPAddress]. *)
Inductive ip_ranges : Type :=
| RangesJson (j : json)
| RangesAddr (l : list (Z * Z)).

(** [[(r.first, r.last) for r in ng_db.ip_ranges]] *)
Definition db_ranges (ng_db : NetworkGroup) : json :=
  JList (map (fun r => JList [JStr (fst r); JStr (snd r)]) (ng_ip_ranges ng_db)).

(** [IPRange(x[0], x[1])] for one literal pair. *)
Definition range_of_json (x : json) : result (Z * Z) :=
  match x with
  | JList (JStr lo :: JStr hi :: _) =>
      a ← netaddr.IPAddress lo; b ← netaddr.IPAddress hi; netaddr.IPRange a b
  | JList (_ :: _ :: _) => Raise (PyError "AddrFormatError")
  | JList _ => Raise (PyError "IndexError")
  | _ => Raise (PyError "TypeError")
  end.

Fixpoint map_result {A B : Type} (f : A → result B) (xs : list A)
  : result (list B) :=
  match xs with
  | [] => Ok []
  | x :: xs' => y ← f x; ys ← map_result f xs'; Ok (y :: ys)
  end.

(** [[IPRange(x[0], x[1]) for x in ranges]] *)
Definition to_ranges (ranges : ip_ranges) : result (list (Z * Z)) :=
  match ranges with
  | RangesJson j => l ← as_list j; map_result range_of_json l
  | RangesAddr l => map_result (fun r => netaddr.IPRange (fst r) (snd r)) l
  end.

(** [RangeSet.covers_all]: every address lies in at least one range, the
    ranges being inclusive at both ends. *)
Definition covers_all (ranges : list (Z * Z)) (addresses : list Z) : bool :=
  forallb (fun a => existsb (fun r => netaddr.contains r a) ranges) addresses.

(** Modelled from the spec: [NetworkManager.check_ips_belong_to_ranges]
    (the network manager is not among the sources); section 4.2 makes
    [belongs_to_ranges] delegate to [RangeSet.covers_all]. *)
Definition check_ips_belong_to_ranges (ips : list string)
    (ranges : ip_ranges) : result bool :=
  rs ← to_ranges ranges;
  addrs ← map_result netaddr.IPAddress ips;
  Ok (covers_all rs addrs).

(** Modelled from the spec: [NetworkManager.get_assigned_ips_by_network_id];
    section 4.2 has [assigned_addresses] query all IPAddr rows of the
    group. *)
Definition get_assigned_ips_by_network_id (db : Database) (id : Z)
  : list string :=
  map ipaddr_ip_addr
      (List.filter (fun a => opt_id_eqb (ipaddr_network a) (Some id))
                   (ip_addrs db)).

End NetworkManager.
Import NetworkManager.

(** ** [NetworkConfigurationValidator] *)

Module NetworkConfigurationValidator.

(** [IPNetwork(cidr)] for the value of a ['cidr'] key or column. *)
Definition IPNetwork_of (cidr : json) : result netaddr.IPNetwork_t :=
  match cidr with
  | JStr s => netaddr.IPNetwork s
  | _ => Raise (PyError "AddrFormatError")
  end.

Definition _get_network_ip_ranges (network : dict) (ng_db : NetworkGroup)
    (notation : json) (use_gateway : bool) : result ip_ranges :=
  let ranges := RangesJson (JList []) in
  let ranges :=
    if json_eqb notation (JStr consts.NETWORK_NOTATION.ip_ranges)
    then RangesJson (get_or "ip_ranges" (db_ranges ng_db) network)
    else ranges in
  if json_eqb notation (JStr consts.NETWORK_NOTATION.cidr) then
    let cidr := get_or "cidr" (ng_cidr ng_db) network in
    ip_network ← IPNetwork_of cidr;
    let first_index := if use_gateway then 2 else 1 in
    lo ← netaddr.getitem ip_network first_index;
    hi ← netaddr.getitem ip_network (-2);
    Ok (RangesAddr [(lo, hi)])
  else Ok ranges.

(** The addresses [_check_ips_out_of_ip_ranges] collects: those assigned in
    the network and, for an Admin network, the IPs of the nodes of its
    node group (of all default groups for the shared one). *)
Definition allocated_ips (db : Database) (ng_db : NetworkGroup)
  : list string :=
  let ips := get_assigned_ips_by_network_id db (ng_id ng_db) in
  if String.eqb (ng_name ng_db) consts.NETWORKS.fuelweb_admin then
    let nodes :=
      match ng_group_id ng_db with
      | None =>
          List.filter (fun n =>
                         match node_group_id n ≫= get_nodegroup db with
                         | Some g => nodegroup_is_default g
                         | None => false
                         end) (nodes db)
      | Some gid =>
          List.filter (fun n =>
                         opt_id_eqb (node_group_id n) (Some gid)
                         && negb (opt_id_eqb (node_cluster_id n) None))
                      (nodes db)
      end in
    ips ++ map node_ip nodes
  else ips.

Definition _check_ips_out_of_ip_ranges (db : Database) (ng_db : NetworkGroup)
    (ranges : ip_ranges) : result bool :=
  ok ← check_ips_belong_to_ranges (allocated_ips db ng_db) ranges;
  Ok (negb ok).

(** Lines 73-108 of [validate_network_group]: the request merged over the
    row, the consistency checks, and the value of the local [ranges]. *)
Definition effective_ranges (ng_data : dict) (ng_db : NetworkGroup)
  : result ip_ranges :=
  let cidr := get_or "cidr" (ng_cidr ng_db) ng_data in
  let ip_ranges := get_or "ip_ranges" (db_ranges ng_db) ng_data in
  let release := get_or "release" (ng_release ng_db) ng_data in
  raise_if (negb (json_eqb release (ng_release ng_db)))
    (InvalidData (TStr "Network release could not be changed.")) ;;
  (* values are always taken either from request or from DB *)
  meta ← as_dict (get_or "meta" (JDict []) ng_data);
  let notation := get_or "notation" (get "notation" (ng_meta ng_db)) meta in
  let use_gateway :=
    get_or "use_gateway" (get_or "use_gateway" (JBool false) (ng_meta ng_db))
           meta in
  let gateway := get_or "gateway" (ng_gateway ng_db) ng_data in
  raise_if (truthy use_gateway && negb (truthy gateway))
    (InvalidData
       (TStr "Flag 'use_gateway' cannot be provided without gateway")) ;;
  raise_if (negb (truthy ip_ranges)
            && json_eqb notation (JStr consts.NETWORK_NOTATION.ip_ranges))
    (InvalidData (TFormat "No IP ranges were specified for network {0}"
                          [TVal (JNum (ng_id ng_db))])) ;;
  raise_if ((json_eqb notation (JStr consts.NETWORK_NOTATION.cidr)
             || json_eqb notation (JStr consts.NETWORK_NOTATION.ip_ranges))
            && (negb (truthy cidr) && negb (truthy (ng_cidr ng_db))))
    (InvalidData (TFormat "No CIDR was specified for network {0}"
                          [TVal (JNum (ng_id ng_db))])) ;;
  _get_network_ip_ranges ng_data ng_db notation (negb (is_none gateway)).

(** The message of the coverage failure. *)
Definition not_covered_msg (name id : json) : text :=
  TFormat
    "New IP ranges for network '{0}'({1}) do not cover already allocated IPs."
    [TVal name; TVal id].

(** [admin_ranges] is the caller's dict, updated in place before the
    coverage check: its final value is returned beside the outcome. *)
Definition validate_network_group (db : Database) (ng_data : dict)
    (ng_db : NetworkGroup) (cluster : Cluster)
    (admin_ranges : option (gmap Z ip_ranges))
  : option (gmap Z ip_ranges) * result dict :=
  match effective_ranges ng_data ng_db with
  | Raise e => (admin_ranges, Raise e)
  | Ok ranges =>
      let is_admin_network :=
        String.eqb (ng_name ng_db) consts.NETWORKS.fuelweb_admin in
      let admin_ranges :=
        if is_admin_network
        then (fun m => <[ng_id ng_db := ranges]> m) <$> admin_ranges
        else admin_ranges in
      (admin_ranges,
       out ← (if is_admin_network
                 || negb (String.eqb (cluster_status cluster)
                                     consts.CLUSTER_STATUSES.new)
              then _check_ips_out_of_ip_ranges db ng_db ranges
              else Ok false);
       if out : bool then
         name ← getitem "name" ng_data;
         id ← getitem "id" ng_data;
         Raise (InvalidData (not_covered_msg name id))
       else Ok ng_data)
  end.

End NetworkConfigurationValidator.

(** ** [BasicValidator] *)

Module BasicValidator.
Section Base.

(** Modelled from the spec: [BasicValidator.validate_json] and
    [validate_schema] ([validators/base.py] and the JSON schemas are not
    among the sources).  Section 9 leaves schema validation to an external
    collaborator and section 7 makes a violated validation contract an
    [InvalidData]: [loads] is the JSON parser ([None] when it fails) and
    [schema_error] gives the message of a schema violation, if any. *)
Variable loads : string → option json.
Variable schema_error : string → json → option text.

Definition validate_json (data : string) : result json :=
  match loads data with
  | Some j => Ok j
  | None => Raise (InvalidData (TStr "Invalid json received"))
  end.

Definition validate_schema (data : json) (schema : string) : result unit :=
  match schema_error schema data with
  | Some msg => Raise (InvalidData msg)
  | None => Ok tt
  end.

End Base.
End BasicValidator.

(** ** [NetworkGroupValidator] *)

Module NetworkGroupValidator.
Section Validator.

Variable loads : string → option json.
Variable schema_error : string → json → option text.

(** Modelled from the spec: [NetworkGroup.get_from_node_group_by_name]
    (the network group objects are not among the sources); section 7 names
    the invariant it serves, one network name per node group. *)
Definition get_from_node_group_by_name (db : Database) (group_id : Z)
    (name : json) : option NetworkGroup :=
  List.find (fun ng => opt_id_eqb (ng_group_id ng) (Some group_id)
                       && json_eqb (JStr (ng_name ng)) name)
            (network_groups db).

Definition _check_duplicate_network_name (db : Database)
    (node_group : NodeGroup) (network_name : json) : result unit :=
  match get_from_node_group_by_name db (nodegroup_id node_group)
                                    network_name with
  | Some _ =>
      Raise (AlreadyExists
               (TFormat "Network with name {0} already exists in node group {1}"
                        [TVal network_name;
                         TVal (JStr (nodegroup_name node_group))]))
  | None => Ok tt
  end.

(** An attribute read through a relationship that may be [None]. *)
Definition attr {A : Type} (o : option A) : result A :=
  match o with
  | Some a => Ok a
  | None => Raise (PyError "AttributeError")
  end.

(** [db().query(NetworkGroup).get(net_id)] *)
Definition query_get (db : Database) (net_id : json)
  : option NetworkGroup :=
  match net_id with
  | JNum n => get_network_group db n
  | _ => None
  end.

Definition validate_update (db : Database) (data : string)
    (instance : NetworkGroup) : result dict :=
  d ← BasicValidator.validate_json loads data;
  BasicValidator.validate_schema schema_error d "NETWORK_GROUP" ;;
  d ← as_dict d;
  (* Can't change node group of an existing network group *)
  let d := dict_remove "group_id" d in
  let net_id := py_or (get "id" d) (JNum (ng_id instance)) in
  ng_db ← attr (query_get db net_id);
  (* Only default Admin-pxe network doesn't have group_id. *)
  raise_if (falsy_id (ng_group_id ng_db))
    (InvalidData (TStr "Default Admin-pxe network cannot be changed")) ;;
  nodegroup ← attr (ng_nodegroup db ng_db);
  (if has_key "name" d
      && negb (json_eqb (JStr (ng_name ng_db)) (get "name" d))
   then _check_duplicate_network_name db nodegroup (get "name" d)
   else Ok tt) ;;
  cluster ← attr (nodegroup_cluster db nodegroup);
  snd (NetworkConfigurationValidator.validate_network_group
         db d ng_db cluster None).

Definition validate_delete (data : string) (instance : NetworkGroup)
    (force : bool) : result unit :=
  (* Only default Admin-pxe network doesn't have group_id. *)
  raise_if (falsy_id (ng_group_id instance))
    (InvalidData (TStr "Default Admin-pxe network cannot be deleted")).

End Validator.
End NetworkGroupValidator.

(** ** Python containment and hashing on JSON values *)

Fixpoint is_substring (p s : string) : bool :=
  String.prefix p s
  || match s with
     | EmptyString => false
     | String _ s' => is_substring p s'
     end.

(** [k in x] for a string [k]: a key of a dict, an item of a list, a
    substring of a string; any other [x] is not iterable. *)
Definition py_in (k : string) (x : json) : result bool :=
  match x with
  | JDict d => Ok (has_key k d)
  | JList l => Ok (existsb (json_eqb (JStr k)) l)
  | JStr s => Ok (is_substring k s)
  | _ => Raise (PyError "TypeError")
  end.

(** [for x in j]: the items of a list, the characters of a string, the
    keys of a dict; any other value is not iterable. *)
Definition py_iter (j : json) : result (list json) :=
  match j with
  | JList l => Ok l
  | JStr s =>
      Ok (map (fun c => JStr (String c EmptyString))
              (String.list_ascii_of_string s))
  | JDict d => Ok (map JStr (keys d))
  | _ => Raise (PyError "TypeError")
  end.

(** [x.get(...)], a method of dicts: any other value has no such
    attribute. *)
Definition dict_method (j : json) : result dict :=
  match j with
  | JDict d => Ok d
  | _ => Raise (PyError "AttributeError")
  end.

(** [x in names] for a tuple of names. *)
Definition in_names (x : json) (names : list string) : bool :=
  existsb (fun n => json_eqb x (JStr n)) names.

(** The members of a Python set of JSON scalars: [None], numbers (with
    [False] and [True] as 0 and 1) and strings. *)
Abbreviation key := (option (Z + string)) (only parsing).

(** Hashing a value to put it in a set; lists and dicts are unhashable. *)
Definition hashable (j : json) : result key :=
  match j with
  | JNull => Ok None
  | JBool b => Ok (Some (inl (Z.b2z b)))
  | JNum n => Ok (Some (inl n))
  | JStr s => Ok (Some (inr s))
  | _ => Raise (PyError "TypeError")
  end.

(** ** [NetAssignmentValidator]: the structure of a request *)

Module NetAssignmentValidator.
Section Structure.

(** [consts.BOND_PROPERTIES] and [consts.BOND_MODES] ([consts.py] is not
    among the sources). *)
Variable BOND_PROPERTIES : list string.
Variable BOND_MODES : list string.

Definition get_bond_mode (iface : dict) : result json :=
  let bond_mode := JNull in
  let bond_mode :=
    if has_key "mode" iface then get "mode" iface else bond_mode in
  b ← py_in "mode" (get_or "bond_properties" (JDict []) iface);
  if b : bool then
    props ← getitem "bond_properties" iface;
    match props with
    | JDict p => getitem "mode" p
    | _ => Raise (PyError "TypeError")
    end
  else Ok bond_mode.

(** [iface.get('id') or iface.get('name')] *)
Definition iface_label (iface : dict) : text :=
  TVal (py_or (get "id" iface) (get "name" iface)).

(** The body of [for net in iface['assigned_networks']]. *)
Definition check_net (node_id : json) (iface : dict) (net_ids : gset key)
    (net : json) : result (gset key) :=
  match net with
  | JDict n =>
      raise_if (negb (has_key "id" n))
        (InvalidData
           (TFormat "Node '{0}', interface '{1}': each assigned network should have ID"
                    [TVal node_id; iface_label iface])) ;;
      k ← hashable (get "id" n);
      raise_if (bool_decide (k ∈ net_ids))
        (InvalidData
           (TFormat "Node '{0}': there is a duplicated network '{1}' in assigned networks (second occurrence is in interface '{2}')"
                    [TVal node_id; TVal (get "id" n); iface_label iface])) ;;
      Ok ({[k]} ∪ net_ids)
  | _ =>
      Raise (InvalidData
               (TFormat "Node '{0}', interface '{1}': each assigned network should be a dict"
                        [TVal node_id; iface_label iface]))
  end.

(** The checks of a bond interface (lines 333-377). *)
Definition check_bond (node_id : json) (iface : dict) : result unit :=
  raise_if (negb (has_key "name" iface))
    (InvalidData
       (TFormat "Node '{0}': each bond interface must have name"
                [TVal node_id])) ;;
  slaves ←
    match dict_lookup "slaves" iface with
    | Some (JList l) =>
        if (length l <? 2)%nat then
          Raise (InvalidData
                   (TFormat "Node '{0}': each bond interface must have two or more slaves"
                            [TVal node_id]))
        else Ok l
    | _ =>
        Raise (InvalidData
                 (TFormat "Node '{0}': each bond interface must have two or more slaves"
                          [TVal node_id]))
    end;
  for_each (fun slave =>
              b ← py_in "name" slave;
              raise_if (negb b)
                (InvalidData
                   (TFormat "Node '{0}', interface '{1}': each bond slave must have name"
                            [TVal node_id; TVal (get "name" iface)])))
           slaves ;;
  (match dict_lookup "bond_properties" iface with
   | Some (JDict props) =>
       for_each (fun k =>
                   raise_if (negb (existsb (String.eqb k) BOND_PROPERTIES))
                     (InvalidData
                        (TFormat "Node '{0}', interface '{1}': unknown bond property '{2}'"
                                 [TVal node_id; TVal (get "name" iface);
                                  TVal (JStr k)])))
                (keys props)
   | Some _ => Raise (PyError "AttributeError")
   | None => Ok tt
   end) ;;
  bond_mode ← get_bond_mode iface;
  raise_if (negb (truthy bond_mode))
    (InvalidData
       (TFormat "Node '{0}': bond interface '{1}' doesn't have mode"
                [TVal node_id; TVal (get "name" iface)])) ;;
  raise_if (negb (in_names bond_mode BOND_MODES))
    (InvalidData
       (TFormat "Node '{0}': bond interface '{1}' has unknown mode '{2}'"
                [TVal node_id; TVal (get "name" iface); TVal bond_mode])).

(** The body of [for iface in node['interfaces']]. *)
Definition check_iface (node_id : json) (net_ids : gset key) (iface : json)
  : result (gset key) :=
  match iface with
  | JDict i =>
      raise_if (negb (has_key "type" i))
        (InvalidData
           (TFormat "Node '{0}': each interface must have a type"
                    [TVal node_id])) ;;
      let type := get "type" i in
      raise_if (negb (in_names type consts.NETWORK_INTERFACE_TYPES_all))
        (InvalidData
           (TFormat "Node '{0}': unknown interface type" [TVal node_id])) ;;
      raise_if (json_eqb type (JStr consts.NETWORK_INTERFACE_TYPES.ether)
                && negb (has_key "id" i))
        (InvalidData
           (TFormat "Node '{0}': each HW interface must have ID"
                    [TVal node_id])) ;;
      (if json_eqb type (JStr consts.NETWORK_INTERFACE_TYPES.bond)
       then check_bond node_id i else Ok tt) ;;
      match dict_lookup "assigned_networks" i with
      | Some (JList nets) => for_fold (check_net node_id i) net_ids nets
      | _ =>
          Raise (InvalidData
                   (TFormat "Node '{0}', interface '{1}': there is no 'assigned_networks' list"
                            [TVal node_id; iface_label i]))
      end
  | _ =>
      Raise (InvalidData
               (TFormat "Node '{0}': each interface should be a dict (got '{1}')"
                        [TVal node_id; TVal iface]))
  end.

Definition validate (node : json) : result json :=
  match node with
  | JDict n =>
      raise_if (negb (has_key "id" n))
        (InvalidData (TStr "Each node should have ID")) ;;
      match dict_lookup "interfaces" n with
      | Some (JList interfaces) =>
          for_fold (check_iface (get "id" n)) ∅ interfaces ;;
          Ok node
      | _ =>
          Raise (InvalidData
                   (TFormat "Node '{0}': there is no 'interfaces' list"
                            [TVal (get "id" n)]))
      end
  | _ => Raise (InvalidData (TStr "Each node should be dict"))
  end.

End Structure.
End NetAssignmentValidator.

(** ** Node rows as the interface validator reads them *)

Module node_models.

(** A row of [node.nic_interfaces] or [node.bond_interfaces]. *)
Record Interface : Type := {
  iface_id : Z;
  iface_name : string;
  iface_pxe : bool;
  iface_interface_properties : dict;
  iface_assigned_networks : list Z;
}.

Record NodeCluster : Type := {
  (* Cluster.get_editable_attributes(cluster)
       ['common']['libvirt_type']['value'] *)
  libvirt_type : json;
  (* Release.get_supported_dpdk_drivers(cluster.release) *)
  supported_dpdk_drivers : json;
}.

Record NodeNodeGroup : Type := {
  group_name : string;
  group_is_default : bool;
  group_networks : list (Z * string);   (* id and name of each network *)
}.

Record DbNode : Type := {
  id : Z;
  status : string;
  cluster : option NodeCluster;
  nodegroup : option NodeNodeGroup;
  nic_interfaces : list Interface;
  bond_interfaces : list Interface;
  (* net_manager._get_pxe_iface_name(db_node) *)
  pxe_iface_name : json;
  (* NodeAttributes.is_dpdk_hugepages_enabled / is_nova_hugepages_enabled *)
  dpdk_hugepages_enabled : bool;
  nova_hugepages_enabled : bool;
  (* Node.should_have_public(db_node) *)
  should_have_public : bool;
}.

(** [node.interfaces] *)
Definition interfaces (n : DbNode) : list Interface :=
  nic_interfaces n ++ bond_interfaces n.

(** [Node.is_interfaces_configuration_locked] *)
Definition is_interfaces_configuration_locked (instance : DbNode) : bool :=
  negb (String.eqb (status instance) consts.NODE_STATUSES.discover
        || String.eqb (status instance) consts.NODE_STATUSES.error).

End node_models.

(** ** Merging and ordering JSON values *)

(** Modelled from the spec: [utils.dict_merge] ([utils/__init__.py] is not
    among the sources); section 4.4 has the stored properties "merged with
    requested property overrides": the keys of [b] override those of [a],
    dicts under a common key being merged in turn. *)
Fixpoint dict_merge (a b : json) {struct b} : json :=
  match b with
  | JDict kvs =>
      match a with
      | JDict d =>
          JDict
            ((fix go (kvs : list (string * json)) (acc : dict) : dict :=
                match kvs with
                | [] => acc
                | (k, v) :: rest =>
                    go rest
                       (dict_set k
                          match dict_lookup k acc with
                          | Some (JDict r) => dict_merge (JDict r) v
                          | _ => v
                          end acc)
                end) kvs d)
      | _ => b
      end
  | _ => b
  end.

(** The rank of a value in Python 2's ordering of unlike types. *)
Definition py2_rank (j : json) : Z :=
  match j with
  | JNull => 0
  | JBool _ | JNum _ => 1
  | JDict _ => 2
  | JList _ => 3
  | JStr _ => 4
  end.

Definition as_number (j : json) : option Z :=
  match j with
  | JBool b => Some (Z.b2z b)
  | JNum n => Some n
  | _ => None
  end.

(** [a < b]: numbers by value, strings by their characters, unlike types by
    rank (two lists or two dicts are left unordered). *)
Definition py_lt (a b : json) : bool :=
  match as_number a, as_number b with
  | Some x, Some y => x <? y
  | _, _ =>
      match a, b with
      | JStr x, JStr y => String.ltb x y
      | _, _ => py2_rank a <? py2_rank b
      end
  end.

(** [a > b] *)
Definition py_gt (a b : json) : bool := py_lt b a.

(** ** [NetAssignmentValidator]: the request against the database *)

Module NetAssignmentData.
Import node_models.
Section DataCorrectness.

(** [net_manager.get_prohibited_admin_bond_modes()] and the hardware test
    [NIC.dpdk_available] / [Bond.dpdk_available] (the network manager and
    the interface objects are not among the sources). *)
Variable prohibited_admin_bond_modes : list string.
Variable NIC_dpdk_available : option Interface → json → bool.
Variable Bond_dpdk_available : Interface → json → bool.

(** [next(NICCollection.filter_by(db_interfaces, id=id_), None)] *)
Definition _get_iface_by_id (id_ : json) (db_interfaces : list Interface)
  : option Interface :=
  List.find (fun i => json_eqb (JNum (iface_id i)) id_) db_interfaces.

Definition _get_iface_by_name (name : json) (db_interfaces : list Interface)
  : option Interface :=
  List.find (fun i => json_eqb (JStr (iface_name i)) name) db_interfaces.

(** An attribute of a relationship that may be [None]. *)
Definition attr {A : Type} (o : option A) : result A :=
  match o with
  | Some a => Ok a
  | None => Raise (PyError "AttributeError")
  end.

(** [if cond: raise e], the message formatting [iface['name']]. *)
Definition raise_named (cond : bool) (iface : dict) (mk : json → error)
  : result unit :=
  if cond then name ← getitem "name" iface; Raise (mk name) else Ok tt.

(** [x[k]] for a value expected to be a dict. *)
Definition item (k : string) (x : json) : result json :=
  d ← as_dict x; getitem k d.

Definition _verify_sriov_properties (iface : Interface) (data : dict)
    (db_node : DbNode) : result unit :=
  let non_changeable := ["sriov_totalvfs"; "available"; "pci_id"] in
  sriov_data ← getitem "interface_properties" data ≫= item "sriov";
  sriov_db ← getitem "sriov" (iface_interface_properties iface) ≫= as_dict;
  sriov_data ← as_dict sriov_data;
  let sriov_new := dict_update sriov_db sriov_data in
  enabled ← getitem "enabled" sriov_new;
  (if truthy enabled then
     (* check hypervisor type *)
     c ← attr (cluster db_node);
     raise_if (negb (json_eqb (libvirt_type c) (JStr consts.HYPERVISORS.kvm)))
       (InvalidData (TStr "Only KVM hypervisor works with SR-IOV."))
   else Ok tt) ;;
  for_each (fun param_name =>
              old ← getitem param_name sriov_db;
              new ← getitem param_name sriov_new;
              raise_if (negb (json_eqb old new))
                (InvalidData
                   (TFormat "Node '{0}' interface '{1}': SR-IOV parameter '{2}' cannot be changed through API"
                            [TVal (JNum (id db_node));
                             TVal (JStr (iface_name iface));
                             TVal (JStr param_name)])))
           non_changeable ;;
  available ← getitem "available" sriov_db;
  raise_if (negb (truthy available) && truthy enabled)
    (InvalidData
       (TFormat "Node '{0}' interface '{1}': SR-IOV cannot be enabled as it is not available"
                [TVal (JNum (id db_node)); TVal (JStr (iface_name iface))])) ;;
  numvfs ← getitem "sriov_numvfs" sriov_new;
  raise_if (negb (truthy numvfs) && truthy enabled)
    (InvalidData
       (TFormat "Node '{0}' interface '{1}': virtual functions can not be enabled for interface when 'sriov_numfs' option is not specified!"
                [TVal (JNum (id db_node)); TVal (JStr (iface_name iface))])) ;;
  totalvfs ← getitem "sriov_totalvfs" sriov_db;
  raise_if (py_lt totalvfs numvfs)
    (InvalidData
       (TFormat "Node '{0}' interface '{1}': '{2}' virtual functions was requested but just '{3}' are available"
                [TVal (JNum (id db_node)); TVal (JStr (iface_name iface));
                 TVal numvfs; TVal totalvfs])) ;;
  raise_if (truthy enabled
            && truthy (get_or "assigned_networks"
                              (JList (map JNum (iface_assigned_networks iface)))
                              data))
    (InvalidData
       (TFormat "Node '{0}' interface '{1}': SR-IOV cannot be enabled when networks are assigned to the interface"
                [TVal (JNum (id db_node)); TVal (JStr (iface_name iface))])).

(** [[n.get('name') for n in iface.get('assigned_networks')]] *)
Definition iface_nets_of (iface : dict) : result (list json) :=
  nets ← as_list (get "assigned_networks" iface);
  map_result (fun n => d ← as_dict n; Ok (get "name" d)) nets.

(** [consts.NETWORKS.fuelweb_admin in iface_nets] *)
Definition has_admin (iface_nets : list json) : bool :=
  existsb (json_eqb (JStr consts.NETWORKS.fuelweb_admin)) iface_nets.

Definition admin_on_non_pxe_msg (node_id name : json) : text :=
  TFormat "Node '{0}': admin network can not be assigned to non-pxe interface {1}"
          [TVal node_id; TVal name].

Definition admin_bond_mode_msg (node_id name bond_mode : json) : text :=
  TFormat "Node '{0}': interface '{1}' belongs to admin network and has lacp mode '{2}'"
          [TVal node_id; TVal name; TVal bond_mode].

Definition admin_bond_no_pxe_msg (node_id name pxe : json) : text :=
  TFormat "Node '{0}': interface '{1}' belongs to admin network and doesn't contain node's pxe interface '{2}'"
          [TVal node_id; TVal name; TVal pxe].

(** The [ether] branch of the first loop (lines 692-709). *)
Definition verify_ether (node_id : json) (db_node : DbNode)
    (db_interfaces : list Interface) (iface : dict) (iface_nets : list json)
  : result unit :=
  iface_id ← getitem "id" iface;
  match _get_iface_by_id iface_id db_interfaces with
  | None =>
      Raise (InvalidData
               (TFormat "Node '{0}': there is no interface with ID '{1}' in DB"
                        [TVal node_id; TVal iface_id]))
  | Some db_iface =>
      raise_named (negb (iface_pxe db_iface) && has_admin iface_nets) iface
        (fun name => InvalidData (admin_on_non_pxe_msg node_id name)) ;;
      props ← as_dict (get_or "interface_properties" (JDict []) iface);
      if truthy (get "sriov" props)
      then _verify_sriov_properties db_iface iface db_node
      else Ok tt
  end.

(** [interfaces_by_name.get(name, {})]: the last interface of that name. *)
Definition by_name_get (interfaces_by_name : list (json * dict)) (name : json)
  : dict :=
  match List.find (fun kv => json_eqb (fst kv) name)
                  (rev interfaces_by_name) with
  | Some kv => snd kv
  | None => []
  end.

(** The body of [for slave in iface['slaves']] (lines 713-747); the state
    is [pxe_iface_present] and [bonded_eth_ids]. *)
Definition verify_slave (node_id : json) (db_interfaces : list Interface)
    (interfaces_by_name : list (json * dict)) (pxe_iface_name : json)
    (iface : dict) (st : bool * gset Z) (slave : json)
  : result (bool * gset Z) :=
  let '(pxe_iface_present, bonded_eth_ids) := st in
  slave_name ← item "name" slave;
  let db_slave := _get_iface_by_name slave_name db_interfaces in
  let pxe_iface_present :=
    if json_eqb slave_name pxe_iface_name then true else pxe_iface_present in
  match db_slave with
  | Some db_slave =>
      raise_if (bool_decide (iface_id db_slave ∈ bonded_eth_ids))
        (InvalidData
           (TFormat "Node '{0}': interface '{1}' is used in bonds more than once"
                    [TVal node_id; TVal (JNum (iface_id db_slave))])) ;;
      let cur_iface := by_name_get interfaces_by_name slave_name in
      iface_props ←
        as_dict (dict_merge (JDict (iface_interface_properties db_slave))
                            (get_or "interface_properties" (JDict []) cur_iface));
      sriov ← as_dict (get_or "sriov" (JDict []) iface_props);
      raise_if (truthy (get "enabled" sriov))
        (InvalidData
           (TFormat "Node '{0}': bond '{1}' cannot contain SRIOV enabled interface '{2}'"
                    [TVal node_id; TVal (get "name" iface); TVal slave_name])) ;;
      Ok (pxe_iface_present, {[iface_id db_slave]} ∪ bonded_eth_ids)
  | None =>
      Raise (InvalidData
               (TFormat "Node '{0}': there is no interface '{1}' found for bond '{2}' in DB"
                        [TVal node_id; TVal slave_name; TVal (get "name" iface)]))
  end.

(** The [bond] branch of the first loop (lines 711-767). *)
Definition verify_bond (node_id : json) (db_node : DbNode)
    (db_interfaces : list Interface) (interfaces_by_name : list (json * dict))
    (iface : dict) (iface_nets : list json) (bonded_eth_ids : gset Z)
  : result (gset Z) :=
  slaves ← getitem "slaves" iface ≫= as_list;
  '(pxe_iface_present, bonded_eth_ids) ←
    for_fold (verify_slave node_id db_interfaces interfaces_by_name
                           (pxe_iface_name db_node) iface)
             (false, bonded_eth_ids) slaves;
  if has_admin iface_nets then
    bond_mode ← NetAssignmentValidator.get_bond_mode iface;
    raise_named (in_names bond_mode prohibited_admin_bond_modes) iface
      (fun name => InvalidData (admin_bond_mode_msg node_id name bond_mode)) ;;
    raise_named (negb pxe_iface_present) iface
      (fun name =>
         InvalidData
           (admin_bond_no_pxe_msg node_id name (pxe_iface_name db_node))) ;;
    Ok bonded_eth_ids
  else Ok bonded_eth_ids.

(** Lines 548-620 of [_verify_iface_dpdk_properties]: the database row of
    the interface, the resolved [interface_properties] and [enabled], and
    the checks that come before the MTU one. *)
Definition dpdk_resolve (iface : dict) (db_interfaces : list Interface)
    (dpdk_drivers : json) (is_slave : bool) : result (dict * json) :=
  db_iface ←
    match _get_iface_by_id (get "id" iface) db_interfaces with
    | Some i => Ok (Some i)
    | None =>
        name ← getitem "name" iface;
        Ok (_get_iface_by_name name db_interfaces)
    end;
  '(hw_available, interface_properties, enabled) ←
    match db_iface with
    | None =>
        (* looks like user creates new bond:
           let's check every slave in input data *)
        slaves ← getitem "slaves" iface ≫= as_list;
        hw_available ←
          for_fold (fun hw slave =>
                      name ← item "name" slave;
                      Ok (hw && NIC_dpdk_available
                                  (_get_iface_by_name name db_interfaces)
                                  dpdk_drivers))
                   (match slaves with [] => false | _ => true end) slaves;
        interface_properties ←
          as_dict (get_or "interface_properties" (JDict []) iface);
        dpdk ← as_dict (get_or "dpdk" (JDict []) interface_properties);
        let enabled := get_or "enabled" (JBool false) dpdk in
        bond_properties ←
          as_dict (get_or "bond_properties" (JDict []) iface);
        let bond_type := get "type__" bond_properties in
        raise_named (json_eqb bond_type (JStr consts.BOND_TYPES.dpdkovs)
                     && negb (truthy enabled)) iface
          (fun name =>
             InvalidData
               (TFormat "Bond interface '{0}': DPDK should be enabled for 'dpdkovs' bond type"
                        [TVal name])) ;;
        raise_named (negb (json_eqb bond_type (JStr consts.BOND_TYPES.dpdkovs))
                     && truthy enabled) iface
          (fun name =>
             InvalidData
               (TFormat "Bond interface '{0}': DPDK can be enabled only for 'dpdkovs' bond type"
                        [TVal name])) ;;
        Ok (hw_available, interface_properties, enabled)
    | Some db_iface =>
        type ← getitem "type" iface;
        hw_available ←
          (if json_eqb type (JStr consts.NETWORK_INTERFACE_TYPES.ether)
           then Ok (NIC_dpdk_available (Some db_iface) dpdk_drivers)
           else if json_eqb type (JStr consts.NETWORK_INTERFACE_TYPES.bond)
           then Ok (Bond_dpdk_available db_iface dpdk_drivers)
           else Raise (PyError "UnboundLocalError"));
        interface_properties ←
          as_dict (dict_merge
                     (JDict (iface_interface_properties db_iface))
                     (get_or "interface_properties" (JDict []) iface));
        dpdk ← as_dict (get_or "dpdk" (JDict []) interface_properties);
        Ok (hw_available, interface_properties,
            get_or "enabled" (JBool false) dpdk)
    end;
  (* check basic parameters *)
  raise_named (negb hw_available && truthy enabled) iface
    (fun name =>
       InvalidData (TFormat "DPDK is not available for '{}'" [TVal name])) ;;
  match db_iface with
  | Some db_iface =>
      let pci_id := get "pci_id" interface_properties in
      let db_pci_id := get "pci_id" (iface_interface_properties db_iface) in
      raise_named (negb (json_eqb pci_id db_pci_id)) iface
        (fun name =>
           InvalidData
             (TFormat "PCI-ID of '{}' can't be changed manually" [TVal name]))
  | None => Ok tt
  end ;;
  (* check that dpdk interface has only one network == 'private' *)
  nets ← getitem "assigned_networks" iface;
  only_private ←
    (if truthy enabled && negb is_slave then
       l ← as_list nets;
       match l with
       | [net] =>
           name ← item "name" net;
           Ok (json_eqb name (JStr consts.NETWORKS.private))
       | _ => Ok false
       end
     else Ok true);
  raise_named (negb only_private) iface
    (fun name =>
       InvalidData
         (TFormat "Only private network could be assigned to interface '{}' where DPDK is enabled"
                  [TVal name])) ;;
  Ok (interface_properties, enabled).

Definition dpdk_mtu_msg (name : json) : text :=
  TFormat "For interface '{}' with enabled DPDK MTU size must be less than 1500 bytes"
          [TVal name].

Definition _verify_iface_dpdk_properties (iface : dict)
    (db_interfaces : list Interface) (dpdk_drivers : json) (is_slave : bool)
  : result json :=
  '(interface_properties, enabled) ←
    dpdk_resolve iface db_interfaces dpdk_drivers is_slave;
  (* check mtu <= 1500 *)
  let mtu := get "mtu" interface_properties in
  raise_named (truthy enabled && negb (is_none mtu) && py_gt mtu (JNum 1500))
    iface (fun name => InvalidData (dpdk_mtu_msg name)) ;;
  Ok enabled.

(** [acc |= enabled]: the operands of [|] must be numbers. *)
Definition or_assign (acc : bool) (enabled : json) : result bool :=
  match as_number enabled with
  | Some n => Ok (acc || negb (n =? 0))
  | None => Raise (PyError "TypeError")
  end.

Definition _verify_interfaces_dpdk_properties (interfaces : list json)
    (db_interfaces : list Interface) (dpdk_drivers : json) : result bool :=
  slaves ←
    for_fold (fun acc iface =>
                i ← as_dict iface;
                l ← as_list (get_or "slaves" (JList []) i);
                names ← map_result (item "name") l;
                Ok (app acc names))
             [] interfaces;
  for_fold (fun dpdk_enabled iface =>
              i ← as_dict iface;
              name ← getitem "name" i;
              enabled ← _verify_iface_dpdk_properties
                          i db_interfaces dpdk_drivers
                          (existsb (json_eqb name) slaves);
              or_assign dpdk_enabled enabled)
           false interfaces.

Definition _verify_node_dpdk_properties (db_node : DbNode) : result unit :=
  raise_if (negb (dpdk_hugepages_enabled db_node))
    (InvalidData
       (TFormat "Hugepages for DPDK are not configured for node '{}'"
                [TVal (JNum (id db_node))])) ;;
  raise_if (negb (nova_hugepages_enabled db_node))
    (InvalidData
       (TFormat "Hugepages for Nova are not configured for node '{}'"
                [TVal (JNum (id db_node))])) ;;
  (* check hypervisor type *)
  c ← attr (cluster db_node);
  raise_if (negb (json_eqb (libvirt_type c) (JStr consts.HYPERVISORS.kvm)))
    (InvalidData (TStr "Only KVM hypervisor works with DPDK.")).

(** [NetworkGroup.get_default_admin_network().id] *)
Variable default_admin_network_id : Z.

Definition key_of_id (n : Z) : key := Some (inl n).

Definition json_of_key (k : key) : json :=
  match k with
  | None => JNull
  | Some (inl n) => JNum n
  | Some (inr s) => JStr s
  end.

(** [net_group_ids.discard(public_id)] for the id of the group's network
    named [public], if there is one. *)
Definition discard_public (node_group_db : NodeNodeGroup)
    (net_group_ids : gset key) : gset key :=
  match List.find (fun n => String.eqb (snd n) consts.NETWORKS.public)
                  (group_networks node_group_db) with
  | Some n => net_group_ids ∖ {[key_of_id (fst n)]}
  | None => net_group_ids
  end.

Definition check_networks_are_acceptable_for_node_to_assign
    (interfaces : list json) (node_db : DbNode) : result unit :=
  (* get list of available networks for the node via nodegroup *)
  node_group_db ← attr (nodegroup node_db);
  let net_group_ids : gset key :=
    list_to_set (map (fun n => key_of_id (fst n))
                     (group_networks node_group_db)) in
  let net_group_ids : gset key :=
    if group_is_default node_group_db
    then {[key_of_id default_admin_network_id]} ∪ net_group_ids
    else net_group_ids in
  net_ids ←
    for_fold (fun (acc : gset key) iface =>
                nets ← item "assigned_networks" iface ≫= as_list;
                ids ← map_result (fun net => item "id" net ≫= hashable) nets;
                Ok (list_to_set ids ∪ acc))
             (∅ : gset key) interfaces;
  if bool_decide (net_ids = ∅) then Ok tt
  else if negb (bool_decide (net_ids ⊆ net_group_ids)) then
    let invalid_ids : gset key := net_ids ∖ net_group_ids in
    Raise (InvalidData
             (TFormat "Node '{0}': networks with IDs '{1}' cannot be used because they are not in node group '{2}'"
                      [TVal (JNum (id node_db));
                       TJoin ", " (map (fun k => TVal (json_of_key k))
                                       (elements invalid_ids));
                       TVal (JStr (group_name node_group_db))]))
  else
    let net_group_ids : gset key :=
      if negb (should_have_public node_db)
      then discard_public node_group_db net_group_ids
      else net_group_ids in
    let unassigned_net_ids : gset key := net_group_ids ∖ net_ids in
    raise_if (negb (bool_decide (unassigned_net_ids = ∅)))
      (InvalidData
         (TFormat "Node '{0}': {1} network(s) are left unassigned"
                  [TVal (JNum (id node_db));
                   TJoin "," (map (fun k => TVal (json_of_key k))
                                  (elements unassigned_net_ids))])).

(** The items of [sep.join(items)]: every item must be a string. *)
Definition join_items (items : list json) : result (list text) :=
  map_result (fun x =>
                match x with
                | JStr s => Ok (TVal (JStr s))
                | _ => Raise (PyError "TypeError")
                end)
             items.

(** The body of the first [for iface in interfaces] (lines 676-767); the
    state is [bonded_eth_ids]. *)
Definition verify_iface (node_id : json) (db_node : DbNode)
    (db_interfaces : list Interface) (interfaces_by_name : list (json * dict))
    (bonded_eth_ids : gset Z) (iface : json) : result (gset Z) :=
  i ← as_dict iface;
  iface_nets ← iface_nets_of i;
  (* networks can be assigned only to nodes added into cluster *)
  (if match iface_nets with [] => false | _ => true end
      && match cluster db_node with None => true | Some _ => false end
   then
     names ← join_items iface_nets;
     Raise (InvalidData
              (TFormat "Node '{0}': networks {1} cannot be assigned as the node is not added to any cluster"
                       [TVal node_id; TJoin ", " names]))
   else Ok tt) ;;
  type ← getitem "type" i;
  if json_eqb type (JStr consts.NETWORK_INTERFACE_TYPES.ether) then
    verify_ether node_id db_node db_interfaces i iface_nets ;;
    Ok bonded_eth_ids
  else if json_eqb type (JStr consts.NETWORK_INTERFACE_TYPES.bond) then
    verify_bond node_id db_node db_interfaces interfaces_by_name i iface_nets
                bonded_eth_ids
  else Ok bonded_eth_ids.

(** The body of the second [for iface in interfaces] (lines 769-778). *)
Definition verify_not_bonded (node_id : json) (bonded_eth_ids : gset Z)
    (iface : json) : result unit :=
  i ← as_dict iface;
  type ← getitem "type" i;
  if json_eqb type (JStr consts.NETWORK_INTERFACE_TYPES.ether) then
    iface_id ← getitem "id" i;
    k ← hashable iface_id;
    if match k with
       | Some (inl n) => bool_decide (n ∈ bonded_eth_ids)
       | _ => false
       end
    then
      nets ← getitem "assigned_networks" i ≫= as_list;
      raise_if (0 <? length nets)%nat
        (InvalidData
           (TFormat "Node '{0}': interface '{1}' cannot have assigned networks as it is used in bond"
                    [TVal node_id; TVal iface_id]))
    else Ok tt
  else Ok tt.

(** [{iface['name']: iface for iface in interfaces}], as the list of its
    items in the order they are set. *)
Definition index_by_name (interfaces : list json)
  : result (list (json * dict)) :=
  map_result (fun iface =>
                i ← as_dict iface;
                name ← getitem "name" i;
                hashable name ;;
                Ok (name, i))
             interfaces.

(** [db().query(Node).filter_by(id=node['id']).first()] *)
Definition query_node (db_nodes : list DbNode) (node_id : json)
  : option DbNode :=
  List.find (fun n => json_eqb (JNum (id n)) node_id) db_nodes.

Definition verify_data_correctness (db_nodes : list DbNode) (node : dict)
  : result unit :=
  node_id ← getitem "id" node;
  match query_node db_nodes node_id with
  | None =>
      Raise (InvalidData
               (TFormat "There is no node with ID '{0}' in DB" [TVal node_id]))
  | Some db_node =>
      raise_if (is_interfaces_configuration_locked db_node)
        (InvalidData
           (TFormat "Node '{0}': Interfaces configuration can't be changed after or during deployment."
                    [TVal (JNum (id db_node))])) ;;
      interfaces ← getitem "interfaces" node ≫= as_list;
      interfaces_by_name ← index_by_name interfaces;
      let db_interfaces := nic_interfaces db_node in
      raise_if (negb (truthy (pxe_iface_name db_node)))
        (InvalidData
           (TFormat "Node '{0}': Interfaces configuration can't be changed ifthere is no pxe interface in DB"
                    [TVal node_id])) ;;
      bonded_eth_ids ←
        for_fold (verify_iface node_id db_node db_interfaces
                               interfaces_by_name)
                 ∅ interfaces;
      for_each (verify_not_bonded node_id bonded_eth_ids) interfaces ;;
      let dpdk_drivers :=
        match cluster db_node with
        | Some c => supported_dpdk_drivers c
        | None => JDict []
        end in
      let db_interfaces := node_models.interfaces db_node in
      (* checks dpdk settings for every interface *)
      dpdk_enabled ←
        _verify_interfaces_dpdk_properties interfaces db_interfaces
                                           dpdk_drivers;
      (* run node validations if dpdk enabled on node *)
      (if dpdk_enabled : bool
       then _verify_node_dpdk_properties db_node else Ok tt) ;;
      match cluster db_node with
      | Some _ =>
          check_networks_are_acceptable_for_node_to_assign interfaces db_node
      | None => Ok tt
      end
  end.

End DataCorrectness.
End NetAssignmentData.

(** ** [IPAddrValidator] *)

Module IPAddrValidator.
Section Validator.

Variable loads : string → option json.
Variable schema_error : string → json → option text.

(** A request body: the raw string, or the already parsed value. *)
Inductive payload : Type :=
| Raw (s : string)
| Parsed (j : json).

Definition updatable_fields : list string :=
  ["ip_addr"; "is_user_defined"; "vip_namespace"].

Definition nl : string := String (Ascii.ascii_of_nat 10) EmptyString.

(** [isinstance(data, six.string_types)] then [validate_json(data)] *)
Definition parse (data : payload) : result json :=
  match data with
  | Raw s => BasicValidator.validate_json loads s
  | Parsed j => Ok j
  end.

(** [dict(existing_obj)]: the columns of the row. *)
Definition json_of_id (o : option Z) : json :=
  match o with Some n => JNum n | None => JNull end.

Definition ipaddr_dict (a : IPAddr) : dict :=
  [("id", JNum (ipaddr_id a));
   ("network", json_of_id (ipaddr_network a));
   ("node", json_of_id (ipaddr_node a));
   ("ip_addr", JStr (ipaddr_ip_addr a));
   ("vip_name", ipaddr_vip_name a);
   ("vip_namespace", ipaddr_vip_namespace a);
   ("is_user_defined", JBool (ipaddr_is_user_defined a))].

(** Modelled from the spec: [IPAddrCollection.get_all_by_addr] (the IP
    address objects are not among the sources): the rows holding the
    address, whatever their network (section 4.5, "allocated anywhere");
    [.first()] is the head of the list. *)
Definition get_all_by_addr (db : Database) (addr : json) : list IPAddr :=
  List.filter (fun a => json_eqb (JStr (ipaddr_ip_addr a)) addr) (ip_addrs db).

(** [row.network_data] *)
Definition network_data (db : Database) (a : IPAddr) : option NetworkGroup :=
  match ipaddr_network a with
  | Some n => get_network_group db n
  | None => None
  end.

(** The cluster a row belongs to, through its network and node group. *)
Definition ipaddr_cluster_id (db : Database) (a : IPAddr) : option Z :=
  match network_data db a with
  | Some ng =>
      match ng_nodegroup db ng with
      | Some g => nodegroup_cluster_id g
      | None => None
      end
  | None => None
  end.

(** Modelled from the spec: [IPAddrCollection.get_vips_by_cluster_id]: the
    VIP rows ([vip_name] set, section 3) whose network belongs to a node
    group of the cluster. *)
Definition get_vips_by_cluster_id (db : Database) (cluster_id : Z)
  : list IPAddr :=
  List.filter
    (fun a => negb (is_none (ipaddr_vip_name a))
              && opt_id_eqb (ipaddr_cluster_id db a) (Some cluster_id))
    (ip_addrs db).

Definition _check_vip_name (data : dict) (cluster : Cluster) : result unit :=
  let network_roles := cluster_network_roles cluster in
  allowed_vip_names ←
    for_fold (fun acc net_role =>
                r ← as_dict net_role;
                props ← as_dict (get_or "properties" (JDict []) r);
                vip_info ← as_list (get_or "vip" (JList []) props);
                names ← map_result (fun vip => dflt ← as_dict vip;
                                               getitem "name" dflt) vip_info;
                Ok (app acc names))
             [] network_roles;
  vip_name ← getitem "vip_name" data;
  raise_if (negb (existsb (json_eqb vip_name) allowed_vip_names))
    (InvalidData
       (TFormat "Name {0} is not found in VIP metadata for network roles of cluster with id {1}"
                [TVal vip_name; TVal (JNum (cluster_id cluster))])).

Definition address_in_use_msg (addr : json) : text :=
  TFormat "VIP cannot be created as ip address {0} is already in use"
          [TVal addr].

Definition validate_create (db : Database) (data : payload)
    (cluster : Cluster) : result json :=
  data ← parse data;
  BasicValidator.validate_schema schema_error data "VIP_CREATE_SCHEMA" ;;
  d ← as_dict data;
  raise_if (match get "is_user_defined" d with
            | JBool false => true
            | _ => false
            end)
    (InvalidData
       (TStr "'is_user_defined' flag must be set to true for manually created VIPs")) ;;
  _check_vip_name d cluster ;;
  network_id ← getitem "network" d;
  match NetworkGroupValidator.query_get db network_id with
  | None =>
      Raise (InvalidData
               (TFormat "Network group with id {0} is not found"
                        [TVal network_id]))
  | Some network_db =>
      match ng_nodegroup db network_db with
      | None =>
          Raise (InvalidData
                   (TFormat "Network group with id {0} is not currently assigned to any nodegroup"
                            [TVal (JNum (ng_id network_db))]))
      | Some nodegroup =>
          raise_if (negb (opt_id_eqb (nodegroup_cluster_id nodegroup)
                                     (Some (cluster_id cluster))))
            (InvalidData
               (TFormat "VIP cannot be created as there is no network with id {0} assigned to any of nodegroups of cluster with id {1}"
                        [TVal network_id; TVal (JNum (cluster_id cluster))])) ;;
          ip_addr ← getitem "ip_addr" d;
          match get_all_by_addr db ip_addr with
          | _ :: _ => Raise (InvalidData (address_in_use_msg ip_addr))
          | [] => Ok data
          end
      end
  end.

Definition intersection_msg (addr name cidr : json) : text :=
  TFormat "IP address {0} is already allocated within {1} network with CIDR {2}"
          [TVal addr; TVal name; TVal cidr].

(** [a is not b] for two rows of one table: they are the same object
    exactly when they have the same primary key. *)
Definition is_not (a b : IPAddr) : bool :=
  negb (ipaddr_id a =? ipaddr_id b).

Definition _check_vip_addr_intersection (db : Database)
    (ip_instance : IPAddr) (addr : json) : result unit :=
  match get_all_by_addr db addr with
  | intersecting_ip :: _ =>
      if is_not intersecting_ip ip_instance then
        match network_data db intersecting_ip with
        | Some ng =>
            Raise (AlreadyExists
                     (intersection_msg addr (JStr (ng_name ng)) (ng_cidr ng)))
        | None => Raise (PyError "AttributeError")
        end
      else Ok tt
  | [] => Ok tt
  end.

(** The fields of [data] that differ from the row and may not be updated. *)
Definition bad_fields_of (data existing_data : dict) : list string :=
  map fst
      (List.filter
         (fun kv => negb (json_eqb (snd kv) (get (fst kv) existing_data))
                    && negb (existsb (String.eqb (fst kv)) updatable_fields))
         data).

Definition not_updatable_msg (bad_fields : list string) (data : json) : text :=
  TJoin nl
    [TFormat "The following fields: {0} are not allowed to be updated for record: {1}"
             [TJoin ", " (map (fun bf => TRepr (JStr bf)) bad_fields);
              TDumps data]].

Definition validate_update (db : Database) (data : payload)
    (existing_obj : IPAddr) : result json :=
  data ← parse data;
  let existing_data := ipaddr_dict existing_obj in
  d ← as_dict data;
  let bad_fields := bad_fields_of d existing_data in
  raise_if (match bad_fields with [] => false | _ => true end)
    (InvalidData (not_updatable_msg bad_fields data)) ;;
  (* we have to check if user defined vip is not intersecting
     with other ips from existing clusters *)
  (if truthy (get "is_user_defined" d) && truthy (get "ip_addr" d)
   then _check_vip_addr_intersection db existing_obj (get "ip_addr" d)
   else Ok tt) ;;
  Ok data.

Definition not_in_cluster_msg (record_id : json) (cluster_id : Z) : text :=
  TFormat "IPAddr with (ID={0}) does not exist or does not belong to cluster (ID={1})"
          [TVal record_id; TVal (JNum cluster_id)].

(** The body of [for record in data_to_update]; the state is
    [error_messages]. *)
Definition check_record (db : Database) (cluster_id : Z)
    (existing_instances : list IPAddr) (error_messages : list text)
    (record : json) : result (list text) :=
  r ← dict_method record;
  let instance :=
    List.find (fun a => json_eqb (JNum (ipaddr_id a)) (get "id" r))
              existing_instances in
  match instance with
  | Some instance =>
      match validate_update db (Parsed record) instance with
      | Ok _ => Ok error_messages
      | Raise (InvalidData message) => Ok (app error_messages [message])
      | Raise e => Raise e
      end
  | None =>
      Ok (app error_messages [not_in_cluster_msg (get "id" r) cluster_id])
  end.

Definition validate_collection_update (db : Database) (data : string)
    (cluster_id : Z) : result json :=
  data_to_update ← BasicValidator.validate_json loads data;
  let existing_instances := get_vips_by_cluster_id db cluster_id in
  records ← py_iter data_to_update;
  error_messages ←
    for_fold (check_record db cluster_id existing_instances) [] records;
  match error_messages with
  | [] => Ok data_to_update
  | _ => Raise (InvalidData (TJoin nl error_messages))
  end.

End Validator.
End IPAddrValidator.

(** ** Default placement of a network ([nailgun/objects/node.py]) *)

Module Node.

(** A network group as the placement reads it. *)
Record Network : Type := {
  net_id : Z;
  net_name : string;
  net_meta : dict;
  (* NetworkGroup.is_untagged(network) *)
  net_untagged : bool;
}.

(** A node: its interfaces are known by their names; a bond lists the
    names of its slaves, which are NICs of the node.  The
    [assigned_networks_list] of every interface is kept in one store, which
    the placement updates. *)
Record t : Type := {
  name : string;
  nic_interfaces : list string;
  bond_interfaces : list (string * list string);
  assigned_networks : gmap string (list Network);
}.

(** [node.interfaces] *)
Definition interfaces (node : t) : list string :=
  app (nic_interfaces node) (map fst (bond_interfaces node)).

(** [iface.assigned_networks_list] *)
Definition assigned_networks_list (node : t) (iface : string)
  : list Network :=
  default [] (assigned_networks node !! iface).

(** Modelled from the spec: [NIC.assign_networks] (the interface objects
    are not among the sources); section 4.6 has the placement put the
    network on the interface: the list given replaces the interface's. *)
Definition assign_networks (node : t) (iface : string)
    (networks : list Network) : t :=
  {| name := name node;
     nic_interfaces := nic_interfaces node;
     bond_interfaces := bond_interfaces node;
     assigned_networks := <[iface := networks]> (assigned_networks node) |}.

(** [a ^ b] on sets *)
Definition symmetric_difference (a b : gset string) : gset string :=
  (a ∖ b) ∪ (b ∖ a).

Fixpoint insert_sorted (x : string) (l : list string) : list string :=
  match l with
  | [] => [x]
  | y :: l' => if String.leb x y then x :: l else y :: insert_sorted x l'
  end.

(** [sorted(names)] *)
Definition sorted (l : list string) : list string :=
  fold_right insert_sorted [] l.

Definition get_interfaces_without_bonds_slaves (node : t) : list string :=
  let ifaces : gset string := list_to_set (interfaces node) in
  let ifaces :=
    fold_left (fun acc bond =>
                 symmetric_difference acc (list_to_set (snd bond)))
              (bond_interfaces node) ifaces in
  sorted (elements ifaces).

(** [net == network]: the same row. *)
Definition same_network (a b : Network) : bool := net_id a =? net_id b.

(** [net.meta.get('dedicated_nic')] *)
Definition dedicated_nic (net : Network) : bool :=
  truthy (get "dedicated_nic" (net_meta net)).

(** How the inner [for net in iface.assigned_networks_list] ends. *)
Inductive scan : Type :=
| Break      (* the interface cannot take the network *)
| Return     (* the network is already assigned *)
| Else.      (* the loop ran to its end *)

Fixpoint scan_networks (network : Network) (nets : list Network) : scan :=
  match nets with
  | [] => Else
  | net :: nets' =>
      if dedicated_nic net then Break
      else if same_network net network then Return
      else if net_untagged network && net_untagged net then Break
      else scan_networks network nets'
  end.

(** How the outer [for iface in ifaces] ends. *)
Inductive placement : Type :=
| Assigned (iface : string)   (* assigned to this interface, then break *)
| Unchanged                   (* return *)
| Fallback.                   (* the loop's else clause *)

Fixpoint place (node : t) (network : Network) (ifaces : list string)
  : placement :=
  match ifaces with
  | [] => Fallback
  | iface :: ifaces' =>
      let nets := assigned_networks_list node iface in
      if dedicated_nic network && match nets with [] => false | _ => true end
      then place node network ifaces'
      else match scan_networks network nets with
           | Break => place node network ifaces'
           | Return => Unchanged
           | Else => Assigned iface
           end
  end.

Definition assign_network_to_interface (node : t) (network : option Network)
  : result t :=
  match network with
  | None => Ok node
  | Some network =>
      let ifaces := get_interfaces_without_bonds_slaves node in
      match place node network ifaces with
      | Assigned iface =>
          let assigned_nets :=
            app (assigned_networks_list node iface) [network] in
          Ok (assign_networks node iface assigned_nets)
      | Unchanged => Ok node
      | Fallback =>
          (* Cannot assign network appropriately: set it to ifaces[0] *)
          match ifaces with
          | first :: _ =>
              let assigned_nets :=
                app (assigned_networks_list node first) [network] in
              Ok (assign_networks node first assigned_nets)
          | [] => Raise (PyError "IndexError")
          end
      end
  end.

(** The default assignment: [assign_network_to_interface] for each network
    in turn. *)
Definition assign_networks_to_interfaces (node : t)
    (networks : list Network) : result t :=
  for_fold (fun node network =>
              assign_network_to_interface node (Some network))
           node networks.

End Node.

(** ** [NetAssignmentValidator]: structure and data together *)

Module NetAssignmentEntry.
Section Entry.

Variable loads : string → option json.
Variable BOND_PROPERTIES : list string.
Variable BOND_MODES : list string.
Variable prohibited_admin_bond_modes : list string.
Variable NIC_dpdk_available : option node_models.Interface → json → bool.
Variable Bond_dpdk_available : node_models.Interface → json → bool.
Variable default_admin_network_id : Z.

(** [cls.validate(node_data)] then [cls.verify_data_correctness(node_data)] *)
Definition validate_and_verify (db_nodes : list node_models.DbNode)
    (node_data : json) : result unit :=
  NetAssignmentValidator.validate BOND_PROPERTIES BOND_MODES node_data ;;
  n ← as_dict node_data;
  NetAssignmentData.verify_data_correctness
    prohibited_admin_bond_modes NIC_dpdk_available Bond_dpdk_available
    default_admin_network_id db_nodes n.

Definition validate_collection_structure_and_data
    (db_nodes : list node_models.DbNode) (webdata : string) : result json :=
  data ← BasicValidator.validate_json loads webdata;
  match data with
  | JList nodes =>
      for_each (validate_and_verify db_nodes) nodes ;;
      Ok data
  | _ => Raise (InvalidData (TStr "Data should be list of nodes"))
  end.

Definition validate_structure_and_data (db_nodes : list node_models.DbNode)
    (webdata : string) (node_id : json) : result json :=
  interfaces_data ← BasicValidator.validate_json loads webdata;
  let node_data := JDict [("id", node_id); ("interfaces", interfaces_data)] in
  validate_and_verify db_nodes node_data ;;
  Ok interfaces_data.

End Entry.
End NetAssignmentEntry.

(** ** The public network of a node ([nailgun/objects/node.py]) *)

Module NodePublic.
Import Node.

(** [next(NetworkGroupCollection.filter_by(node.nodegroup.networks,
    name=consts.NETWORKS.public), None)]; [nodegroup_networks] is
    [node.nodegroup.networks], [None] for a node without node group. *)
Definition public_net (nodegroup_networks : option (list Network))
  : result (option Network) :=
  match nodegroup_networks with
  | Some networks =>
      Ok (List.find (fun n => String.eqb (net_name n) consts.NETWORKS.public)
                    networks)
  | None => Raise (PyError "AttributeError")
  end.

Definition assign_public_network (node : t)
    (nodegroup_networks : option (list Network)) : result t :=
  public_net ← public_net nodegroup_networks;
  assign_network_to_interface node public_net.

(** [network_list.remove(x)]: without its first occurrence. *)
Fixpoint remove (x : Network) (network_list : list Network) : list Network :=
  match network_list with
  | [] => []
  | net :: network_list' =>
      if same_network net x then network_list'
      else net :: remove x network_list'
  end.

(** The body of [for iface in ifaces] of [unassign_public_network]. *)
Definition unassign_from (public_net : option Network) (node : t)
    (iface : string) : t :=
  let network_list := assigned_networks_list node iface in
  match public_net with
  | Some public_net =>
      if existsb (fun net => same_network net public_net) network_list
      then assign_networks node iface (remove public_net network_list)
      else node
  | None => node
  end.

Definition unassign_public_network (node : t)
    (nodegroup_networks : option (list Network)) : result t :=
  public_net ← public_net nodegroup_networks;
  let ifaces := get_interfaces_without_bonds_slaves node in
  Ok (fold_left (unassign_from public_net) ifaces node).

End NodePublic.

(** ** The roles of a node ([nailgun/objects/node.py]) *)

Module NodeRoles.

Record t : Type := {
  cluster_id : option Z;
  roles : list string;
  pending_roles : list string;
  primary_roles : list string;
}.

Definition update_roles (instance : t) (new_roles : list string) : t :=
  if falsy_id (cluster_id instance) then instance
  else {| cluster_id := cluster_id instance;
          roles := new_roles;
          pending_roles := pending_roles instance;
          primary_roles := primary_roles instance |}.

Definition update_primary_roles (instance : t)
    (new_primary_roles : list string) : t :=
  if falsy_id (cluster_id instance) then instance
  else
    let assigned_roles : gset string :=
      list_to_set (app (roles instance) (pending_roles instance)) in
    if forallb (fun role => bool_decide (role ∈ assigned_roles))
               new_primary_roles
    then {| cluster_id := cluster_id instance;
            roles := roles instance;
            pending_roles := pending_roles instance;
            primary_roles := new_primary_roles |}
    else instance.

Definition move_roles_to_pending_roles (instance : t) : t :=
  {| cluster_id := cluster_id instance;
     roles := [];
     pending_roles := app (pending_roles instance) (roles instance);
     primary_roles := [] |}.

(** ['primary-{0}'.format(role)] *)
Definition primary_name (role : string) : string :=
  String.append "primary-" role.

Definition all_roles (instance : t) : list string :=
  let roles : gset string :=
    list_to_set (app (roles instance) (pending_roles instance)) in
  let roles := roles ∖ list_to_set (primary_roles instance) in
  let primary_roles : gset string :=
    list_to_set (map primary_name (primary_roles instance)) in
  Node.sorted (elements (roles ∪ primary_roles)).

End NodeRoles.

(** ** [NetworkTemplateValidator] *)

Module NetworkTemplateValidator.
Section Validator.

(** [BasicValidator.validate] ([validators/base.py] is not among the
    sources). *)
Variable base_validate : string → result json.
Variable schema_error : string → json → option text.

(** [six.iteritems], [six.iterkeys], [six.itervalues] of a value: a method
    of dicts only. *)
Definition dict_items (j : json) : result dict :=
  match j with
  | JDict d => Ok d
  | _ => Raise (PyError "AttributeError")
  end.

(** [for x in j]: the items of a list, the characters of a string, the
    keys of a dict. *)
Definition iterate (j : json) : result (list json) :=
  match j with
  | JList l => Ok l
  | JStr s =>
      Ok (map (fun c => JStr (String c EmptyString)) (String.list_ascii_of_string s))
  | JDict d => Ok (map JStr (keys d))
  | _ => Raise (PyError "TypeError")
  end.

(** [', '.join(not_found)]: every item must be a string. *)
Definition join_names (not_found : list key) : result (list text) :=
  map_result (fun k : key =>
                match k with
                | Some (inr s) => Ok (TVal (JStr s))
                | _ => Raise (PyError "TypeError")
                end)
             not_found.

(** The body of [for ng_name, node_group in ...]. *)
Definition check_node_group (group : string * json) : result unit :=
  let '(ng_name, node_group) := group in
  scheme ← NetAssignmentData.item "network_scheme" node_group ≫= dict_items;
  let defined_templates : gset key :=
    list_to_set (map (fun k => Some (inr k)) (keys scheme)) in
  roles ←
    NetAssignmentData.item "templates_for_node_role" node_group ≫= dict_items;
  not_found ←
    for_fold (fun (not_found : gset key) templates_by_role =>
                templates ← iterate templates_by_role;
                for_fold (fun (not_found : gset key) template =>
                            k ← hashable template;
                            Ok (if bool_decide (k ∈ defined_templates)
                                then not_found
                                else {[k]} ∪ not_found))
                         not_found templates)
             (∅ : gset key) (map snd roles);
  if bool_decide (not_found = ∅) then
    raise_if (bool_decide (defined_templates = ∅))
      (InvalidData
         (TFormat "No templates are defined for node group {0}"
                  [TVal (JStr ng_name)]))
  else
    names ← join_names (elements not_found);
    Raise (InvalidData
             (TFormat "Requested templates {0} were not found for node group {1}"
                      [TJoin ", " names; TVal (JStr ng_name)])).

Definition validate (data : string) : result json :=
  parsed ← base_validate data;
  BasicValidator.validate_schema schema_error parsed "NETWORK_TEMPLATE" ;;
  adv_net_template ← NetAssignmentData.item "adv_net_template" parsed;
  raise_if (negb (truthy adv_net_template))
    (InvalidData (TStr "No node groups are defined")) ;;
  groups ← dict_items adv_net_template;
  for_each check_node_group groups ;;
  Ok parsed.

End Validator.
End NetworkTemplateValidator.

(** * Concrete inputs

    The scenarios of section 8 of the specification and the inputs at
    which the properties below are exercised. *)

Module Examples.

Definition cluster_new : Cluster :=
  {| cluster_id := 1; cluster_status := "new";
     cluster_network_roles :=
       [JDict [("id", JStr "management");
               ("properties",
                JDict [("vip", JList [JDict [("name", JStr "vrouter")];
                                      JDict [("name", JStr "management")]])])]] |}.

Definition cluster_operational : Cluster :=
  {| cluster_id := 1; cluster_status := "operational";
     cluster_network_roles := cluster_network_roles cluster_new |}.

Definition group_default : NodeGroup :=
  {| nodegroup_id := 1; nodegroup_name := "default";
     nodegroup_cluster_id := Some 1; nodegroup_is_default := true |}.

(** The default Admin-pxe network, shared: it has no node group. *)
Definition ng_admin : NetworkGroup :=
  {| ng_id := 1; ng_name := "fuelweb_admin"; ng_release := JNull;
     ng_cidr := JStr "10.20.0.0/24"; ng_gateway := JNull;
     ng_group_id := None;
     ng_meta := [("notation", JStr "ip_ranges")];
     ng_ip_ranges := [("10.20.0.3", "10.20.0.254")] |}.

(** Section 8: a network with CIDR 10.0.0.0/24 in [ip_ranges] notation. *)
Definition ng_management : NetworkGroup :=
  {| ng_id := 2; ng_name := "management"; ng_release := JNum 1;
     ng_cidr := JStr "10.0.0.0/24"; ng_gateway := JNull;
     ng_group_id := Some 1;
     ng_meta := [("notation", JStr "ip_ranges"); ("use_gateway", JBool false)];
     ng_ip_ranges := [("10.0.0.2", "10.0.0.254")] |}.

(** A network in [cidr] notation with a gateway that is set but not in
    use. *)
Definition ng_storage : NetworkGroup :=
  {| ng_id := 3; ng_name := "storage"; ng_release := JNum 1;
     ng_cidr := JStr "192.168.1.0/24"; ng_gateway := JStr "192.168.1.1";
     ng_group_id := Some 1;
     ng_meta := [("notation", JStr "cidr"); ("use_gateway", JBool false)];
     ng_ip_ranges := [("192.168.1.1", "192.168.1.254")] |}.

Definition vip_row (id : Z) (network : Z) (addr name : string) : IPAddr :=
  {| ipaddr_id := id; ipaddr_network := Some network; ipaddr_node := None;
     ipaddr_ip_addr := addr; ipaddr_vip_name := JStr name;
     ipaddr_vip_namespace := JNull; ipaddr_is_user_defined := false |}.

Definition node_row (id : Z) (network : Z) (addr : string) : IPAddr :=
  {| ipaddr_id := id; ipaddr_network := Some network; ipaddr_node := Some id;
     ipaddr_ip_addr := addr; ipaddr_vip_name := JNull;
     ipaddr_vip_namespace := JNull; ipaddr_is_user_defined := false |}.

(** Section 8: the addresses 10.0.0.5 and 10.0.0.9 are allocated in the
    management network; 10.0.0.5 is a VIP. *)
Definition db0 : Database :=
  {| clusters := [cluster_operational];
     nodegroups := [group_default];
     network_groups := [ng_admin; ng_management; ng_storage];
     nodes := [];
     ip_addrs := [vip_row 1 2 "10.0.0.5" "vrouter";
                  node_row 2 2 "10.0.0.9"] |}.

Definition db_new : Database :=
  {| clusters := [cluster_new];
     nodegroups := nodegroups db0;
     network_groups := network_groups db0;
     nodes := [];
     ip_addrs := ip_addrs db0 |}.

(** Section 8: the proposed range [10.0.0.10, 10.0.0.50], and
    [10.0.0.2, 10.0.0.50]. *)
Definition edit_narrow : dict :=
  [("id", JNum 2); ("name", JStr "management");
   ("ip_ranges", JList [JList [JStr "10.0.0.10"; JStr "10.0.0.50"]])].

Definition edit_wide : dict :=
  [("id", JNum 2); ("name", JStr "management");
   ("ip_ranges", JList [JList [JStr "10.0.0.2"; JStr "10.0.0.50"]])].

(** A stand-in for the JSON parser: the request bodies used below and the
    values they parse to; any other body is malformed. *)
Definition loads (bodies : list (string * json)) (s : string) : option json :=
  snd <$> List.find (fun b => String.eqb (fst b) s) bodies.

(** A schema check that accepts every value. *)
Definition schema_ok (schema : string) (j : json) : option text := None.

(** Section 8: a second VIP, of another name, at the address 10.0.0.5 that
    the VIP [vrouter] already holds in the same network. *)
Definition vip_request : json :=
  JDict [("vip_name", JStr "management"); ("network", JNum 2);
         ("ip_addr", JStr "10.0.0.5"); ("is_user_defined", JBool true)].

(** The bond properties and modes of [consts.py]. *)
Definition BOND_PROPERTIES : list string :=
  ["mode"; "xmit_hash_policy"; "lacp_rate"; "type__"].

Definition BOND_MODES : list string :=
  ["active-backup"; "balance-slb"; "lacp-balance-tcp"; "balance-rr";
   "balance-xor"; "broadcast"; "802.3ad"; "balance-tlb"; "balance-alb"].

Definition net_ref (id : Z) (name : string) : json :=
  JDict [("id", JNum id); ("name", JStr name)].

Definition ether_fields (id : Z) (name : string) (nets : list json) : dict :=
  [("type", JStr "ether"); ("id", JNum id); ("name", JStr name);
   ("assigned_networks", JList nets)].

Definition ether (id : Z) (name : string) (nets : list json) : json :=
  JDict (ether_fields id name nets).

Definition bond_fields (name mode : string) (slaves : list string)
    (nets : list json) : dict :=
  [("type", JStr "bond"); ("name", JStr name); ("mode", JStr mode);
   ("slaves", JList (map (fun s => JDict [("name", JStr s)]) slaves));
   ("assigned_networks", JList nets)].

Definition bond (name mode : string) (slaves : list string)
    (nets : list json) : json :=
  JDict (bond_fields name mode slaves nets).

Definition node_request (interfaces : list json) : json :=
  JDict [("id", JNum 1); ("interfaces", JList interfaces)].

(** Section 8: [eth0] carries the admin network and [eth1] the public
    one. *)
Definition request_initial : json :=
  node_request [ether 1 "eth0" [net_ref 1 "fuelweb_admin"];
                ether 2 "eth1" [net_ref 4 "public"]].

(** The admin network on both interfaces. *)
Definition request_duplicate : json :=
  node_request [ether 1 "eth0" [net_ref 1 "fuelweb_admin"];
                ether 2 "eth1" [net_ref 4 "public";
                                net_ref 1 "fuelweb_admin"]].

(** The same node with the two networks exchanged: the admin network goes
    to [eth1]. *)
Definition request_admin_on_eth1 : json :=
  node_request [ether 1 "eth0" [net_ref 4 "public"];
                ether 2 "eth1" [net_ref 1 "fuelweb_admin"]].

(** The admin network on a bond of [eth1] and [eth2], and on a bond of
    [eth0] and [eth1]. *)
Definition request_bond (mode : string) (slaves : list string) : json :=
  node_request [bond "bond0" mode slaves [net_ref 1 "fuelweb_admin"];
                ether 3 "eth2" [net_ref 4 "public"]].

Definition nic (id : Z) (name : string) (pxe : bool)
  : node_models.Interface :=
  {| node_models.iface_id := id; node_models.iface_name := name;
     node_models.iface_pxe := pxe;
     node_models.iface_interface_properties := [];
     node_models.iface_assigned_networks := [] |}.

(** Section 8: a node in a cluster, with the PXE interface [eth0] and the
    interfaces [eth1] and [eth2]. *)
Definition db_node1 : node_models.DbNode :=
  {| node_models.id := 1;
     node_models.status := "discover";
     node_models.cluster :=
       Some {| node_models.libvirt_type := JStr "kvm";
               node_models.supported_dpdk_drivers := JDict [] |};
     node_models.nodegroup :=
       Some {| node_models.group_name := "default";
               node_models.group_is_default := true;
               node_models.group_networks := [(4, "public")] |};
     node_models.nic_interfaces :=
       [nic 1 "eth0" true; nic 2 "eth1" false; nic 3 "eth2" false];
     node_models.bond_interfaces := [];
     node_models.pxe_iface_name := JStr "eth0";
     node_models.dpdk_hugepages_enabled := false;
     node_models.nova_hugepages_enabled := false;
     node_models.should_have_public := true |}.

Definition prohibited_admin_bond_modes : list string :=
  ["lacp-balance-tcp"; "802.3ad"].

Definition no_dpdk_nic (i : option node_models.Interface) (drivers : json)
  : bool := false.

Definition no_dpdk_bond (i : node_models.Interface) (drivers : json)
  : bool := false.

(** The VIP [vrouter] at 10.0.0.5 in the management network, and a node
    of another network at the same address. *)
Definition row_vrouter : IPAddr := vip_row 1 2 "10.0.0.5" "vrouter".
Definition row_storage_node : IPAddr := node_row 3 3 "10.0.0.5".

Definition db_with (rows : list IPAddr) : Database :=
  {| clusters := clusters db0; nodegroups := nodegroups db0;
     network_groups := network_groups db0; nodes := [];
     ip_addrs := rows |}.

(** The VIP saved again with its own address, as a user-defined one. *)
Definition vip_update : json :=
  JDict [("id", JNum 1); ("ip_addr", JStr "10.0.0.5");
         ("is_user_defined", JBool true)].

(** A VIP of the cluster at 10.0.0.7, moved onto 10.0.0.5. *)
Definition row_public_vip : IPAddr := vip_row 4 2 "10.0.0.7" "management".

Definition vip_move : json :=
  JDict [("id", JNum 4); ("ip_addr", JStr "10.0.0.5");
         ("is_user_defined", JBool true)].

(** A record that tries to change the network of the VIP [vrouter]. *)
Definition vip_renetwork : json :=
  JDict [("id", JNum 1); ("network", JNum 3)].

(** Request bodies, written with single quotes, and what they parse to:
    an edit that names the management network, an empty edit, and a batch
    of two VIP records. *)
Definition bodies : list (string * json) :=
  [("{'id': 2}", JDict [("id", JNum 2)]);
   ("{}", JDict []);
   ("[move, renetwork]", JList [vip_move; vip_renetwork]);
   ("[renetwork, {'id': 9}]",
    JList [vip_renetwork; JDict [("id", JNum 9)]])].

(** A node with two free interfaces, and networks to place on it. *)
Definition node_two_nics : Node.t :=
  {| Node.name := "node-1";
     Node.nic_interfaces := ["eth1"; "eth0"];
     Node.bond_interfaces := [];
     Node.assigned_networks := ∅ |}.

Definition net_dedicated : Node.Network :=
  {| Node.net_id := 7; Node.net_name := "storage";
     Node.net_meta := [("dedicated_nic", JBool true)];
     Node.net_untagged := false |}.

Definition net_admin : Node.Network :=
  {| Node.net_id := 1; Node.net_name := "fuelweb_admin";
     Node.net_meta := []; Node.net_untagged := true |}.

Definition net_public : Node.Network :=
  {| Node.net_id := 4; Node.net_name := "public";
     Node.net_meta := []; Node.net_untagged := true |}.

Definition net_management : Node.Network :=
  {| Node.net_id := 2; Node.net_name := "management";
     Node.net_meta := []; Node.net_untagged := false |}.

Definition net_floating : Node.Network :=
  {| Node.net_id := 8; Node.net_name := "floating";
     Node.net_meta := []; Node.net_untagged := true |}.

(** The node after the dedicated network has been placed once, and
    twice. *)
Definition node_dedicated_once : Node.t :=
  Node.assign_networks node_two_nics "eth0" [net_dedicated].

Definition node_dedicated_twice : Node.t :=
  Node.assign_networks node_dedicated_once "eth1" [net_dedicated].

(** The node after the admin, public and management networks have been
    placed. *)
Definition node_placed : Node.t :=
  Node.assign_networks
    (Node.assign_networks node_two_nics "eth0" [net_admin; net_management])
    "eth1" [net_public].

(** Hardware on which every physical interface supports DPDK. *)
Definition dpdk_nic (i : option node_models.Interface) (drivers : json)
  : bool := true.

(** The interface [eth1] with DPDK enabled, the private network and the
    given MTU. *)
Definition dpdk_iface (mtu : json) : dict :=
  [("type", JStr "ether"); ("id", JNum 2); ("name", JStr "eth1");
   ("interface_properties",
    JDict [("dpdk", JDict [("enabled", JBool true)]); ("mtu", mtu)]);
   ("assigned_networks", JList [net_ref 5 "private"])].

(** [verify_data_correctness] on a request for the node above. *)
Definition verify_example (request : json) : result unit :=
  match request with
  | JDict node =>
      NetAssignmentData.verify_data_correctness
        prohibited_admin_bond_modes no_dpdk_nic no_dpdk_bond 1 [db_node1] node
  | _ => Raise (PyError "TypeError")
  end.

(** The narrow range proposed for the management network by a request
    that does not repeat the name of the network, and the body of such a
    request. *)
Definition edit_unnamed : dict :=
  [("id", JNum 2);
   ("ip_ranges", JList [JList [JStr "10.0.0.10"; JStr "10.0.0.50"]])].

Definition unnamed_bodies : list (string * json) :=
  [("{'id': 2, 'ip_ranges': [['10.0.0.10', '10.0.0.50']]}",
    JDict edit_unnamed)].

(** The admin network, whose id is 1, sent by its id alone to [eth1]. *)
Definition request_admin_by_id : json :=
  node_request [ether 1 "eth0" [net_ref 4 "public"];
                ether 2 "eth1" [JDict [("id", JNum 1)]]].

(** Network 1 on a bond and on [eth2]; the slaves of the bond are
    numbers. *)
Definition request_duplicate_numeric_slaves : json :=
  node_request
    [JDict [("type", JStr "bond"); ("name", JStr "bond0");
            ("mode", JStr "active-backup");
            ("slaves", JList [JNum 1; JNum 2]);
            ("assigned_networks", JList [net_ref 1 "fuelweb_admin"])];
     ether 3 "eth2" [net_ref 1 "fuelweb_admin"]].

End Examples.

(** * Further examples *)

Module MoreExamples.
Import Examples.

(** The node of [db_node1] once deployed. *)
Definition db_node_ready : node_models.DbNode :=
  {| node_models.id := 1;
     node_models.status := "ready";
     node_models.cluster := node_models.cluster db_node1;
     node_models.nodegroup := node_models.nodegroup db_node1;
     node_models.nic_interfaces := node_models.nic_interfaces db_node1;
     node_models.bond_interfaces := [];
     node_models.pxe_iface_name := JStr "eth0";
     node_models.dpdk_hugepages_enabled := false;
     node_models.nova_hugepages_enabled := false;
     node_models.should_have_public := true |}.

(** The node of [db_node1] before it is added to a cluster. *)
Definition db_node_unclustered : node_models.DbNode :=
  {| node_models.id := 1;
     node_models.status := "discover";
     node_models.cluster := None;
     node_models.nodegroup := None;
     node_models.nic_interfaces := node_models.nic_interfaces db_node1;
     node_models.bond_interfaces := [];
     node_models.pxe_iface_name := JStr "eth0";
     node_models.dpdk_hugepages_enabled := false;
     node_models.nova_hugepages_enabled := false;
     node_models.should_have_public := true |}.

(** The fields of a request for node 1. *)
Definition node_fields (interfaces : list json) : dict :=
  [("id", JNum 1); ("interfaces", JList interfaces)].

Definition slave_ref (name : string) : json := JDict [("name", JStr name)].

(** A network card with eight virtual functions, SR-IOV off. *)
Definition sriov_nic : node_models.Interface :=
  {| node_models.iface_id := 2; node_models.iface_name := "eth1";
     node_models.iface_pxe := false;
     node_models.iface_interface_properties :=
       [("sriov", JDict [("enabled", JBool false); ("available", JBool true);
                         ("sriov_numvfs", JNull); ("sriov_totalvfs", JNum 8);
                         ("pci_id", JStr "8086:1515")])];
     node_models.iface_assigned_networks := [] |}.

(** The request turning SR-IOV on for it, with four virtual functions. *)
Definition sriov_change : dict :=
  [("type", JStr "ether"); ("id", JNum 2); ("name", JStr "eth1");
   ("interface_properties",
    JDict [("sriov", JDict [("enabled", JBool true);
                            ("sriov_numvfs", JNum 4)])]);
   ("assigned_networks", JList [])].

(** A new [dpdkovs] bond of [eth1] and [eth2] with DPDK enabled. *)
Definition dpdk_bond_fields : dict :=
  [("type", JStr "bond"); ("name", JStr "bond0");
   ("slaves", JList [slave_ref "eth1"; slave_ref "eth2"]);
   ("interface_properties", JDict [("dpdk", JDict [("enabled", JBool true)])]);
   ("bond_properties", JDict [("type__", JStr "dpdkovs")]);
   ("assigned_networks", JList [net_ref 5 "private"])].

(** Hardware on which the stored network cards support DPDK. *)
Definition dpdk_known_nic (i : option node_models.Interface) (drivers : json)
  : bool := match i with Some _ => true | None => false end.

(** A new VIP at a free address of the management network. *)
Definition vip_new : json :=
  JDict [("vip_name", JStr "management"); ("network", JNum 2);
         ("ip_addr", JStr "10.0.0.20")].

(** The VIP [vrouter] given the address of the node at 10.0.0.9, without
    the [is_user_defined] flag. *)
Definition vip_steal : json :=
  JDict [("id", JNum 1); ("ip_addr", JStr "10.0.0.9")].

(** A batch of one record. *)
Definition batch_bodies : list (string * json) :=
  [("[update]", JList [vip_update])].

(** Edits of the management network: one that names another node group,
    one that renames it to the name of the storage network. *)
Definition edit_bodies : list (string * json) :=
  [("{'id': 2, 'group_id': 7}", JDict [("id", JNum 2); ("group_id", JNum 7)]);
   ("{'id': 2, 'name': 'storage'}",
    JDict [("id", JNum 2); ("name", JStr "storage")])].

(** Bodies of interface requests: the interfaces of node 1 as in
    [request_initial], and a body that is not a list. *)
Definition entry_bodies : list (string * json) :=
  [("[eth0: admin, eth1: public]",
    JList [ether 1 "eth0" [net_ref 1 "fuelweb_admin"];
           ether 2 "eth1" [net_ref 4 "public"]]);
   ("{'id': 1}", JDict [("id", JNum 1)])].

(** A node with the bond [bond0] of [eth1] and [eth2], the admin network
    on [eth0]. *)
Definition node_bonded : Node.t :=
  {| Node.name := "node-2";
     Node.nic_interfaces := ["eth0"; "eth1"; "eth2"];
     Node.bond_interfaces := [("bond0", ["eth1"; "eth2"])];
     Node.assigned_networks := {["eth0" := [net_admin]]} |}.

(** A node without interfaces. *)
Definition node_bare : Node.t :=
  {| Node.name := "node-3"; Node.nic_interfaces := [];
     Node.bond_interfaces := []; Node.assigned_networks := ∅ |}.

(** A controller that is the primary one, and a node outside clusters. *)
Definition roles_controller : NodeRoles.t :=
  {| NodeRoles.cluster_id := Some 1;
     NodeRoles.roles := ["controller"];
     NodeRoles.pending_roles := ["cinder"];
     NodeRoles.primary_roles := ["controller"] |}.

(** A network template of one node group: two templates, the controller
    role asking for both. *)
Definition template : json :=
  JDict
    [("adv_net_template",
      JDict
        [("default",
          JDict [("network_scheme",
                  JDict [("common", JDict []); ("public", JDict [])]);
                 ("templates_for_node_role",
                  JDict [("controller",
                          JList [JStr "common"; JStr "public"])])])])].

Definition template_bodies : list (string * json) :=
  [("template", template)].

End MoreExamples.

(** * Notions used to state the properties *)

Module Notions.

(** The hashed id of one entry of an [assigned_networks] list. *)
Definition net_key (net : json) : option key :=
  match net with
  | JDict n =>
      match dict_lookup "id" n with
      | Some v =>
          match hashable v with
          | Ok k => Some k
          | Raise _ => None
          end
      | None => None
      end
  | _ => None
  end.

(** The network ids assigned to one interface of a request, in order. *)
Definition iface_net_ids (iface : json) : list key :=
  match iface with
  | JDict i =>
      match dict_lookup "assigned_networks" i with
      | Some (JList nets) => omap net_key nets
      | _ => []
      end
  | _ => []
  end.

(** The network ids assigned on all the interfaces of a node request, with
    their repetitions. *)
Definition node_net_ids (node : json) : list key :=
  match node with
  | JDict n =>
      match dict_lookup "interfaces" n with
      | Some (JList ifaces) => concat (map iface_net_ids ifaces)
      | _ => []
      end
  | _ => []
  end.

(** An exception that is not [AlreadyExists]. *)
Definition not_conflict (e : error) : Prop :=
  match e with
  | AlreadyExists _ => False
  | _ => True
  end.

(** [InvalidData], and no other exception. *)
Definition invalid_data (e : error) : Prop :=
  match e with
  | InvalidData _ => True
  | _ => False
  end.

(** A value [k in x] is defined on: a dict, a list or a string. *)
Definition container (x : json) : Prop :=
  match x with
  | JDict _ | JList _ | JStr _ => True
  | _ => False
  end.

(** The parts of a bond are of the types the interface schema gives them:
    the slaves are containers and [bond_properties], if any, is a dict. *)
Definition bond_typed (i : dict) : Prop :=
  (∀ slaves, dict_lookup "slaves" i = Some (JList slaves) →
             Forall container slaves)
  ∧ (∀ props, dict_lookup "bond_properties" i = Some props →
              ∃ p, props = JDict p).

(** The id of a network entry can be put in a set. *)
Definition net_typed (net : json) : Prop :=
  ∀ n v, net = JDict n → dict_lookup "id" n = Some v →
         ∃ k, hashable v = Ok k.

Definition iface_typed (iface : json) : Prop :=
  ∀ i, iface = JDict i →
       (dict_lookup "type" i = Some (JStr consts.NETWORK_INTERFACE_TYPES.bond) →
        bond_typed i)
       ∧ (∀ nets, dict_lookup "assigned_networks" i = Some (JList nets) →
                  Forall net_typed nets).

(** A request whose bonds and network entries are typed as above. *)
Definition request_typed (node : json) : Prop :=
  ∀ n ifaces, node = JDict n →
              dict_lookup "interfaces" n = Some (JList ifaces) →
              Forall iface_typed ifaces.

(** A bond slave of the request is the interface of that name. *)
Definition slave_is (name : json) (slave : json) : bool :=
  match NetAssignmentData.item "name" slave with
  | Ok v => json_eqb v name
  | Raise _ => false
  end.

(** The first loop of [verify_data_correctness] on the request [node]
    reaches the interface [x], which comes after the interfaces [pre], with
    the set [bonded] of slave ids: the node is in the database, unlocked,
    in a cluster and has a PXE interface, and the interfaces of [pre] pass
    their checks. *)
Definition reaches (prohibited : list string)
    (db_nodes : list node_models.DbNode) (node : dict) (node_id : json)
    (db_node : node_models.DbNode) (interfaces_by_name : list (json * dict))
    (pre : list json) (x : json) (post : list json) (bonded : gset Z)
  : Prop :=
  dict_lookup "id" node = Some node_id
  ∧ NetAssignmentData.query_node db_nodes node_id = Some db_node
  ∧ node_models.is_interfaces_configuration_locked db_node = false
  ∧ dict_lookup "interfaces" node = Some (JList (pre ++ x :: post))
  ∧ NetAssignmentData.index_by_name (pre ++ x :: post)
    = Ok interfaces_by_name
  ∧ truthy (node_models.pxe_iface_name db_node) = true
  ∧ is_Some (node_models.cluster db_node)
  ∧ for_fold (NetAssignmentData.verify_iface
                prohibited node_id db_node
                (node_models.nic_interfaces db_node) interfaces_by_name)
             ∅ pre
    = Ok bonded.

(** The row a record of a batch of VIP updates addresses. *)
Definition instance_of (existing_instances : list IPAddr) (r : dict)
  : option IPAddr :=
  List.find (fun a => json_eqb (JNum (ipaddr_id a)) (get "id" r))
            existing_instances.

(** The default assignment of [networks] to [node] never falls back to the
    first interface: every network is found already assigned, or some
    interface accepts it. *)
Fixpoint placed_without_fallback (node : Node.t)
    (networks : list Node.Network) : Prop :=
  match networks with
  | [] => True
  | network :: networks' =>
      Node.place node network (Node.get_interfaces_without_bonds_slaves node)
      ≠ Node.Fallback
      ∧ match Node.assign_network_to_interface node (Some network) with
        | Ok node' => placed_without_fallback node' networks'
        | Raise _ => False
        end
  end.

(** [b] is [a] after some assignments: the same interfaces, each list of
    assigned networks extended at its end. *)
Definition extends (a b : Node.t) : Prop :=
  Node.name b = Node.name a
  ∧ Node.nic_interfaces b = Node.nic_interfaces a
  ∧ Node.bond_interfaces b = Node.bond_interfaces a
  ∧ ∀ iface, Node.assigned_networks_list a iface
             `prefix_of` Node.assigned_networks_list b iface.

(** The placement finds the network already assigned. *)
Definition settled (node : Node.t) (network : Node.Network) : Prop :=
  Node.place node network (Node.get_interfaces_without_bonds_slaves node)
  = Node.Unchanged.

End Notions.
Import Notions.

(** * Further notions: the shape of an accepted interface request *)

Module Shapes.
Section Shapes.

Variable BOND_PROPERTIES : list string.
Variable BOND_MODES : list string.

(** An entry of [assigned_networks]: a dict with an [id]. *)
Definition net_shape (net : json) : Prop :=
  ∃ n, net = JDict n ∧ is_Some (dict_lookup "id" n).

(** A bond of a request: named, with two slaves or more, a mode among
    [BOND_MODES] and only known bond properties. *)
Definition bond_shape (i : dict) : Prop :=
  is_Some (dict_lookup "name" i)
  ∧ (∃ slaves, dict_lookup "slaves" i = Some (JList slaves)
               ∧ (2 ≤ length slaves)%nat)
  ∧ (∃ mode s, NetAssignmentValidator.get_bond_mode i = Ok mode
               ∧ mode = JStr s ∧ s ∈ BOND_MODES)
  ∧ (∀ props, dict_lookup "bond_properties" i = Some props →
              ∃ p, props = JDict p ∧ Forall (fun k => k ∈ BOND_PROPERTIES)
                                            (keys p)).

(** An interface of a request: a dict of type [ether] with an [id], or of
    type [bond] and shaped as one, with a list of assigned networks. *)
Definition iface_shape (iface : json) : Prop :=
  ∃ i, iface = JDict i
       ∧ ((dict_lookup "type" i
           = Some (JStr consts.NETWORK_INTERFACE_TYPES.ether)
           ∧ is_Some (dict_lookup "id" i))
          ∨ (dict_lookup "type" i
             = Some (JStr consts.NETWORK_INTERFACE_TYPES.bond)
             ∧ bond_shape i))
       ∧ ∃ nets, dict_lookup "assigned_networks" i = Some (JList nets)
                 ∧ Forall net_shape nets.

End Shapes.
End Shapes.

(** * Further notions: the request against the node *)

Module DataNotions.
Import node_models NetAssignmentData.

(** The first loop of [verify_data_correctness] gets to the interface [x]
    after the interfaces [pre], with the set [bonded] of slave ids; the
    node may be outside any cluster. *)
Definition loop_reaches (prohibited : list string) (db_nodes : list DbNode)
    (node : dict) (node_id : json) (db_node : DbNode)
    (interfaces_by_name : list (json * dict))
    (pre : list json) (x : json) (post : list json) (bonded : gset Z)
  : Prop :=
  dict_lookup "id" node = Some node_id
  ∧ query_node db_nodes node_id = Some db_node
  ∧ is_interfaces_configuration_locked db_node = false
  ∧ dict_lookup "interfaces" node = Some (JList (pre ++ x :: post))
  ∧ index_by_name (pre ++ x :: post) = Ok interfaces_by_name
  ∧ truthy (pxe_iface_name db_node) = true
  ∧ for_fold (verify_iface prohibited node_id db_node
                           (nic_interfaces db_node) interfaces_by_name)
             ∅ pre
    = Ok bonded.

(** The id of the physical interface a bond slave of a request names. *)
Definition slave_id (db_interfaces : list Interface) (slave : json)
  : option Z :=
  match item "name" slave with
  | Ok name => iface_id <$> _get_iface_by_name name db_interfaces
  | Raise _ => None
  end.

(** The ids the network entries of the interfaces of a request carry, as
    [check_networks_are_acceptable_for_node_to_assign] collects them. *)
Definition collect_net_ids (interfaces : list json) : result (gset key) :=
  for_fold (fun (acc : gset key) iface =>
              nets ← item "assigned_networks" iface ≫= as_list;
              ids ← map_result (fun net => item "id" net ≫= hashable) nets;
              Ok (list_to_set ids ∪ acc))
           (∅ : gset key) interfaces.

(** The network ids a node may use: those of its node group and, in a
    default group, the shared admin network. *)
Definition allowed_net_ids (default_admin_network_id : Z)
    (g : NodeNodeGroup) : gset key :=
  let ids : gset key :=
    list_to_set (map (fun n => key_of_id (fst n)) (group_networks g)) in
  if group_is_default g
  then {[key_of_id default_admin_network_id]} ∪ ids
  else ids.

(** The network ids a node must use: the allowed ones, without the public
    network when the node should not have it. *)
Definition required_net_ids (default_admin_network_id : Z)
    (node_db : DbNode) (g : NodeNodeGroup) : gset key :=
  if negb (should_have_public node_db)
  then discard_public g (allowed_net_ids default_admin_network_id g)
  else allowed_net_ids default_admin_network_id g.

End DataNotions.

(** * Further notions: virtual IP addresses *)

Module VipNotions.
Import IPAddrValidator.

(** The VIP names one network role declares, as [_check_vip_name] reads
    them: [net_role.get('properties', {}).get('vip', [])], the name of each
    entry. *)
Definition vip_names_of_role (net_role : json) : result (list json) :=
  r ← as_dict net_role;
  props ← as_dict (get_or "properties" (JDict []) r);
  vip_info ← as_list (get_or "vip" (JList []) props);
  map_result (fun vip => dflt ← as_dict vip; getitem "name" dflt) vip_info.

(** The field [k] of an update is protected: not one of the updatable
    fields. *)
Definition protected (k : string) : bool :=
  negb (existsb (String.eqb k) updatable_fields).

End VipNotions.

(** * Properties *)

(** ** The [result] monad and its loops *)

Lemma bind_Ok {A B : Type} (f : A → result B) (a : A) :
  (Ok a ≫= f) = f a.
Proof. reflexivity. Qed.

Lemma bind_Raise {A B : Type} (f : A → result B) (e : error) :
  (Raise e ≫= f) = Raise e.
Proof. reflexivity. Qed.

Lemma bind_inv_Ok {A B : Type} (m : result A) (f : A → result B) (b : B) :
  (m ≫= f) = Ok b → ∃ a, m = Ok a ∧ f a = Ok b.
Proof. destruct m as [a|e]; simpl; [eauto | discriminate]. Qed.

Lemma raise_if_false (e : error) : raise_if false e = Ok tt.
Proof. reflexivity. Qed.

Lemma raise_if_true (e : error) : raise_if true e = Raise e.
Proof. reflexivity. Qed.

Lemma raise_if_inv_Ok (c : bool) (e : error) (u : unit) :
  raise_if c e = Ok u → c = false.
Proof. destruct c; [discriminate | reflexivity]. Qed.

Lemma for_fold_app {A S : Type} (body : S → A → result S) (s : S)
    (l1 l2 : list A) :
  for_fold body s (l1 ++ l2)
  = (for_fold body s l1 ≫= fun s' => for_fold body s' l2).
Proof.
  revert s; induction l1 as [|x l1 IH]; intros s; simpl; [reflexivity|].
  destruct (body s x) as [s'|e]; simpl; [apply IH | reflexivity].
Qed.

(** A loop raises what its body raises at the first item that fails. *)
Lemma for_fold_raises {A S : Type} (body : S → A → result S) (s s' : S)
    (pre post : list A) (x : A) (e : error) :
  for_fold body s pre = Ok s' →
  body s' x = Raise e →
  for_fold body s (pre ++ x :: post) = Raise e.
Proof.
  intros Hpre Hx. rewrite for_fold_app, Hpre. simpl. rewrite Hx. reflexivity.
Qed.

Lemma json_eqb_JStr (j : json) (s : string) :
  json_eqb j (JStr s) = true → j = JStr s.
Proof.
  destruct j; simpl; try discriminate.
  intros H. apply String.eqb_eq in H. congruence.
Qed.

(** ** C1: the coverage check of [validate_network_group] *)

Section Coverage.
Import NetworkConfigurationValidator.

Lemma covers_all_nil (R : list (Z * Z)) : covers_all R [] = true.
Proof. reflexivity. Qed.

(** The outcome of [validate_network_group] once the consistency checks
    have passed and the coverage check applies. *)
Lemma validate_network_group_checked (db : Database) (ng_data : dict)
    (ng_db : NetworkGroup) (cluster : Cluster)
    (admin_ranges : option (gmap Z ip_ranges)) (ranges : ip_ranges)
    (R : list (Z * Z)) (A : list Z) (name id : json) :
  effective_ranges ng_data ng_db = Ok ranges →
  to_ranges ranges = Ok R →
  map_result netaddr.IPAddress (allocated_ips db ng_db) = Ok A →
  ng_name ng_db = consts.NETWORKS.fuelweb_admin
  ∨ cluster_status cluster ≠ consts.CLUSTER_STATUSES.new →
  dict_lookup "name" ng_data = Some name →
  dict_lookup "id" ng_data = Some id →
  snd (validate_network_group db ng_data ng_db cluster admin_ranges)
  = if covers_all R A then Ok ng_data
    else Raise (InvalidData (not_covered_msg name id)).
Proof.
  intros Heff HR HA Hpre Hname Hid.
  unfold validate_network_group. rewrite Heff. simpl.
  assert ((ng_name ng_db =? consts.NETWORKS.fuelweb_admin)%string
          || negb (cluster_status cluster =? consts.CLUSTER_STATUSES.new)%string
          = true) as ->.
  { destruct Hpre as [->|Hne].
    - rewrite String.eqb_refl. reflexivity.
    - apply orb_true_iff. right. apply negb_true_iff.
      apply String.eqb_neq. exact Hne. }
  unfold _check_ips_out_of_ip_ranges, check_ips_belong_to_ranges.
  rewrite HR. simpl. rewrite HA. simpl.
  destruct (covers_all R A); simpl; [reflexivity|].
  unfold getitem. rewrite Hname, Hid. reflexivity.
Qed.

(** The coverage check on a request that carries ['name'] and ['id']: for
    a network group whose consistency checks pass, whose proposed ranges
    are [R] and whose allocated addresses are [A], and which is the admin
    network or lies in a cluster whose status is not [new],
    [validate_network_group] fails with [InvalidData] exactly when
    [covers_all R A] is false, the error naming the network; when
    [covers_all R A] holds, in particular when [A] is empty, it returns the
    request. *)
Theorem validate_network_group_covers (db : Database) (ng_data : dict)
    (ng_db : NetworkGroup) (cluster : Cluster)
    (admin_ranges : option (gmap Z ip_ranges)) (ranges : ip_ranges)
    (R : list (Z * Z)) (A : list Z) (name id : json) :
  effective_ranges ng_data ng_db = Ok ranges →
  to_ranges ranges = Ok R →
  map_result netaddr.IPAddress (allocated_ips db ng_db) = Ok A →
  ng_name ng_db = consts.NETWORKS.fuelweb_admin
  ∨ cluster_status cluster ≠ consts.CLUSTER_STATUSES.new →
  dict_lookup "name" ng_data = Some name →
  dict_lookup "id" ng_data = Some id →
  let outcome :=
    snd (validate_network_group db ng_data ng_db cluster admin_ranges) in
  ((∃ msg, outcome = Raise (InvalidData msg)) ↔ covers_all R A = false)
  ∧ (covers_all R A = false →
     outcome = Raise (InvalidData (not_covered_msg name id)))
  ∧ (covers_all R A = true → outcome = Ok ng_data)
  ∧ (A = [] → outcome = Ok ng_data).
Proof.
  intros Heff HR HA Hpre Hname Hid outcome.
  assert (outcome = if covers_all R A then Ok ng_data
                    else Raise (InvalidData (not_covered_msg name id))) as Hout.
  { subst outcome. eapply validate_network_group_checked; eassumption. }
  repeat split.
  - intros [msg Hmsg]. rewrite Hout in Hmsg.
    destruct (covers_all R A); [discriminate | reflexivity].
  - intros Hc. rewrite Hout, Hc. eauto.
  - intros Hc. rewrite Hout, Hc. reflexivity.
  - intros Hc. rewrite Hout, Hc. reflexivity.
  - intros ->. rewrite Hout. reflexivity.
Qed.

(** The same check on a request without ['name']: the message of the
    failure cannot be built. *)
Lemma validate_network_group_unnamed (db : Database) (ng_data : dict)
    (ng_db : NetworkGroup) (cluster : Cluster)
    (admin_ranges : option (gmap Z ip_ranges)) (ranges : ip_ranges)
    (R : list (Z * Z)) (A : list Z) :
  effective_ranges ng_data ng_db = Ok ranges →
  to_ranges ranges = Ok R →
  map_result netaddr.IPAddress (allocated_ips db ng_db) = Ok A →
  ng_name ng_db = consts.NETWORKS.fuelweb_admin
  ∨ cluster_status cluster ≠ consts.CLUSTER_STATUSES.new →
  dict_lookup "name" ng_data = None →
  covers_all R A = false →
  snd (validate_network_group db ng_data ng_db cluster admin_ranges)
  = Raise (PyError "KeyError").
Proof.
  intros Heff HR HA Hpre Hname Hcov.
  unfold validate_network_group. rewrite Heff. simpl.
  assert ((ng_name ng_db =? consts.NETWORKS.fuelweb_admin)%string
          || negb (cluster_status cluster =? consts.CLUSTER_STATUSES.new)%string
          = true) as ->.
  { destruct Hpre as [->|Hne].
    - rewrite String.eqb_refl. reflexivity.
    - apply orb_true_iff. right. apply negb_true_iff.
      apply String.eqb_neq. exact Hne. }
  unfold _check_ips_out_of_ip_ranges, check_ips_belong_to_ranges.
  rewrite HR. simpl. rewrite HA. simpl. rewrite Hcov. simpl.
  unfold getitem. rewrite Hname. reflexivity.
Qed.

End Coverage.

Section CoverageExamples.
Import NetworkConfigurationValidator Examples.

(** Section 8: with 10.0.0.5 and 10.0.0.9 allocated, the range
    [10.0.0.10, 10.0.0.50] is refused and [10.0.0.2, 10.0.0.50] accepted. *)
Example scenario_narrow_range :
  snd (validate_network_group db0 edit_narrow ng_management
                              cluster_operational None)
  = Raise (InvalidData (not_covered_msg (JStr "management") (JNum 2))).
Proof. vm_compute. reflexivity. Qed.

Example scenario_wide_range :
  snd (validate_network_group db0 edit_wide ng_management
                              cluster_operational None)
  = Ok edit_wide.
Proof. vm_compute. reflexivity. Qed.

Lemma validate_network_group_covers_witness :
  effective_ranges edit_narrow ng_management
  = Ok (RangesJson (JList [JList [JStr "10.0.0.10"; JStr "10.0.0.50"]]))
  ∧ cluster_status cluster_operational ≠ consts.CLUSTER_STATUSES.new
  ∧ snd (validate_network_group db0 edit_narrow ng_management
                                cluster_operational None)
    = Raise (InvalidData (not_covered_msg (JStr "management") (JNum 2))).
Proof.
  assert (cluster_status cluster_operational ≠ consts.CLUSTER_STATUSES.new)
    as Hne by (vm_compute; discriminate).
  split; [vm_compute; reflexivity|]. split; [exact Hne|].
  apply (validate_network_group_covers db0 edit_narrow ng_management
           cluster_operational None
           (RangesJson (JList [JList [JStr "10.0.0.10"; JStr "10.0.0.50"]]))
           [(167772170, 167772210)] [167772165; 167772169]
           (JStr "management") (JNum 2)).
  - vm_compute; reflexivity.
  - vm_compute; reflexivity.
  - vm_compute; reflexivity.
  - right. exact Hne.
  - reflexivity.
  - reflexivity.
  - vm_compute; reflexivity.
Defined.

(** C1.  The management network has the addresses 10.0.0.5 and 10.0.0.9
    allocated and lies in a cluster that is not [new]; the range
    [10.0.0.10, 10.0.0.50] covers neither.  A request that proposes this
    range and carries the name of the network fails with [InvalidData];
    the same request without ['name'] fails with [KeyError] instead,
    raised while the message of the [InvalidData] is built, in
    [validate_network_group] and so in
    [NetworkGroupValidator.validate_update]. *)
Theorem validate_network_group_uncovered_key_error :
  (∃ ranges R A,
     effective_ranges edit_unnamed ng_management = Ok ranges
     ∧ to_ranges ranges = Ok R
     ∧ map_result netaddr.IPAddress (allocated_ips db0 ng_management) = Ok A
     ∧ covers_all R A = false)
  ∧ cluster_status cluster_operational ≠ consts.CLUSTER_STATUSES.new
  ∧ snd (validate_network_group db0 edit_narrow ng_management
                                cluster_operational None)
    = Raise (InvalidData (not_covered_msg (JStr "management") (JNum 2)))
  ∧ snd (validate_network_group db0 edit_unnamed ng_management
                                cluster_operational None)
    = Raise (PyError "KeyError")
  ∧ NetworkGroupValidator.validate_update
      (loads unnamed_bodies) schema_ok db0
      "{'id': 2, 'ip_ranges': [['10.0.0.10', '10.0.0.50']]}" ng_management
    = Raise (PyError "KeyError").
Proof.
  split.
  { exists (RangesJson (JList [JList [JStr "10.0.0.10"; JStr "10.0.0.50"]])),
      [(167772170, 167772210)], [167772165; 167772169].
    repeat split; vm_compute; reflexivity. }
  split; [vm_compute; discriminate|].
  repeat split; vm_compute; reflexivity.
Qed.

End CoverageExamples.

(** ** C3: the effective ranges *)

Section EffectiveRanges.
Import NetworkConfigurationValidator Examples.

(** [_get_network_ip_ranges] itself follows its [use_gateway] parameter:
    in [cidr] notation the range runs from index 2 (else 1) of the network
    to the address before the broadcast one. *)
Lemma _get_network_ip_ranges_cidr (network : dict) (ng_db : NetworkGroup)
    (s : string) (n : netaddr.IPNetwork_t) (use_gateway : bool) :
  get_or "cidr" (ng_cidr ng_db) network = JStr s →
  netaddr.IPNetwork s = Ok n →
  0 ≤ netaddr.prefixlen n ≤ 30 →
  _get_network_ip_ranges network ng_db (JStr consts.NETWORK_NOTATION.cidr)
                         use_gateway
  = Ok (RangesAddr [(netaddr.first n + (if use_gateway then 2 else 1),
                     netaddr.last n - 1)]).
Proof.
  intros Hcidr Hn Hlen. unfold _get_network_ip_ranges.
  replace (json_eqb (JStr consts.NETWORK_NOTATION.cidr)
                    (JStr consts.NETWORK_NOTATION.ip_ranges))
    with false by reflexivity.
  replace (json_eqb (JStr consts.NETWORK_NOTATION.cidr)
                    (JStr consts.NETWORK_NOTATION.cidr))
    with true by reflexivity.
  rewrite Hcidr. simpl. rewrite Hn. simpl.
  assert (4 ≤ netaddr.size n) as Hsize.
  { unfold netaddr.size.
    change 4 with (2 ^ 2). apply Z.pow_le_mono_r; lia. }
  unfold netaddr.getitem.
  assert ((0 <=? (if use_gateway then 2 else 1))
          && ((if use_gateway then 2 else 1) <? netaddr.size n) = true) as ->.
  { destruct use_gateway; apply andb_true_iff; split;
      [apply Z.leb_le|apply Z.ltb_lt|apply Z.leb_le|apply Z.ltb_lt]; lia. }
  simpl.
  assert ((- netaddr.size n <=? -2) && (-2 <? 0) = true) as ->.
  { apply andb_true_iff; split; [apply Z.leb_le|apply Z.ltb_lt]; lia. }
  simpl.
  replace (netaddr.last n + -2 + 1) with (netaddr.last n - 1) by lia.
  reflexivity.
Qed.

Lemma _get_network_ip_ranges_ip_ranges (network : dict)
    (ng_db : NetworkGroup) (use_gateway : bool) :
  _get_network_ip_ranges network ng_db
                         (JStr consts.NETWORK_NOTATION.ip_ranges) use_gateway
  = Ok (RangesJson (get_or "ip_ranges" (db_ranges ng_db) network)).
Proof. reflexivity. Qed.

(** C3.  The storage network is in [cidr] notation with CIDR
    192.168.1.0/24, its [use_gateway] flag is false and its gateway is set:
    the ranges [validate_network_group] computes start at index 2
    (192.168.1.2), not at index 1, because the call passes
    [gateway is not None] where [_get_network_ip_ranges] expects the flag. *)
Theorem effective_ranges_ignore_use_gateway :
  get_or "use_gateway" (JBool false) (ng_meta ng_storage) = JBool false
  ∧ effective_ranges [("id", JNum 3)] ng_storage
    = Ok (RangesAddr [(3232235778, 3232236030)])
  ∧ _get_network_ip_ranges [("id", JNum 3)] ng_storage (JStr "cidr") false
    = Ok (RangesAddr [(3232235777, 3232236030)]).
Proof. vm_compute. repeat split; reflexivity. Qed.

End EffectiveRanges.

(** ** C2: creating a VIP at an address in use *)

Section VipCreate.
Import IPAddrValidator Examples.

(** What [validate_create] does once the request has passed the checks on
    its name and network: an address some row holds is refused with
    [InvalidData]. *)
Lemma validate_create_in_use (loads : string → option json)
    (schema_error : string → json → option text) (db : Database)
    (d : dict) (cluster : Cluster) (network_id addr : json)
    (network_db : NetworkGroup) (nodegroup : NodeGroup) :
  schema_error "VIP_CREATE_SCHEMA" (JDict d) = None →
  get "is_user_defined" d ≠ JBool false →
  _check_vip_name d cluster = Ok tt →
  dict_lookup "network" d = Some network_id →
  NetworkGroupValidator.query_get db network_id = Some network_db →
  ng_nodegroup db network_db = Some nodegroup →
  nodegroup_cluster_id nodegroup = Some (cluster_id cluster) →
  dict_lookup "ip_addr" d = Some addr →
  validate_create loads schema_error db (Parsed (JDict d)) cluster
  = match get_all_by_addr db addr with
    | _ :: _ => Raise (InvalidData (address_in_use_msg addr))
    | [] => Ok (JDict d)
    end.
Proof.
  intros Hschema Hud Hname Hnet Hdb Hgroup Hcluster Haddr.
  unfold validate_create, BasicValidator.validate_schema. simpl.
  rewrite Hschema. simpl.
  assert (match get "is_user_defined" d with
          | JBool false => true
          | _ => false
          end = false) as ->.
  { destruct (get "is_user_defined" d) as [|[]| | | |]; try reflexivity.
    congruence. }
  simpl. rewrite Hname. simpl. unfold getitem. rewrite Hnet. simpl.
  rewrite Hdb, Hgroup, Hcluster. simpl. rewrite Z.eqb_refl. simpl.
  rewrite Haddr. simpl. reflexivity.
Qed.

(** C2.  The request for a second VIP at 10.0.0.5, which the VIP [vrouter]
    holds, passes every other check and is refused with [InvalidData], not
    with [AlreadyExists]. *)
Theorem validate_create_in_use_is_invalid_data :
  validate_create (loads []) schema_ok db0 (Parsed vip_request)
                  cluster_operational
  = Raise (InvalidData (address_in_use_msg (JStr "10.0.0.5"))).
Proof. vm_compute. reflexivity. Qed.

End VipCreate.

(** ** C5: a network id on at most one interface *)

Section Uniqueness.
Import NetAssignmentValidator.

Variable BOND_PROPERTIES : list string.
Variable BOND_MODES : list string.

Lemma bind_inv_Raise {A B : Type} (m : result A) (f : A → result B)
    (e : error) :
  (m ≫= f) = Raise e → m = Raise e ∨ (∃ a, m = Ok a ∧ f a = Raise e).
Proof. destruct m as [a|e']; simpl; [eauto | intros [= ->]; eauto]. Qed.

(** One entry passes when its id is new, and its id joins the set. *)
Lemma check_net_Ok (node_id : json) (iface : dict) (net_ids ids' : gset key)
    (net : json) :
  check_net node_id iface net_ids net = Ok ids' →
  ∃ k, net_key net = Some k ∧ k ∉ net_ids ∧ ids' = {[k]} ∪ net_ids.
Proof.
  unfold check_net, net_key. destruct net as [| | | | |n]; try discriminate.
  unfold has_key, get, get_or.
  destruct (dict_lookup "id" n) as [v|]; simpl; [|discriminate].
  destruct (hashable v) as [k|]; simpl; [|discriminate].
  destruct (bool_decide (k ∈ net_ids)) eqn:Hin; simpl; [discriminate|].
  intros [= <-]. exists k. apply bool_decide_eq_false in Hin. auto.
Qed.

Lemma check_nets_Ok (node_id : json) (iface : dict) (nets : list json) :
  ∀ net_ids ids' : gset key,
  for_fold (check_net node_id iface) net_ids nets = Ok ids' →
  NoDup (omap net_key nets)
  ∧ (∀ k, k ∈ omap net_key nets → k ∉ net_ids)
  ∧ ids' = list_to_set (omap net_key nets) ∪ net_ids.
Proof.
  induction nets as [|net nets IH]; intros net_ids ids'; simpl.
  - intros [= <-]. split; [constructor|]. split; set_solver.
  - intros H. apply bind_inv_Ok in H as (ids1 & H1 & H2).
    apply check_net_Ok in H1 as (k & Hk & Hnew & ->).
    apply IH in H2 as (Hnd & Hdisj & ->). rewrite Hk. simpl.
    split; [|split].
    + constructor; [|exact Hnd]. intros Hin. apply Hdisj in Hin. set_solver.
    + intros k' Hk'. apply elem_of_cons in Hk' as [->|Hk']; [exact Hnew|].
      apply Hdisj in Hk'. set_solver.
    + set_solver.
Qed.

Lemma check_iface_Ok (node_id : json) (net_ids ids' : gset key)
    (iface : json) :
  check_iface BOND_PROPERTIES BOND_MODES node_id net_ids iface = Ok ids' →
  NoDup (iface_net_ids iface)
  ∧ (∀ k, k ∈ iface_net_ids iface → k ∉ net_ids)
  ∧ ids' = list_to_set (iface_net_ids iface) ∪ net_ids.
Proof.
  unfold check_iface, iface_net_ids.
  destruct iface as [| | | | |i]; try discriminate.
  intros H.
  apply bind_inv_Ok in H as (? & _ & H).
  apply bind_inv_Ok in H as (? & _ & H).
  apply bind_inv_Ok in H as (? & _ & H).
  apply bind_inv_Ok in H as (? & _ & H).
  destruct (dict_lookup "assigned_networks" i) as [[| | | |nets|]|];
    try discriminate.
  eapply check_nets_Ok. exact H.
Qed.

Lemma check_ifaces_Ok (node_id : json) (ifaces : list json) :
  ∀ net_ids ids' : gset key,
  for_fold (check_iface BOND_PROPERTIES BOND_MODES node_id) net_ids ifaces
  = Ok ids' →
  NoDup (concat (map iface_net_ids ifaces))
  ∧ (∀ k, k ∈ concat (map iface_net_ids ifaces) → k ∉ net_ids)
  ∧ ids' = list_to_set (concat (map iface_net_ids ifaces)) ∪ net_ids.
Proof.
  induction ifaces as [|iface ifaces IH]; intros net_ids ids'; simpl.
  - intros [= <-]. split; [constructor|]. split; set_solver.
  - intros H. apply bind_inv_Ok in H as (ids1 & H1 & H2).
    apply check_iface_Ok in H1 as (Hnd1 & Hdisj1 & ->).
    apply IH in H2 as (Hnd2 & Hdisj2 & ->).
    split; [|split].
    + apply NoDup_app. split; [exact Hnd1|]. split; [|exact Hnd2].
      intros k Hk1 Hk2. apply Hdisj2 in Hk2. set_solver.
    + intros k Hk. apply elem_of_app in Hk as [Hk|Hk].
      * apply Hdisj1, Hk.
      * apply Hdisj2 in Hk. set_solver.
    + rewrite list_to_set_app_L. set_solver.
Qed.

(** *** What [validate] can raise *)

Lemma for_each_raises {A : Type} (P : error → Prop)
    (body : A → result unit) (xs : list A) (e : error) :
  (∀ x e, body x = Raise e → P e) →
  for_each body xs = Raise e → P e.
Proof.
  intros Hbody. induction xs as [|x xs IH]; simpl; [discriminate|].
  intros H. apply bind_inv_Raise in H as [H|(? & _ & H)]; eauto.
Qed.

Lemma for_fold_raises_only {A S : Type} (P : error → Prop)
    (body : S → A → result S) (xs : list A) (e : error) :
  (∀ s x e, body s x = Raise e → P e) →
  ∀ s, for_fold body s xs = Raise e → P e.
Proof.
  intros Hbody. induction xs as [|x xs IH]; intros s; simpl; [discriminate|].
  intros H. apply bind_inv_Raise in H as [H|(? & _ & H)]; eauto.
Qed.

Lemma raise_if_raises (P : error → Prop) (c : bool) (e e' : error) :
  P e → raise_if c e = Raise e' → P e'.
Proof. intros HP. destruct c; simpl; [intros [= <-]; exact HP|discriminate]. Qed.

(** Splits a failed sequence of checks into the check that failed. *)
Ltac failed_step H :=
  repeat match type of H with
    | (_ ≫= _) = Raise _ =>
        apply bind_inv_Raise in H as [H|(? & _ & H)]
    end.

Ltac by_raise_if :=
  match goal with
  | H : raise_if _ _ = Raise _ |- _ =>
      eapply raise_if_raises; [|exact H]; exact I
  | H : Raise _ = Raise _ |- _ => injection H as <-; exact I
  end.

Lemma py_in_raises (k : string) (x : json) (e : error) :
  py_in k x = Raise e → not_conflict e.
Proof. destruct x; simpl; intros [= <-] || discriminate; exact I. Qed.

Lemma hashable_raises (j : json) (e : error) :
  hashable j = Raise e → not_conflict e.
Proof. destruct j; simpl; try discriminate; intros [= <-]; exact I. Qed.

Lemma getitem_raises (k : string) (d : dict) (e : error) :
  getitem k d = Raise e → not_conflict e.
Proof.
  unfold getitem. destruct (dict_lookup k d); [discriminate|].
  intros [= <-]; exact I.
Qed.

Lemma get_bond_mode_raises (iface : dict) (e : error) :
  get_bond_mode iface = Raise e → not_conflict e.
Proof.
  unfold get_bond_mode. intros H.
  apply bind_inv_Raise in H as [H|(b & _ & H)].
  - eapply py_in_raises, H.
  - destruct b; [|discriminate].
    apply bind_inv_Raise in H as [H|(props & _ & H)].
    + eapply getitem_raises, H.
    + destruct props; try (injection H as <-; exact I).
      eapply getitem_raises, H.
Qed.

Lemma check_net_raises (node_id : json) (iface : dict) (net_ids : gset key)
    (net : json) (e : error) :
  check_net node_id iface net_ids net = Raise e → not_conflict e.
Proof.
  unfold check_net. destruct net; try (intros [= <-]; exact I).
  intros H. failed_step H; try by_raise_if; try discriminate.
  eapply hashable_raises, H.
Qed.

Lemma check_bond_raises (node_id : json) (iface : dict) (e : error) :
  check_bond BOND_PROPERTIES BOND_MODES node_id iface = Raise e →
  not_conflict e.
Proof.
  unfold check_bond. intros H. failed_step H; try by_raise_if.
  - destruct (dict_lookup "slaves" iface) as [[| | | |l|]|];
      try (injection H as <-; exact I).
    destruct (length l <? 2)%nat; [injection H as <-; exact I|discriminate].
  - eapply for_each_raises; [|exact H]. intros slave e' H'. cbv beta in H'.
    failed_step H'; try by_raise_if. eapply py_in_raises, H'.
  - destruct (dict_lookup "bond_properties" iface) as [[| | | | |props]|];
      try (injection H as <-; exact I); try discriminate.
    eapply for_each_raises; [|exact H]. intros k e' H'. cbv beta in H'. by_raise_if.
  - eapply get_bond_mode_raises, H.
Qed.

Lemma check_iface_raises (node_id : json) (net_ids : gset key)
    (iface : json) (e : error) :
  check_iface BOND_PROPERTIES BOND_MODES node_id net_ids iface = Raise e →
  not_conflict e.
Proof.
  unfold check_iface. destruct iface as [| | | | |i];
    try (intros [= <-]; exact I).
  intros H. failed_step H; try by_raise_if.
  - destruct (json_eqb _ _); [|discriminate].
    eapply check_bond_raises, H.
  - destruct (dict_lookup "assigned_networks" i) as [[| | | |nets|]|];
      try (injection H as <-; exact I).
    eapply for_fold_raises_only; [|exact H].
    intros s net e'. apply check_net_raises.
Qed.

(** [validate] raises [InvalidData], or an exception of Python itself on
    a value it cannot use. *)
Lemma validate_raises (node : json) (e : error) :
  validate BOND_PROPERTIES BOND_MODES node = Raise e → not_conflict e.
Proof.
  unfold validate. destruct node as [| | | | |n];
    try (intros [= <-]; exact I).
  intros H. failed_step H; try by_raise_if.
  destruct (dict_lookup "interfaces" n) as [[| | | |ifaces|]|];
    try (injection H as <-; exact I).
  failed_step H; try discriminate.
  eapply for_fold_raises_only; [|exact H].
  intros s iface e'. apply check_iface_raises.
Qed.

(** *** What [validate] raises on a typed request *)

Lemma py_in_container (k : string) (x : json) :
  container x → ∃ b, py_in k x = Ok b.
Proof. destruct x; simpl; intros []; eauto. Qed.

Lemma get_bond_mode_typed (iface : dict) :
  bond_typed iface → ∃ mode, get_bond_mode iface = Ok mode.
Proof.
  intros [_ Hprops]. unfold get_bond_mode, get_or, getitem.
  destruct (dict_lookup "bond_properties" iface) as [props|]; simpl;
    [|eauto].
  destruct (Hprops props eq_refl) as [p ->]. simpl. unfold has_key.
  destruct (dict_lookup "mode" p); simpl; eauto.
Qed.

Lemma check_net_invalid (node_id : json) (iface : dict) (net_ids : gset key)
    (net : json) (e : error) :
  net_typed net →
  check_net node_id iface net_ids net = Raise e → invalid_data e.
Proof.
  intros Htyped. unfold check_net.
  destruct net as [| | | | |n]; try (intros [= <-]; exact I).
  unfold has_key, get, get_or.
  destruct (dict_lookup "id" n) as [v|] eqn:Hid; simpl;
    [|intros [= <-]; exact I].
  destruct (Htyped n v eq_refl Hid) as [k ->]. simpl.
  intros H. failed_step H; try by_raise_if; discriminate.
Qed.

Lemma check_bond_invalid (node_id : json) (iface : dict) (e : error) :
  bond_typed iface →
  check_bond BOND_PROPERTIES BOND_MODES node_id iface = Raise e →
  invalid_data e.
Proof.
  intros Htyped. pose proof Htyped as [Hslaves Hprops].
  unfold check_bond. intros H.
  apply bind_inv_Raise in H as [H|(? & _ & H)]; [by_raise_if|].
  apply bind_inv_Raise in H as [H|(slaves & Hsl & H)].
  { destruct (dict_lookup "slaves" iface) as [[| | | |l|]|];
      try (injection H as <-; exact I).
    destruct (length l <? 2)%nat; [injection H as <-; exact I|discriminate]. }
  assert (Forall container slaves) as Hcontainers.
  { destruct (dict_lookup "slaves" iface) as [[| | | |l|]|];
      try discriminate.
    destruct (length l <? 2)%nat; [discriminate|].
    injection Hsl as <-. apply Hslaves. reflexivity. }
  clear Hsl.
  apply bind_inv_Raise in H as [H|(? & _ & H)].
  { induction Hcontainers as [|slave slaves Hslave _ IH]; [discriminate|].
    simpl in H. apply bind_inv_Raise in H as [H|(? & _ & H)]; [|exact (IH H)].
    destruct (py_in_container "name" slave Hslave) as [b Hb].
    rewrite Hb in H. simpl in H. by_raise_if. }
  apply bind_inv_Raise in H as [H|(? & _ & H)].
  { destruct (dict_lookup "bond_properties" iface) as [props|];
      [|discriminate].
    destruct (Hprops props eq_refl) as [p ->].
    eapply for_each_raises; [|exact H]. intros k e' H'. cbv beta in H'.
    by_raise_if. }
  apply bind_inv_Raise in H as [H|(mode & _ & H)].
  { destruct (get_bond_mode_typed iface Htyped) as [mode Hmode].
    congruence. }
  failed_step H; by_raise_if.
Qed.

Lemma check_iface_invalid (node_id : json) (net_ids : gset key)
    (iface : json) (e : error) :
  iface_typed iface →
  check_iface BOND_PROPERTIES BOND_MODES node_id net_ids iface = Raise e →
  invalid_data e.
Proof.
  intros Htyped. unfold check_iface. destruct iface as [| | | | |i];
    try (intros [= <-]; exact I).
  destruct (Htyped i eq_refl) as [Hbond Hnets].
  intros H. failed_step H; try by_raise_if.
  - destruct (json_eqb _ _) eqn:Htype; [|discriminate].
    apply json_eqb_JStr in Htype.
    eapply check_bond_invalid; [|exact H]. apply Hbond.
    unfold get, get_or in Htype.
    destruct (dict_lookup "type" i); [congruence|discriminate].
  - destruct (dict_lookup "assigned_networks" i) as [[| | | |nets|]|];
      try (injection H as <-; exact I).
    specialize (Hnets nets eq_refl). clear -H Hnets.
    revert net_ids H.
    induction Hnets as [|net nets Hnet _ IH]; intros net_ids H;
      [discriminate|].
    simpl in H. apply bind_inv_Raise in H as [H|(ids & _ & H)].
    + eapply check_net_invalid; eassumption.
    + eapply IH, H.
Qed.

Lemma check_ifaces_invalid (node_id : json) (ifaces : list json) :
  Forall iface_typed ifaces →
  ∀ (net_ids : gset key) (e : error),
  for_fold (check_iface BOND_PROPERTIES BOND_MODES node_id) net_ids ifaces
  = Raise e →
  invalid_data e.
Proof.
  induction 1 as [|iface ifaces Hiface _ IH]; intros net_ids e H;
    [discriminate|].
  simpl in H. apply bind_inv_Raise in H as [H|(ids' & _ & H)].
  - eapply check_iface_invalid; eassumption.
  - eapply IH, H.
Qed.

Lemma validate_invalid (node : json) (e : error) :
  request_typed node →
  validate BOND_PROPERTIES BOND_MODES node = Raise e → invalid_data e.
Proof.
  intros Htyped. unfold validate. destruct node as [| | | | |n];
    try (intros [= <-]; exact I).
  intros H. apply bind_inv_Raise in H as [H|(? & _ & H)]; [by_raise_if|].
  destruct (dict_lookup "interfaces" n) as [[| | | |ifaces|]|] eqn:Hifaces;
    try (injection H as <-; exact I).
  specialize (Htyped n ifaces eq_refl Hifaces).
  apply bind_inv_Raise in H as [H|(? & _ & H)]; [|discriminate].
  eapply check_ifaces_invalid; eassumption.
Qed.

(** A request is accepted only if no network id occurs twice in it. *)
Lemma validate_accepted_unique (node node' : json) :
  validate BOND_PROPERTIES BOND_MODES node = Ok node' →
  node' = node ∧ NoDup (node_net_ids node).
Proof.
  unfold validate, node_net_ids.
  destruct node as [| | | | |n]; try discriminate.
  intros H. apply bind_inv_Ok in H as (? & _ & H).
  destruct (dict_lookup "interfaces" n) as [[| | | |ifaces|]|];
    try discriminate.
  apply bind_inv_Ok in H as (ids & Hids & H). injection H as <-.
  split; [reflexivity|]. apply check_ifaces_Ok in Hids. tauto.
Qed.

(** C5, amended.  A request that [validate] accepts is returned unchanged
    and no network id occurs twice among the [assigned_networks] of its
    interfaces, whether on two interfaces or twice on one; conversely a
    request in which some id occurs twice, and whose bond slaves are
    containers, whose [bond_properties] are dicts and whose network ids
    are hashable, is rejected with [InvalidData]. *)
Theorem validate_unique_networks (node : json) :
  (∀ node', validate BOND_PROPERTIES BOND_MODES node = Ok node' →
            node' = node ∧ NoDup (node_net_ids node))
  ∧ (request_typed node →
     ¬ NoDup (node_net_ids node) →
     ∃ msg, validate BOND_PROPERTIES BOND_MODES node = Raise (InvalidData msg)).
Proof.
  split; [apply validate_accepted_unique|].
  intros Htyped Hdup.
  destruct (validate BOND_PROPERTIES BOND_MODES node) as [node'|e] eqn:Hv.
  - destruct (validate_accepted_unique _ _ Hv) as [_ Hnd]. contradiction.
  - apply (validate_invalid _ _ Htyped) in Hv as He.
    destruct e as [msg|msg|cls]; [eauto|destruct He|destruct He].
Qed.

End Uniqueness.

Section UniquenessExamples.
Import NetAssignmentValidator Examples.

Example validate_request_initial :
  validate BOND_PROPERTIES BOND_MODES request_initial = Ok request_initial.
Proof. vm_compute. reflexivity. Qed.

(** C5 as stated fails: network 1 is assigned on the bond and on [eth2],
    and the request is not rejected with [InvalidData]: the slaves of the
    bond are numbers, and the test for their names raises [TypeError]. *)
Lemma duplicate_with_numeric_slaves_type_error :
  ¬ NoDup (node_net_ids request_duplicate_numeric_slaves)
  ∧ validate BOND_PROPERTIES BOND_MODES request_duplicate_numeric_slaves
    = Raise (PyError "TypeError")
  ∧ ¬ ∃ msg, validate BOND_PROPERTIES BOND_MODES
                      request_duplicate_numeric_slaves
             = Raise (InvalidData msg).
Proof.
  assert (validate BOND_PROPERTIES BOND_MODES request_duplicate_numeric_slaves
          = Raise (PyError "TypeError")) as Hv by (vm_compute; reflexivity).
  split; [|split; [exact Hv|]].
  - change (node_net_ids request_duplicate_numeric_slaves)
      with [Some (inl 1) : key; Some (inl 1)].
    intros H. apply NoDup_cons in H as [H _]. apply H. left.
  - intros [msg Hmsg]. rewrite Hv in Hmsg. discriminate.
Qed.

Lemma net_ref_typed (id : Z) (name : string) : net_typed (net_ref id name).
Proof. intros n v [= <-] [= <-]. eexists. reflexivity. Qed.

Lemma ether_typed (id : Z) (name : string) (nets : list json) :
  Forall net_typed nets → iface_typed (ether id name nets).
Proof.
  intros Hnets i [= <-]. split; [discriminate|].
  intros nets' [= <-]. exact Hnets.
Qed.

Lemma request_duplicate_typed : request_typed request_duplicate.
Proof.
  intros n ifaces [= <-] [= <-].
  constructor; [|constructor; [|constructor]]; apply ether_typed.
  - constructor; [apply net_ref_typed|constructor].
  - constructor; [apply net_ref_typed|].
    constructor; [apply net_ref_typed|constructor].
Qed.

Lemma validate_unique_networks_witness :
  (validate BOND_PROPERTIES BOND_MODES request_initial = Ok request_initial
   ∧ NoDup (node_net_ids request_initial))
  ∧ (¬ NoDup (node_net_ids request_duplicate)
     ∧ ∃ msg, validate BOND_PROPERTIES BOND_MODES request_duplicate
              = Raise (InvalidData msg)).
Proof.
  assert (validate BOND_PROPERTIES BOND_MODES request_initial
          = Ok request_initial) as Hok by (vm_compute; reflexivity).
  assert (¬ NoDup (node_net_ids request_duplicate)) as Hdup.
  { change (node_net_ids request_duplicate)
      with [Some (inl 1) : key; Some (inl 4); Some (inl 1)].
    intros H. apply NoDup_cons in H as [H _]. apply H.
    right. left. }
  split.
  - split; [exact Hok|].
    apply (proj1 (validate_unique_networks BOND_PROPERTIES BOND_MODES
                    request_initial) request_initial Hok).
  - split; [exact Hdup|].
    apply (proj2 (validate_unique_networks BOND_PROPERTIES BOND_MODES
                    request_duplicate) request_duplicate_typed Hdup).
Defined.

End UniquenessExamples.

(** ** C6: where the admin network may be placed *)

Section AdminPlacement.
Import node_models NetAssignmentData.

Variable prohibited_admin_bond_modes : list string.
Variable NIC_dpdk_available : option Interface → json → bool.
Variable Bond_dpdk_available : Interface → json → bool.
Variable default_admin_network_id : Z.

Notation verify_iface := (verify_iface prohibited_admin_bond_modes).
Notation verify_bond := (verify_bond prohibited_admin_bond_modes).
Notation verify_data_correctness :=
  (verify_data_correctness prohibited_admin_bond_modes NIC_dpdk_available
                           Bond_dpdk_available default_admin_network_id).

Lemma has_admin_nonempty (nets : list json) :
  has_admin nets = true → match nets with [] => false | _ => true end = true.
Proof. destruct nets; [discriminate|reflexivity]. Qed.

(** The admin network on a physical interface that is not the PXE one. *)
Lemma verify_iface_admin_on_non_pxe (node_id : json) (db_node : DbNode)
    (db_interfaces : list Interface) (by_name : list (json * dict))
    (bonded : gset Z) (i : dict) (nets : list json) (ifid name : json)
    (db_iface : Interface) :
  is_Some (cluster db_node) →
  iface_nets_of i = Ok nets → has_admin nets = true →
  dict_lookup "type" i = Some (JStr consts.NETWORK_INTERFACE_TYPES.ether) →
  dict_lookup "id" i = Some ifid →
  _get_iface_by_id ifid db_interfaces = Some db_iface →
  iface_pxe db_iface = false →
  dict_lookup "name" i = Some name →
  verify_iface node_id db_node db_interfaces by_name bonded (JDict i)
  = Raise (InvalidData (admin_on_non_pxe_msg node_id name)).
Proof.
  intros [c Hc] Hnets Hadmin Htype Hid Hdb Hpxe Hname.
  unfold NetAssignmentData.verify_iface. simpl. rewrite Hnets. simpl.
  rewrite Hc, andb_false_r. simpl.
  unfold getitem at 1. rewrite Htype. simpl.
  unfold verify_ether, getitem at 1. rewrite Hid. simpl. rewrite Hdb.
  rewrite Hpxe, Hadmin. simpl. unfold getitem. rewrite Hname. reflexivity.
Qed.

(** Whether the slaves seen so far include the PXE interface. *)
Lemma verify_slaves_pxe (node_id : json) (db_interfaces : list Interface)
    (by_name : list (json * dict)) (pxe : json) (iface : dict)
    (slaves : list json) :
  ∀ (p0 p : bool) (b0 b : gset Z),
  for_fold (verify_slave node_id db_interfaces by_name pxe iface)
           (p0, b0) slaves = Ok (p, b) →
  p = p0 || existsb (slave_is pxe) slaves.
Proof.
  induction slaves as [|slave slaves IH]; intros p0 p b0 b; simpl.
  - intros [= <- <-]. rewrite orb_false_r. reflexivity.
  - intros H. apply bind_inv_Ok in H as ([p1 b1] & H1 & H2).
    apply IH in H2 as ->.
    unfold verify_slave, slave_is in *.
    destruct (item "name" slave) as [slave_name|]; simpl in H1;
      [|discriminate].
    destruct (_get_iface_by_name slave_name db_interfaces) as [db_slave|];
      [|discriminate].
    apply bind_inv_Ok in H1 as (? & _ & H1).
    apply bind_inv_Ok in H1 as (? & _ & H1).
    apply bind_inv_Ok in H1 as (? & _ & H1).
    apply bind_inv_Ok in H1 as (? & _ & H1).
    injection H1 as <- <-.
    destruct (json_eqb slave_name pxe), p0; reflexivity.
Qed.

(** The admin network on a bond: the mode must not be prohibited and the
    slaves must include the PXE interface. *)
Lemma verify_iface_admin_on_bond (node_id : json) (db_node : DbNode)
    (db_interfaces : list Interface) (by_name : list (json * dict))
    (bonded bonded' : gset Z) (i : dict) (nets slaves : list json)
    (p : bool) (mode name : json) :
  is_Some (cluster db_node) →
  iface_nets_of i = Ok nets → has_admin nets = true →
  dict_lookup "type" i = Some (JStr consts.NETWORK_INTERFACE_TYPES.bond) →
  dict_lookup "slaves" i = Some (JList slaves) →
  for_fold (verify_slave node_id db_interfaces by_name
                         (pxe_iface_name db_node) i)
           (false, bonded) slaves = Ok (p, bonded') →
  NetAssignmentValidator.get_bond_mode i = Ok mode →
  dict_lookup "name" i = Some name →
  verify_iface node_id db_node db_interfaces by_name bonded (JDict i)
  = if in_names mode prohibited_admin_bond_modes
    then Raise (InvalidData (admin_bond_mode_msg node_id name mode))
    else if existsb (slave_is (pxe_iface_name db_node)) slaves
    then Ok bonded'
    else Raise (InvalidData
                  (admin_bond_no_pxe_msg node_id name
                                         (pxe_iface_name db_node))).
Proof.
  intros [c Hc] Hnets Hadmin Htype Hslaves Hloop Hmode Hname.
  unfold NetAssignmentData.verify_iface. simpl. rewrite Hnets. simpl.
  rewrite Hc, andb_false_r. simpl.
  unfold getitem at 1. rewrite Htype. simpl.
  unfold NetAssignmentData.verify_bond, getitem at 1. rewrite Hslaves. simpl.
  rewrite Hloop. simpl. rewrite Hadmin, Hmode. simpl.
  apply verify_slaves_pxe in Hloop. simpl in Hloop. subst p.
  unfold raise_named, getitem. rewrite Hname.
  destruct (in_names mode prohibited_admin_bond_modes); simpl; [reflexivity|].
  destruct (existsb _ slaves); reflexivity.
Qed.

(** [verify_data_correctness] raises what the first loop raises at the
    interface it reaches. *)
Lemma verify_data_correctness_raises (db_nodes : list DbNode) (node : dict)
    (node_id : json) (db_node : DbNode) (by_name : list (json * dict))
    (pre post : list json) (x : json) (bonded : gset Z) (e : error) :
  reaches prohibited_admin_bond_modes db_nodes node node_id db_node by_name
          pre x post bonded →
  verify_iface node_id db_node (nic_interfaces db_node) by_name bonded x
  = Raise e →
  verify_data_correctness db_nodes node = Raise e.
Proof.
  intros (Hid & Hdb & Hlock & Hifaces & Hidx & Hpxe & _ & Hpre) Hx.
  unfold NetAssignmentData.verify_data_correctness, getitem.
  rewrite Hid. simpl. rewrite Hdb, Hlock. simpl.
  rewrite Hifaces. simpl. rewrite Hidx. simpl. rewrite Hpxe. simpl.
  rewrite (for_fold_raises _ _ _ _ _ _ _ Hpre Hx). reflexivity.
Qed.

(** C6, amended.  When the first loop of [verify_data_correctness]
    reaches an interface one of whose network entries is named
    [fuelweb_admin] in the request:
    - a physical interface that is not the PXE interface makes it fail
      with [InvalidData], the message naming the node and the interface;
    - a bond whose slaves are found makes it fail with [InvalidData] when
      its mode is prohibited for the admin network or when none of its
      slaves is the node's PXE interface, and otherwise passes the check:
      the loop goes on to the next interface. *)
Theorem admin_network_placement (db_nodes : list DbNode) (node : dict)
    (node_id : json) (db_node : DbNode) (by_name : list (json * dict))
    (pre post : list json) (i : dict) (bonded : gset Z) (nets : list json)
    (name : json) :
  reaches prohibited_admin_bond_modes db_nodes node node_id db_node by_name
          pre (JDict i) post bonded →
  iface_nets_of i = Ok nets →
  has_admin nets = true →
  dict_lookup "name" i = Some name →
  (∀ ifid db_iface,
     dict_lookup "type" i = Some (JStr consts.NETWORK_INTERFACE_TYPES.ether) →
     dict_lookup "id" i = Some ifid →
     _get_iface_by_id ifid (nic_interfaces db_node) = Some db_iface →
     iface_pxe db_iface = false →
     verify_data_correctness db_nodes node
     = Raise (InvalidData (admin_on_non_pxe_msg node_id name)))
  ∧ (∀ slaves p bonded' mode,
       dict_lookup "type" i = Some (JStr consts.NETWORK_INTERFACE_TYPES.bond) →
       dict_lookup "slaves" i = Some (JList slaves) →
       for_fold (verify_slave node_id (nic_interfaces db_node) by_name
                              (pxe_iface_name db_node) i)
                (false, bonded) slaves = Ok (p, bonded') →
       NetAssignmentValidator.get_bond_mode i = Ok mode →
       (in_names mode prohibited_admin_bond_modes = true →
        verify_data_correctness db_nodes node
        = Raise (InvalidData (admin_bond_mode_msg node_id name mode)))
       ∧ (in_names mode prohibited_admin_bond_modes = false →
          existsb (slave_is (pxe_iface_name db_node)) slaves = false →
          verify_data_correctness db_nodes node
          = Raise (InvalidData
                     (admin_bond_no_pxe_msg node_id name
                                            (pxe_iface_name db_node))))
       ∧ (in_names mode prohibited_admin_bond_modes = false →
          existsb (slave_is (pxe_iface_name db_node)) slaves = true →
          verify_iface node_id db_node (nic_interfaces db_node) by_name
                       bonded (JDict i)
          = Ok bonded')).
Proof.
  intros Hreach Hnets Hadmin Hname.
  assert (is_Some (cluster db_node)) as Hcluster by apply Hreach.
  split.
  - intros ifid db_iface Htype Hid Hdb Hpxe.
    eapply verify_data_correctness_raises; [exact Hreach|].
    eapply verify_iface_admin_on_non_pxe; eassumption.
  - intros slaves p bonded' mode Htype Hslaves Hloop Hmode.
    pose proof (verify_iface_admin_on_bond node_id db_node
                  (nic_interfaces db_node) by_name bonded bonded' i nets
                  slaves p mode name Hcluster Hnets Hadmin Htype Hslaves
                  Hloop Hmode Hname) as Hbond.
    repeat split.
    + intros Hprohibited. rewrite Hprohibited in Hbond.
      eapply verify_data_correctness_raises; eassumption.
    + intros Hallowed Hnopxe. rewrite Hallowed, Hnopxe in Hbond.
      eapply verify_data_correctness_raises; eassumption.
    + intros Hallowed Hhaspxe. rewrite Hallowed, Hhaspxe in Hbond.
      exact Hbond.
Qed.

End AdminPlacement.

Section AdminPlacementExamples.
Import node_models NetAssignmentData Examples.

Example verify_request_initial : verify_example request_initial = Ok tt.
Proof. vm_compute. reflexivity. Qed.

(** Section 8: reassigning the admin network to [eth1], which is not the
    PXE interface, is refused, the message naming the node and [eth1]. *)
Example scenario_admin_on_eth1 :
  verify_example request_admin_on_eth1
  = Raise (InvalidData (admin_on_non_pxe_msg (JNum 1) (JStr "eth1"))).
Proof. vm_compute. reflexivity. Qed.

Example admin_on_bond_with_pxe :
  verify_example (request_bond "active-backup" ["eth0"; "eth1"]) = Ok tt.
Proof. vm_compute. reflexivity. Qed.

Example admin_on_bond_without_pxe :
  verify_example (request_bond "active-backup" ["eth1"; "eth0a"])
  = Raise (InvalidData
             (TFormat "Node '{0}': there is no interface '{1}' found for bond '{2}' in DB"
                      [TVal (JNum 1); TVal (JStr "eth0a"); TVal (JStr "bond0")])).
Proof. vm_compute. reflexivity. Qed.

(** C6 as stated fails: the admin network, whose id is 1, is sent by its
    id alone to [eth1], which is not the PXE interface; the request passes
    [validate], which asks a network entry for its [id] only, and passes
    [verify_data_correctness], which knows the admin network by the name
    the entry carries. *)
Lemma admin_by_id_on_non_pxe_accepted :
  NetAssignmentValidator.validate BOND_PROPERTIES BOND_MODES
                                  request_admin_by_id
  = Ok request_admin_by_id
  ∧ _get_iface_by_id (JNum 2) (nic_interfaces db_node1)
    = Some (nic 2 "eth1" false)
  ∧ iface_pxe (nic 2 "eth1" false) = false
  ∧ verify_example request_admin_by_id = Ok tt
  ∧ verify_example request_admin_on_eth1
    = Raise (InvalidData (admin_on_non_pxe_msg (JNum 1) (JStr "eth1"))).
Proof. repeat split; vm_compute; reflexivity. Qed.

Lemma admin_network_placement_witness :
  has_admin [JStr "fuelweb_admin"] = true
  ∧ verify_example request_admin_on_eth1
    = Raise (InvalidData (admin_on_non_pxe_msg (JNum 1) (JStr "eth1")))
  ∧ verify_example (request_bond "802.3ad" ["eth0"; "eth1"])
    = Raise (InvalidData
               (admin_bond_mode_msg (JNum 1) (JStr "bond0") (JStr "802.3ad")))
  ∧ verify_example (request_bond "active-backup" ["eth1"; "eth2"])
    = Raise (InvalidData
               (admin_bond_no_pxe_msg (JNum 1) (JStr "bond0") (JStr "eth0"))).
Proof.
  split; [reflexivity|]. split; [|split].
  - unfold verify_example, request_admin_on_eth1, node_request.
    unshelve eapply (proj1 (admin_network_placement
                     prohibited_admin_bond_modes no_dpdk_nic no_dpdk_bond 1
                     [db_node1] _ (JNum 1) db_node1
                     [(JStr "eth0", ether_fields 1 "eth0" [net_ref 4 "public"]);
                      (JStr "eth1",
                       ether_fields 2 "eth1" [net_ref 1 "fuelweb_admin"])]
                     [ether 1 "eth0" [net_ref 4 "public"]] []
                     (ether_fields 2 "eth1" [net_ref 1 "fuelweb_admin"])
                     ∅ [JStr "fuelweb_admin"] (JStr "eth1") _ _ _ _)
              (JNum 2) (nic 2 "eth1" false)); try reflexivity.
    all: try (vm_compute; reflexivity).
    all: unfold reaches; repeat split; try (vm_compute; reflexivity).
    all: eexists; reflexivity.
  - unfold verify_example, request_bond, node_request.
    assert (∃ p b,
              for_fold (verify_slave (JNum 1) (nic_interfaces db_node1)
                          [(JStr "bond0",
                            bond_fields "bond0" "802.3ad" ["eth0"; "eth1"]
                                        [net_ref 1 "fuelweb_admin"]);
                           (JStr "eth2",
                            ether_fields 3 "eth2" [net_ref 4 "public"])]
                          (pxe_iface_name db_node1)
                          (bond_fields "bond0" "802.3ad" ["eth0"; "eth1"]
                                       [net_ref 1 "fuelweb_admin"]))
                       (false, ∅)
                       [JDict [("name", JStr "eth0")];
                        JDict [("name", JStr "eth1")]]
              = Ok (p, b)) as (p & b & Hloop)
      by (eexists _, _; vm_compute; reflexivity).
    unshelve eapply (proj1 (proj2 (admin_network_placement
                     prohibited_admin_bond_modes no_dpdk_nic no_dpdk_bond 1
                     [db_node1] _ (JNum 1) db_node1 _
                     [] [ether 3 "eth2" [net_ref 4 "public"]]
                     (bond_fields "bond0" "802.3ad" ["eth0"; "eth1"]
                                  [net_ref 1 "fuelweb_admin"])
                     ∅ [JStr "fuelweb_admin"] (JStr "bond0") _ _ _ _)
                   _ p b (JStr "802.3ad") _ _ Hloop _)); try reflexivity.
    all: try (vm_compute; reflexivity).
    all: unfold reaches; repeat split; try (vm_compute; reflexivity).
    all: eexists; reflexivity.
  - unfold verify_example, request_bond, node_request.
    assert (∃ p b,
              for_fold (verify_slave (JNum 1) (nic_interfaces db_node1)
                          [(JStr "bond0",
                            bond_fields "bond0" "active-backup"
                                        ["eth1"; "eth2"]
                                        [net_ref 1 "fuelweb_admin"]);
                           (JStr "eth2",
                            ether_fields 3 "eth2" [net_ref 4 "public"])]
                          (pxe_iface_name db_node1)
                          (bond_fields "bond0" "active-backup"
                                       ["eth1"; "eth2"]
                                       [net_ref 1 "fuelweb_admin"]))
                       (false, ∅)
                       [JDict [("name", JStr "eth1")];
                        JDict [("name", JStr "eth2")]]
              = Ok (p, b)) as (p & b & Hloop)
      by (eexists _, _; vm_compute; reflexivity).
    unshelve eapply (proj1 (proj2 (proj2 (admin_network_placement
                     prohibited_admin_bond_modes no_dpdk_nic no_dpdk_bond 1
                     [db_node1] _ (JNum 1) db_node1 _
                     [] [ether 3 "eth2" [net_ref 4 "public"]]
                     (bond_fields "bond0" "active-backup" ["eth1"; "eth2"]
                                  [net_ref 1 "fuelweb_admin"])
                     ∅ [JStr "fuelweb_admin"] (JStr "bond0") _ _ _ _)
                   _ p b (JStr "active-backup") _ _ Hloop _)));
      try reflexivity.
    all: try (vm_compute; reflexivity).
    all: unfold reaches; repeat split; try (vm_compute; reflexivity).
    all: eexists; reflexivity.
Defined.

End AdminPlacementExamples.

(** ** C8: the MTU of an interface with DPDK *)

Section DpdkMtu.
Import node_models NetAssignmentData.

Variable NIC_dpdk_available : option Interface → json → bool.
Variable Bond_dpdk_available : Interface → json → bool.

Notation dpdk_resolve :=
  (dpdk_resolve NIC_dpdk_available Bond_dpdk_available).
Notation _verify_iface_dpdk_properties :=
  (_verify_iface_dpdk_properties NIC_dpdk_available Bond_dpdk_available).

(** The outcome of [_verify_iface_dpdk_properties] once the checks before
    the MTU one have passed. *)
Lemma _verify_iface_dpdk_properties_mtu (iface : dict)
    (db_interfaces : list Interface) (dpdk_drivers : json) (is_slave : bool)
    (interface_properties : dict) (enabled name : json) :
  dpdk_resolve iface db_interfaces dpdk_drivers is_slave
  = Ok (interface_properties, enabled) →
  dict_lookup "name" iface = Some name →
  _verify_iface_dpdk_properties iface db_interfaces dpdk_drivers is_slave
  = if truthy enabled
       && negb (is_none (get "mtu" interface_properties))
       && py_gt (get "mtu" interface_properties) (JNum 1500)
    then Raise (InvalidData (dpdk_mtu_msg name))
    else Ok enabled.
Proof.
  intros Hresolve Hname.
  unfold NetAssignmentData._verify_iface_dpdk_properties.
  rewrite Hresolve. simpl. unfold raise_named, getitem. rewrite Hname.
  destruct (truthy enabled
            && negb (is_none (get "mtu" interface_properties))
            && py_gt (get "mtu" interface_properties) (JNum 1500));
    reflexivity.
Qed.

(** C8.  For an interface on which DPDK is resolved as enabled and which
    passes the checks that precede the MTU one: with the resolved MTU set
    to the number [m], [_verify_iface_dpdk_properties] passes exactly when
    [m <= 1500] and otherwise fails with [InvalidData]; 1500 passes and
    1501 fails; an unset MTU never fails the check. *)
Theorem dpdk_mtu_at_most_1500 (iface : dict)
    (db_interfaces : list Interface) (dpdk_drivers : json) (is_slave : bool)
    (interface_properties : dict) (enabled name : json) :
  dpdk_resolve iface db_interfaces dpdk_drivers is_slave
  = Ok (interface_properties, enabled) →
  truthy enabled = true →
  dict_lookup "name" iface = Some name →
  let outcome :=
    _verify_iface_dpdk_properties iface db_interfaces dpdk_drivers is_slave in
  (∀ m, get "mtu" interface_properties = JNum m →
        (outcome = Ok enabled ↔ m ≤ 1500)
        ∧ (1500 < m → outcome = Raise (InvalidData (dpdk_mtu_msg name))))
  ∧ (get "mtu" interface_properties = JNum 1500 → outcome = Ok enabled)
  ∧ (get "mtu" interface_properties = JNum 1501 →
     outcome = Raise (InvalidData (dpdk_mtu_msg name)))
  ∧ (get "mtu" interface_properties = JNull → outcome = Ok enabled).
Proof.
  intros Hresolve Henabled Hname outcome.
  assert (∀ m, get "mtu" interface_properties = JNum m →
               outcome = if 1500 <? m
                         then Raise (InvalidData (dpdk_mtu_msg name))
                         else Ok enabled) as Hnum.
  { intros m Hm. subst outcome.
    rewrite (_verify_iface_dpdk_properties_mtu _ _ _ _ _ _ _ Hresolve Hname).
    rewrite Henabled, Hm. reflexivity. }
  split; [|split; [|split]].
  - intros m Hm. rewrite (Hnum m Hm). split; [split|].
    + destruct (1500 <? m) eqn:Hlt; [discriminate|].
      intros _. apply Z.ltb_ge in Hlt. exact Hlt.
    + intros Hle. apply Z.ltb_ge in Hle. rewrite Hle. reflexivity.
    + intros Hlt. apply Z.ltb_lt in Hlt. rewrite Hlt. reflexivity.
  - intros Hm. rewrite (Hnum 1500 Hm). reflexivity.
  - intros Hm. rewrite (Hnum 1501 Hm). reflexivity.
  - intros Hm. subst outcome.
    rewrite (_verify_iface_dpdk_properties_mtu _ _ _ _ _ _ _ Hresolve Hname).
    rewrite Hm, andb_false_r. reflexivity.
Qed.

End DpdkMtu.

Section DpdkMtuExamples.
Import node_models NetAssignmentData Examples.

Example dpdk_mtu_1500 :
  _verify_iface_dpdk_properties dpdk_nic no_dpdk_bond (dpdk_iface (JNum 1500))
                                [nic 2 "eth1" false] (JDict []) false
  = Ok (JBool true).
Proof. vm_compute. reflexivity. Qed.

Example dpdk_mtu_1501 :
  _verify_iface_dpdk_properties dpdk_nic no_dpdk_bond (dpdk_iface (JNum 1501))
                                [nic 2 "eth1" false] (JDict []) false
  = Raise (InvalidData (dpdk_mtu_msg (JStr "eth1"))).
Proof. vm_compute. reflexivity. Qed.

Lemma dpdk_mtu_at_most_1500_witness :
  truthy (JBool true) = true
  ∧ _verify_iface_dpdk_properties dpdk_nic no_dpdk_bond
      (dpdk_iface (JNum 1501)) [nic 2 "eth1" false] (JDict []) false
    = Raise (InvalidData (dpdk_mtu_msg (JStr "eth1"))).
Proof.
  split; [reflexivity|].
  unshelve eapply (proj1 (proj2 (proj2
            (dpdk_mtu_at_most_1500 dpdk_nic no_dpdk_bond
               (dpdk_iface (JNum 1501)) [nic 2 "eth1" false] (JDict [])
               false
               [("dpdk", JDict [("enabled", JBool true)]);
                ("mtu", JNum 1501)]
               (JBool true) (JStr "eth1") _ _ _))) _).
  all: vm_compute; reflexivity.
Defined.

End DpdkMtuExamples.

(** ** C7: a user-defined VIP address against the rows that hold it *)

Section VipUpdate.
Import IPAddrValidator.

Variable loads : string → option json.

Notation validate_update := (validate_update loads).

(** The outcome of [validate_update] for a request that sets
    [is_user_defined] and [ip_addr]. *)
Lemma validate_update_user_defined (db : Database) (data : payload)
    (existing_obj : IPAddr) (d : dict) :
  parse loads data = Ok (JDict d) →
  truthy (get "is_user_defined" d) = true →
  truthy (get "ip_addr" d) = true →
  validate_update db data existing_obj
  = match bad_fields_of d (ipaddr_dict existing_obj) with
    | [] =>
        _check_vip_addr_intersection db existing_obj (get "ip_addr" d) ;;
        Ok (JDict d)
    | bad_fields =>
        Raise (InvalidData (not_updatable_msg bad_fields (JDict d)))
    end.
Proof.
  intros Hparse Hud Haddr. unfold IPAddrValidator.validate_update.
  rewrite Hparse. simpl.
  destruct (bad_fields_of d (ipaddr_dict existing_obj)); simpl;
    [|reflexivity].
  rewrite Hud, Haddr. reflexivity.
Qed.

(** What the intersection check compares.  For a VIP update that sets
    [is_user_defined] and an
    [ip_addr]: if the first row the address query returns is the record
    being updated, or no row holds the address, no [AlreadyExists] is
    raised, in particular when the record being updated is the only row
    that holds it; if the first row returned is another record and the
    update changes no field outside the updatable ones, [validate_update]
    fails with [AlreadyExists], the message naming the name and the CIDR
    of that row's network. *)
Theorem vip_update_intersection (db : Database) (data : payload)
    (existing_obj : IPAddr) (d : dict) :
  parse loads data = Ok (JDict d) →
  truthy (get "is_user_defined" d) = true →
  truthy (get "ip_addr" d) = true →
  let addr := get "ip_addr" d in
  ((∀ r, head (get_all_by_addr db addr) = Some r →
         ipaddr_id r = ipaddr_id existing_obj) →
   ∀ msg, validate_update db data existing_obj ≠ Raise (AlreadyExists msg))
  ∧ ((∀ r, r ∈ get_all_by_addr db addr →
           ipaddr_id r = ipaddr_id existing_obj) →
     ∀ msg, validate_update db data existing_obj ≠ Raise (AlreadyExists msg))
  ∧ (∀ other ng,
       bad_fields_of d (ipaddr_dict existing_obj) = [] →
       head (get_all_by_addr db addr) = Some other →
       ipaddr_id other ≠ ipaddr_id existing_obj →
       network_data db other = Some ng →
       validate_update db data existing_obj
       = Raise (AlreadyExists
                  (intersection_msg addr (JStr (ng_name ng)) (ng_cidr ng)))).
Proof.
  intros Hparse Hud Haddr addr.
  pose proof (validate_update_user_defined db data existing_obj d
                Hparse Hud Haddr) as Hv. fold addr in Hv.
  assert ((∀ r, head (get_all_by_addr db addr) = Some r →
                ipaddr_id r = ipaddr_id existing_obj) →
          ∀ msg, validate_update db data existing_obj
                 ≠ Raise (AlreadyExists msg)) as Hsame.
  { intros Hfirst msg. rewrite Hv.
    destruct (bad_fields_of d (ipaddr_dict existing_obj)); [|discriminate].
    unfold _check_vip_addr_intersection.
    destruct (get_all_by_addr db addr) as [|r rows]; [discriminate|].
    unfold is_not. rewrite (Hfirst r eq_refl), Z.eqb_refl. discriminate. }
  split; [exact Hsame|]. split.
  - intros Hall. apply Hsame. intros r Hr. apply Hall.
    destruct (get_all_by_addr db addr) as [|r' rows]; [discriminate|].
    injection Hr as ->. left.
  - intros other ng Hbad Hfirst Hother Hng. rewrite Hv, Hbad.
    unfold _check_vip_addr_intersection.
    destruct (get_all_by_addr db addr) as [|r rows]; [discriminate|].
    injection Hfirst as ->. unfold is_not.
    apply Z.eqb_neq in Hother. rewrite Hother, Hng. reflexivity.
Qed.

End VipUpdate.

Section VipUpdateExamples.
Import IPAddrValidator Examples.

(** Section 8: saving a VIP with its own address raises no
    [AlreadyExists] when no other row holds the address. *)
Example resave_own_address :
  validate_update (loads bodies) (db_with [row_vrouter]) (Parsed vip_update)
                  row_vrouter
  = Ok vip_update.
Proof. vm_compute. reflexivity. Qed.

(** C7.  A different record, the storage node, holds the address the VIP
    is saved with, and the update raises no [AlreadyExists]: the check
    compares the record with the first row the address query returns
    only, and that row is the VIP's own. *)
Lemma other_holder_not_detected :
  row_storage_node ∈ ip_addrs (db_with [row_vrouter; row_storage_node])
  ∧ ipaddr_id row_storage_node ≠ ipaddr_id row_vrouter
  ∧ ipaddr_ip_addr row_storage_node = "10.0.0.5"
  ∧ validate_update (loads bodies) (db_with [row_vrouter; row_storage_node])
                    (Parsed vip_update) row_vrouter
    = Ok vip_update.
Proof.
  split; [right; left|]. split; [vm_compute; discriminate|].
  split; [reflexivity|]. vm_compute. reflexivity.
Qed.

(** With the rows in the other order the same update is refused. *)
Example own_address_refused :
  validate_update (loads bodies) (db_with [row_storage_node; row_vrouter])
                  (Parsed vip_update) row_vrouter
  = Raise (AlreadyExists
             (intersection_msg (JStr "10.0.0.5") (JStr "storage")
                               (JStr "192.168.1.0/24"))).
Proof. vm_compute. reflexivity. Qed.

Lemma vip_update_intersection_witness :
  truthy (get "is_user_defined"
              [("id", JNum 4); ("ip_addr", JStr "10.0.0.5");
               ("is_user_defined", JBool true)]) = true
  ∧ validate_update (loads bodies) (db_with [row_vrouter; row_public_vip])
                    (Parsed vip_move) row_public_vip
    = Raise (AlreadyExists
               (intersection_msg (JStr "10.0.0.5") (JStr "management")
                                 (JStr "10.0.0.0/24"))).
Proof.
  split; [reflexivity|].
  unshelve eapply (proj2 (proj2
            (vip_update_intersection (loads bodies)
               (db_with [row_vrouter; row_public_vip]) (Parsed vip_move)
               row_public_vip
               [("id", JNum 4); ("ip_addr", JStr "10.0.0.5");
                ("is_user_defined", JBool true)] _ _ _))
            row_vrouter ng_management _ _ _ _).
  all: try (vm_compute; reflexivity).
  vm_compute. discriminate.
Defined.

End VipUpdateExamples.

(** ** C10: which failures a batch of VIP updates accumulates *)

Section VipCollection.
Import IPAddrValidator.

Variable loads : string → option json.

Notation validate_update := (validate_update loads).
Notation check_record := (check_record loads).
Notation validate_collection_update := (validate_collection_update loads).

(** One record: an [InvalidData] becomes a message, any other exception
    leaves the loop. *)
Lemma check_record_outcome (db : Database) (cluster_id : Z)
    (existing_instances : list IPAddr) (error_messages : list text)
    (r : dict) :
  check_record db cluster_id existing_instances error_messages (JDict r)
  = match instance_of existing_instances r with
    | Some instance =>
        match validate_update db (Parsed (JDict r)) instance with
        | Ok _ => Ok error_messages
        | Raise (InvalidData message) => Ok (app error_messages [message])
        | Raise e => Raise e
        end
    | None =>
        Ok (app error_messages
                [not_in_cluster_msg (get "id" r) cluster_id])
    end.
Proof. reflexivity. Qed.

(** C10.  In [validate_collection_update] the [InvalidData] of a record is
    caught and its message kept, and the messages kept are raised together
    as one [InvalidData] once every record has been seen; an exception of
    another class raised for a record, the [AlreadyExists] of the address
    intersection check in particular, is raised at once by the whole
    validation, whatever the records that follow. *)
Theorem collection_update_accumulates_invalid_data_only (db : Database)
    (data : string) (cluster_id : Z) (records : list json) :
  loads data = Some (JList records) →
  let existing_instances := get_vips_by_cluster_id db cluster_id in
  (∀ error_messages r instance message,
     instance_of existing_instances r = Some instance →
     validate_update db (Parsed (JDict r)) instance
     = Raise (InvalidData message) →
     check_record db cluster_id existing_instances error_messages (JDict r)
     = Ok (app error_messages [message]))
  ∧ (∀ error_messages,
       for_fold (check_record db cluster_id existing_instances) [] records
       = Ok error_messages →
       validate_collection_update db data cluster_id
       = match error_messages with
         | [] => Ok (JList records)
         | _ => Raise (InvalidData (TJoin nl error_messages))
         end)
  ∧ (∀ pre r post error_messages instance msg,
       records = app pre (JDict r :: post) →
       for_fold (check_record db cluster_id existing_instances) [] pre
       = Ok error_messages →
       instance_of existing_instances r = Some instance →
       validate_update db (Parsed (JDict r)) instance
       = Raise (AlreadyExists msg) →
       validate_collection_update db data cluster_id
       = Raise (AlreadyExists msg)).
Proof.
  intros Hloads existing_instances. split; [|split].
  - intros error_messages r instance message Hinst Hv.
    rewrite check_record_outcome, Hinst, Hv. reflexivity.
  - intros error_messages Hloop.
    unfold IPAddrValidator.validate_collection_update,
      BasicValidator.validate_json.
    rewrite Hloads. simpl. fold existing_instances. rewrite Hloop. simpl.
    destruct error_messages; reflexivity.
  - intros pre r post error_messages instance msg -> Hpre Hinst Hv.
    unfold IPAddrValidator.validate_collection_update,
      BasicValidator.validate_json.
    rewrite Hloads. simpl. fold existing_instances.
    rewrite (for_fold_raises _ _ _ _ _ _ (AlreadyExists msg) Hpre);
      [reflexivity|].
    rewrite check_record_outcome, Hinst, Hv. reflexivity.
Qed.

End VipCollection.

Section VipCollectionExamples.
Import IPAddrValidator Examples.

(** Two failures of the [InvalidData] kind are reported together. *)
Example collection_two_invalid :
  validate_collection_update
    (loads bodies) (db_with [row_vrouter; row_public_vip])
    "[renetwork, {'id': 9}]" 1
  = Raise (InvalidData
             (TJoin nl
                [not_updatable_msg ["network"] vip_renetwork;
                 not_in_cluster_msg (JNum 9) 1])).
Proof. vm_compute. reflexivity. Qed.

(** The conflict of the first record is raised at once: the second record,
    which is invalid, is not reported. *)
Lemma collection_update_accumulates_invalid_data_only_witness :
  loads bodies "[move, renetwork]" = Some (JList [vip_move; vip_renetwork])
  ∧ validate_collection_update
      (loads bodies) (db_with [row_vrouter; row_public_vip])
      "[move, renetwork]" 1
    = Raise (AlreadyExists
               (intersection_msg (JStr "10.0.0.5") (JStr "management")
                                 (JStr "10.0.0.0/24"))).
Proof.
  split; [reflexivity|].
  unshelve eapply (proj2 (proj2
            (collection_update_accumulates_invalid_data_only
               (loads bodies) (db_with [row_vrouter; row_public_vip])
               "[move, renetwork]" 1 [vip_move; vip_renetwork] _))
            [] [("id", JNum 4); ("ip_addr", JStr "10.0.0.5");
                ("is_user_defined", JBool true)]
            [vip_renetwork] [] row_public_vip _ _ _ _ _).
  all: vm_compute; reflexivity.
Defined.

End VipCollectionExamples.

(** ** C9: the default Admin-pxe network *)

Section DefaultAdminNetwork.
Import NetworkGroupValidator.

Variable loads : string → option json.
Variable schema_error : string → json → option text.

Notation validate_update := (validate_update loads schema_error).

Lemma dict_lookup_remove_ne (k k' : string) (d : dict) :
  k ≠ k' → dict_lookup k (dict_remove k' d) = dict_lookup k d.
Proof.
  intros Hne. induction d as [|[k0 v] d IH]; simpl; [reflexivity|].
  destruct (String.eqb k' k0) eqn:Hk'.
  - apply String.eqb_eq in Hk' as <-.
    apply String.eqb_neq in Hne. rewrite Hne. exact IH.
  - simpl. rewrite IH. reflexivity.
Qed.

(** The network group [validate_update] checks: the one the request body
    names by its [id], or else the one addressed. *)
Lemma validate_update_target (db : Database) (data : string)
    (instance : NetworkGroup) (d : dict) (ng_db : NetworkGroup) :
  loads data = Some (JDict d) →
  query_get db (py_or (get "id" d) (JNum (ng_id instance))) = Some ng_db →
  falsy_id (ng_group_id ng_db) = true →
  ∃ msg, validate_update db data instance = Raise (InvalidData msg).
Proof.
  intros Hloads Htarget Hfalsy.
  unfold NetworkGroupValidator.validate_update, BasicValidator.validate_json,
    BasicValidator.validate_schema.
  rewrite Hloads. simpl.
  destruct (schema_error "NETWORK_GROUP" (JDict d)) as [msg|]; simpl;
    [eauto|].
  assert (get "id" (dict_remove "group_id" d) = get "id" d) as ->.
  { unfold get, get_or. rewrite dict_lookup_remove_ne; [reflexivity|].
    discriminate. }
  rewrite Htarget. simpl. rewrite Hfalsy. simpl. eauto.
Qed.

(** The guard as the code has it.  [validate_update] fails with
    [InvalidData] whenever the
    network group it resolves, the one the request body names by a
    non-empty [id] and otherwise the one addressed, has no [group_id]; so
    it does for the default Admin-pxe network when the body names no other
    network.  [validate_delete] fails with [InvalidData] for every network
    group without [group_id], whatever the request. *)
Theorem default_admin_network_guard (db : Database) (data : string)
    (instance : NetworkGroup) :
  (∀ d ng_db,
     loads data = Some (JDict d) →
     query_get db (py_or (get "id" d) (JNum (ng_id instance))) = Some ng_db →
     falsy_id (ng_group_id ng_db) = true →
     ∃ msg, validate_update db data instance = Raise (InvalidData msg))
  ∧ (∀ d,
       loads data = Some (JDict d) →
       truthy (get "id" d) = false →
       get_network_group db (ng_id instance) = Some instance →
       falsy_id (ng_group_id instance) = true →
       ∃ msg, validate_update db data instance = Raise (InvalidData msg))
  ∧ (∀ force,
       falsy_id (ng_group_id instance) = true →
       validate_delete data instance force
       = Raise (InvalidData
                  (TStr "Default Admin-pxe network cannot be deleted"))).
Proof.
  split; [|split].
  - intros d ng_db. apply validate_update_target.
  - intros d Hloads Hid Hdb Hfalsy.
    apply (validate_update_target db data instance d instance Hloads);
      [|exact Hfalsy].
    unfold py_or. rewrite Hid. exact Hdb.
  - intros force Hfalsy. unfold validate_delete. rewrite Hfalsy. reflexivity.
Qed.

End DefaultAdminNetwork.

Section DefaultAdminNetworkExamples.
Import NetworkGroupValidator Examples.

(** C9.  The network addressed is the default Admin-pxe network, which has
    no [group_id], and its update is accepted: the body names the
    management network, and the guard reads the row the body names instead
    of the instance. *)
Lemma admin_update_with_other_id_accepted :
  falsy_id (ng_group_id ng_admin) = true
  ∧ validate_update (loads bodies) schema_ok db0 "{'id': 2}" ng_admin
    = Ok [("id", JNum 2)]
  ∧ validate_delete "{'id': 2}" ng_admin false
    = Raise (InvalidData (TStr "Default Admin-pxe network cannot be deleted")).
Proof. repeat split; vm_compute; reflexivity. Qed.

Lemma default_admin_network_guard_witness :
  falsy_id (ng_group_id ng_admin) = true
  ∧ (∃ msg, validate_update (loads bodies) schema_ok db0 "{}" ng_admin
            = Raise (InvalidData msg))
  ∧ validate_delete "{}" ng_admin false
    = Raise (InvalidData (TStr "Default Admin-pxe network cannot be deleted")).
Proof.
  split; [reflexivity|]. split.
  - apply (proj1 (proj2 (default_admin_network_guard
                           (loads bodies) schema_ok db0 "{}" ng_admin))
             []); reflexivity.
  - apply (proj2 (proj2 (default_admin_network_guard
                           (loads bodies) schema_ok db0 "{}" ng_admin))
             false); reflexivity.
Defined.

End DefaultAdminNetworkExamples.

(** ** C4: running the default assignment again *)

Section Placement.
Import Node.

Lemma scan_networks_app_Break (network : Network) (l l' : list Network) :
  scan_networks network l = Break → scan_networks network (l ++ l') = Break.
Proof.
  induction l as [|net l IH]; simpl; [discriminate|].
  destruct (dedicated_nic net); [reflexivity|].
  destruct (same_network net network); [discriminate|].
  destruct (net_untagged network && net_untagged net); [reflexivity|].
  exact IH.
Qed.

Lemma scan_networks_app_Return (network : Network) (l l' : list Network) :
  scan_networks network l = Return →
  scan_networks network (l ++ l') = Return.
Proof.
  induction l as [|net l IH]; simpl; [discriminate|].
  destruct (dedicated_nic net); [discriminate|].
  destruct (same_network net network); [reflexivity|].
  destruct (net_untagged network && net_untagged net); [discriminate|].
  exact IH.
Qed.

(** A list that accepts the network finds it at its end once it has been
    appended. *)
Lemma scan_networks_appended (network : Network) (l : list Network) :
  dedicated_nic network = false →
  scan_networks network l = Else →
  scan_networks network (l ++ [network]) = Return.
Proof.
  intros Hded. induction l as [|net l IH]; simpl.
  - intros _. rewrite Hded. unfold same_network. rewrite Z.eqb_refl.
    reflexivity.
  - destruct (dedicated_nic net); [discriminate|].
    destruct (same_network net network); [discriminate|].
    destruct (net_untagged network && net_untagged net); [discriminate|].
    exact IH.
Qed.

Lemma assigned_networks_list_assign (node : t) (iface iface' : string)
    (nets : list Network) :
  assigned_networks_list (assign_networks node iface nets) iface'
  = if decide (iface = iface') then nets
    else assigned_networks_list node iface'.
Proof.
  unfold assigned_networks_list, assign_networks. simpl.
  rewrite lookup_insert. destruct (decide (iface = iface')); reflexivity.
Qed.

Lemma extends_refl (node : t) : extends node node.
Proof. unfold extends. repeat split; reflexivity. Qed.

Lemma extends_trans (a b c : t) : extends a b → extends b c → extends a c.
Proof.
  intros (Hn1 & Hi1 & Hb1 & Hl1) (Hn2 & Hi2 & Hb2 & Hl2).
  unfold extends. repeat split; try congruence.
  intros iface. etrans; [apply Hl1|apply Hl2].
Qed.

Lemma extends_interfaces (a b : t) :
  extends a b →
  get_interfaces_without_bonds_slaves b
  = get_interfaces_without_bonds_slaves a.
Proof.
  intros (_ & Hi & Hb & _).
  unfold get_interfaces_without_bonds_slaves, interfaces.
  rewrite Hi, Hb. reflexivity.
Qed.

(** Appending to the list of one interface. *)
Lemma extends_append (node : t) (iface : string) (network : Network) :
  extends node
          (assign_networks node iface
                           (assigned_networks_list node iface ++ [network])).
Proof.
  unfold extends. repeat split.
  intros iface'. rewrite assigned_networks_list_assign.
  destruct (decide (iface = iface')) as [<-|_]; [|reflexivity].
  apply prefix_app_r. reflexivity.
Qed.

(** Every run of the placement only appends. *)
Lemma assign_network_to_interface_extends (node node' : t)
    (network : option Network) :
  assign_network_to_interface node network = Ok node' → extends node node'.
Proof.
  unfold assign_network_to_interface. destruct network as [network|].
  - destruct (place node network (get_interfaces_without_bonds_slaves node)).
    + intros [= <-]. apply extends_append.
    + intros [= <-]. apply extends_refl.
    + destruct (get_interfaces_without_bonds_slaves node); [discriminate|].
      intros [= <-]. apply extends_append.
  - intros [= <-]. apply extends_refl.
Qed.

(** A network found already assigned is still found after further
    assignments. *)
Lemma place_Unchanged_extends (a b : t) (network : Network)
    (ifaces : list string) :
  extends a b →
  dedicated_nic network = false →
  place a network ifaces = Unchanged →
  place b network ifaces = Unchanged.
Proof.
  intros (_ & _ & _ & Hprefix) Hded.
  induction ifaces as [|iface ifaces IH]; simpl; [discriminate|].
  rewrite Hded. simpl.
  destruct (Hprefix iface) as [l' ->].
  destruct (scan_networks network (assigned_networks_list a iface)) eqn:Hscan.
  - rewrite (scan_networks_app_Break _ _ _ Hscan). exact IH.
  - rewrite (scan_networks_app_Return _ _ _ Hscan). reflexivity.
  - discriminate.
Qed.

(** Once an interface has accepted the network, the placement finds it. *)
Lemma place_Assigned_settles (node : t) (network : Network)
    (ifaces : list string) (iface : string) :
  dedicated_nic network = false →
  place node network ifaces = Assigned iface →
  place (assign_networks node iface
                         (assigned_networks_list node iface ++ [network]))
        network ifaces
  = Unchanged.
Proof.
  intros Hded. induction ifaces as [|iface' ifaces IH]; simpl; [discriminate|].
  rewrite Hded. simpl. rewrite assigned_networks_list_assign.
  destruct (scan_networks network (assigned_networks_list node iface'))
    eqn:Hscan.
  - intros Hplace. destruct (decide (iface = iface')) as [->|_].
    + rewrite (scan_networks_app_Break _ _ _ Hscan). apply IH, Hplace.
    + rewrite Hscan. apply IH, Hplace.
  - discriminate.
  - intros [= ->]. destruct (decide (iface = iface)); [|congruence].
    rewrite (scan_networks_appended _ _ Hded Hscan). reflexivity.
Qed.

Lemma assign_settled (node : t) (network : Network) :
  settled node network →
  assign_network_to_interface node (Some network) = Ok node.
Proof.
  unfold settled, assign_network_to_interface. intros ->. reflexivity.
Qed.

(** A placement that does not fall back leaves the network settled. *)
Lemma assign_network_to_interface_settles (node node' : t)
    (network : Network) :
  dedicated_nic network = false →
  place node network (get_interfaces_without_bonds_slaves node) ≠ Fallback →
  assign_network_to_interface node (Some network) = Ok node' →
  settled node' network.
Proof.
  intros Hded Hclean. unfold assign_network_to_interface, settled.
  destruct (place node network (get_interfaces_without_bonds_slaves node))
    as [iface| |] eqn:Hplace; [| |congruence].
  - intros [= <-].
    change (get_interfaces_without_bonds_slaves (assign_networks node iface _))
      with (get_interfaces_without_bonds_slaves node).
    apply place_Assigned_settles; assumption.
  - intros [= <-]. exact Hplace.
Qed.

Lemma assign_networks_settles (networks : list Network) :
  ∀ node node1 : t,
  Forall (fun network => dedicated_nic network = false) networks →
  placed_without_fallback node networks →
  assign_networks_to_interfaces node networks = Ok node1 →
  extends node node1 ∧ Forall (settled node1) networks.
Proof.
  induction networks as [|network networks IH]; intros node node1 Hded.
  - intros _ [= <-]. split; [apply extends_refl|constructor].
  - apply Forall_cons in Hded as [Hded Hdeds].
    intros Hclean Hrun.
    cbn [placed_without_fallback] in Hclean. destruct Hclean as [Hclean Hrest].
    unfold assign_networks_to_interfaces in Hrun. cbn [for_fold] in Hrun.
    apply bind_inv_Ok in Hrun as (node' & Hstep & Hrun).
    rewrite Hstep in Hrest.
    destruct (IH node' node1 Hdeds Hrest Hrun) as [Hext Hsettled].
    pose proof (assign_network_to_interface_extends _ _ _ Hstep) as Hext'.
    split; [eapply extends_trans; eassumption|].
    constructor; [|exact Hsettled].
    unfold settled. rewrite (extends_interfaces _ _ Hext).
    eapply place_Unchanged_extends; [exact Hext|exact Hded|].
    eapply assign_network_to_interface_settles; eassumption.
Qed.

Lemma assign_networks_settled (networks : list Network) (node : t) :
  Forall (settled node) networks →
  assign_networks_to_interfaces node networks = Ok node.
Proof.
  induction 1 as [|network networks Hsettled _ IH]; [reflexivity|].
  unfold assign_networks_to_interfaces. cbn [for_fold].
  rewrite (assign_settled _ _ Hsettled). exact IH.
Qed.

(** Away from dedicated networks and from the fallback the default
    assignment is idempotent: when none of the networks is dedicated and the first run
    of the default assignment never falls back to the first interface, a
    second run on the node it leaves changes nothing: it returns the same
    node, with the same networks on every interface. *)
Theorem default_assignment_idempotent (node node1 : t)
    (networks : list Network) :
  Forall (fun network => dedicated_nic network = false) networks →
  placed_without_fallback node networks →
  assign_networks_to_interfaces node networks = Ok node1 →
  assign_networks_to_interfaces node1 networks = Ok node1.
Proof.
  intros Hded Hclean Hrun. apply assign_networks_settled.
  eapply assign_networks_settles; eassumption.
Qed.

End Placement.

Section PlacementExamples.
Import Node Examples.

Example interfaces_sorted :
  get_interfaces_without_bonds_slaves node_two_nics = ["eth0"; "eth1"].
Proof. vm_compute. reflexivity. Qed.

(** C4.  The default assignment run twice does not leave the mapping of
    the first run: a dedicated network goes to the free interface [eth0];
    the second run skips [eth0], which is no longer free, before looking
    whether it already carries the network, and puts the network on
    [eth1] as well. *)
Lemma dedicated_network_assigned_twice :
  assign_networks_to_interfaces node_two_nics [net_dedicated]
  = Ok node_dedicated_once
  ∧ assign_networks_to_interfaces node_dedicated_once [net_dedicated]
    = Ok node_dedicated_twice
  ∧ assigned_networks_list node_dedicated_once "eth1" = []
  ∧ assigned_networks_list node_dedicated_twice "eth1" = [net_dedicated]
  ∧ assign_networks_to_interfaces node_dedicated_once [net_dedicated]
    ≠ Ok node_dedicated_once.
Proof.
  assert (assign_networks_to_interfaces node_dedicated_once [net_dedicated]
          = Ok node_dedicated_twice) as Htwice by (vm_compute; reflexivity).
  split; [vm_compute; reflexivity|]. split; [exact Htwice|].
  split; [vm_compute; reflexivity|]. split; [vm_compute; reflexivity|].
  rewrite Htwice. intros H.
  assert (assigned_networks_list node_dedicated_twice "eth1"
          = assigned_networks_list node_dedicated_once "eth1") as H'
    by congruence.
  vm_compute in H'. discriminate.
Qed.

(** A placement that falls back is repeated by the next run. *)
Example fallback_repeated :
  assign_networks_to_interfaces
    (assign_networks node_two_nics "eth0" [net_admin])
    [net_public; net_floating; net_floating]
  = Ok (assign_networks
          (assign_networks node_two_nics "eth0"
                           [net_admin; net_floating; net_floating])
          "eth1" [net_public]).
Proof. vm_compute. reflexivity. Qed.

Lemma default_assignment_idempotent_witness :
  Forall (fun network => dedicated_nic network = false)
         [net_admin; net_public; net_management]
  ∧ assign_networks_to_interfaces node_two_nics
                                  [net_admin; net_public; net_management]
    = Ok node_placed
  ∧ assign_networks_to_interfaces node_placed
                                  [net_admin; net_public; net_management]
    = Ok node_placed.
Proof.
  assert (Forall (fun network => dedicated_nic network = false)
                 [net_admin; net_public; net_management]) as Hded
    by (repeat constructor).
  assert (assign_networks_to_interfaces
            node_two_nics [net_admin; net_public; net_management]
          = Ok node_placed) as Hrun by (vm_compute; reflexivity).
  split; [exact Hded|]. split; [exact Hrun|].
  apply (default_assignment_idempotent node_two_nics node_placed
           [net_admin; net_public; net_management] Hded); [|exact Hrun].
  vm_compute. repeat split; intros; discriminate.
Defined.

End PlacementExamples.

(** * Further properties *)

(** ** The structure [NetAssignmentValidator.validate] accepts *)

Section AcceptedStructure.
Import NetAssignmentValidator Shapes.

Variable BOND_PROPERTIES : list string.
Variable BOND_MODES : list string.

Notation check_bond := (check_bond BOND_PROPERTIES BOND_MODES).
Notation check_iface := (check_iface BOND_PROPERTIES BOND_MODES).
Notation validate := (validate BOND_PROPERTIES BOND_MODES).

Lemma in_names_inv (x : json) (names : list string) :
  in_names x names = true → ∃ s, x = JStr s ∧ s ∈ names.
Proof.
  unfold in_names. intros H. apply existsb_exists in H as (s & Hin & Heq).
  exists s. split; [apply json_eqb_JStr, Heq|].
  apply list_elem_of_In, Hin.
Qed.

Lemma has_key_is_Some (k : string) (d : dict) :
  has_key k d = true → is_Some (dict_lookup k d).
Proof. unfold has_key. destruct (dict_lookup k d); [eauto|discriminate]. Qed.

Lemma for_each_Ok {A : Type} (body : A → result unit) (xs : list A) (u : unit) :
  for_each body xs = Ok u → Forall (fun x => body x = Ok tt) xs.
Proof.
  induction xs as [|x xs IH]; simpl; [constructor|].
  intros H. apply bind_inv_Ok in H as ([] & Hx & Hxs). constructor; auto.
Qed.

Lemma for_fold_Ok_Forall {A S : Type} (P : A → Prop)
    (body : S → A → result S) (xs : list A) :
  (∀ s s' x, body s x = Ok s' → P x) →
  ∀ s s', for_fold body s xs = Ok s' → Forall P xs.
Proof.
  intros Hbody. induction xs as [|x xs IH]; intros s s'; simpl;
    [constructor|].
  intros H. apply bind_inv_Ok in H as (s1 & Hx & Hxs). constructor; eauto.
Qed.

Lemma check_net_shape (node_id : json) (iface : dict) (ids ids' : gset key)
    (net : json) :
  check_net node_id iface ids net = Ok ids' → net_shape net.
Proof.
  unfold check_net, net_shape. destruct net as [| | | | |n]; try discriminate.
  intros H. apply bind_inv_Ok in H as (? & Hid & _).
  apply raise_if_inv_Ok, negb_false_iff, has_key_is_Some in Hid. eauto.
Qed.

Lemma check_bond_shape (node_id : json) (i : dict) (u : unit) :
  check_bond node_id i = Ok u → bond_shape BOND_PROPERTIES BOND_MODES i.
Proof.
  unfold NetAssignmentValidator.check_bond, bond_shape. intros H.
  apply bind_inv_Ok in H as (? & Hname & H).
  apply raise_if_inv_Ok, negb_false_iff, has_key_is_Some in Hname.
  apply bind_inv_Ok in H as (slaves & Hslaves & H).
  apply bind_inv_Ok in H as (? & _ & H).
  apply bind_inv_Ok in H as (? & Hprops & H).
  apply bind_inv_Ok in H as (mode & Hmode & H).
  apply bind_inv_Ok in H as (? & _ & Hknown).
  apply raise_if_inv_Ok, negb_false_iff, in_names_inv in Hknown
    as (s & -> & Hs).
  split; [exact Hname|]. split; [|split].
  - destruct (dict_lookup "slaves" i) as [[| | | |l|]|]; try discriminate.
    destruct (length l <? 2)%nat eqn:Hlen; [discriminate|].
    injection Hslaves as <-. exists l. split; [reflexivity|].
    apply Nat.ltb_ge, Hlen.
  - eauto.
  - intros props Hp. rewrite Hp in Hprops.
    destruct props as [| | | | |p]; try discriminate.
    exists p. split; [reflexivity|].
    apply for_each_Ok in Hprops. eapply Forall_impl; [exact Hprops|].
    intros k Hk. cbv beta in Hk.
    apply raise_if_inv_Ok, negb_false_iff, existsb_exists in Hk
      as (k' & Hin & Heq).
    apply String.eqb_eq in Heq as ->. apply list_elem_of_In, Hin.
Qed.

Lemma check_iface_shape (node_id : json) (ids ids' : gset key)
    (iface : json) :
  check_iface node_id ids iface = Ok ids' →
  iface_shape BOND_PROPERTIES BOND_MODES iface.
Proof.
  unfold NetAssignmentValidator.check_iface, iface_shape.
  destruct iface as [| | | | |i]; try discriminate.
  intros H. exists i. split; [reflexivity|].
  apply bind_inv_Ok in H as (? & Htype & H).
  apply raise_if_inv_Ok, negb_false_iff in Htype.
  apply bind_inv_Ok in H as (? & Hknown & H).
  apply raise_if_inv_Ok, negb_false_iff in Hknown.
  apply bind_inv_Ok in H as (? & Hid & H).
  apply raise_if_inv_Ok in Hid.
  apply bind_inv_Ok in H as (? & Hbond & H).
  unfold has_key, get, get_or in *.
  destruct (dict_lookup "type" i) as [type|]; [|discriminate].
  split.
  - apply in_names_inv in Hknown as (s & -> & Hs).
    apply elem_of_cons in Hs as [->|Hs].
    + left. split; [reflexivity|].
      simpl in Hid. destruct (dict_lookup "id" i); [eauto|discriminate].
    + apply list_elem_of_singleton in Hs as ->. right.
      split; [reflexivity|]. simpl in Hbond.
      eapply check_bond_shape, Hbond.
  - destruct (dict_lookup "assigned_networks" i) as [[| | | |nets|]|]
      eqn:Hnets; try discriminate.
    exists nets. split; [reflexivity|].
    eapply for_fold_Ok_Forall; [|exact H].
    intros s s' net. apply check_net_shape.
Qed.

(** X1.  A request [validate] accepts is returned as it is; it is a dict
    with an [id] and a list of interfaces, every one of which is a dict of
    type [ether] with an [id] or a bond with a name, at least two slaves, a
    known mode and only known bond properties, and carries a list of
    assigned networks that are dicts with an [id]. *)
Theorem validate_accepts_shaped (node node' : json) :
  validate node = Ok node' →
  node' = node
  ∧ ∃ n interfaces,
      node = JDict n
      ∧ is_Some (dict_lookup "id" n)
      ∧ dict_lookup "interfaces" n = Some (JList interfaces)
      ∧ Forall (iface_shape BOND_PROPERTIES BOND_MODES) interfaces.
Proof.
  unfold NetAssignmentValidator.validate.
  destruct node as [| | | | |n]; try discriminate.
  intros H. apply bind_inv_Ok in H as (? & Hid & H).
  apply raise_if_inv_Ok, negb_false_iff, has_key_is_Some in Hid.
  destruct (dict_lookup "interfaces" n) as [[| | | |interfaces|]|]
    eqn:Hifaces; try discriminate.
  apply bind_inv_Ok in H as (ids & Hloop & H). injection H as <-.
  split; [reflexivity|]. exists n, interfaces.
  split; [reflexivity|]. split; [exact Hid|]. split; [exact Hifaces|].
  eapply for_fold_Ok_Forall; [|exact Hloop].
  intros s s' iface. apply check_iface_shape.
Qed.

(** A bond without two slaves. *)
Lemma check_iface_few_slaves (node_id : json) (ids : gset key) (i : dict) :
  dict_lookup "type" i = Some (JStr consts.NETWORK_INTERFACE_TYPES.bond) →
  is_Some (dict_lookup "name" i) →
  (∀ slaves, dict_lookup "slaves" i = Some (JList slaves) →
             (length slaves < 2)%nat) →
  check_iface node_id ids (JDict i)
  = Raise (InvalidData
             (TFormat "Node '{0}': each bond interface must have two or more slaves"
                      [TVal node_id])).
Proof.
  intros Htype [name Hname] Hslaves.
  unfold NetAssignmentValidator.check_iface, has_key, get, get_or.
  rewrite Htype. simpl.
  unfold NetAssignmentValidator.check_bond, has_key. rewrite Hname. simpl.
  destruct (dict_lookup "slaves" i) as [[| | | |l|]|]; try reflexivity.
  specialize (Hslaves l eq_refl). apply Nat.ltb_lt in Hslaves.
  rewrite Hslaves. reflexivity.
Qed.

(** X2.  When the loop of [validate] reaches a named bond whose [slaves]
    are missing, are no list or are fewer than two, the request is refused
    with [InvalidData], whatever else the bond and the interfaces after it
    hold. *)
Theorem validate_bond_needs_two_slaves (n i : dict)
    (pre post : list json) (ids : gset key) :
  is_Some (dict_lookup "id" n) →
  dict_lookup "interfaces" n = Some (JList (pre ++ JDict i :: post)) →
  for_fold (check_iface (get "id" n)) ∅ pre = Ok ids →
  dict_lookup "type" i = Some (JStr consts.NETWORK_INTERFACE_TYPES.bond) →
  is_Some (dict_lookup "name" i) →
  (∀ slaves, dict_lookup "slaves" i = Some (JList slaves) →
             (length slaves < 2)%nat) →
  validate (JDict n)
  = Raise (InvalidData
             (TFormat "Node '{0}': each bond interface must have two or more slaves"
                      [TVal (get "id" n)])).
Proof.
  intros [id Hid] Hifaces Hpre Htype Hname Hslaves.
  unfold NetAssignmentValidator.validate, has_key. rewrite Hid. simpl.
  rewrite Hifaces.
  rewrite (for_fold_raises _ _ _ _ _ _ _ Hpre
             (check_iface_few_slaves _ ids i Htype Hname Hslaves)).
  reflexivity.
Qed.

(** X3.  The mode of a bond is the [mode] of its [bond_properties] when
    these are a dict that has one, and otherwise the [mode] of the bond
    itself, [None] when it has none. *)
Theorem get_bond_mode_precedence (iface : dict) :
  (∀ props mode,
     dict_lookup "bond_properties" iface = Some (JDict props) →
     dict_lookup "mode" props = Some mode →
     get_bond_mode iface = Ok mode)
  ∧ (∀ props,
       dict_lookup "bond_properties" iface = Some (JDict props) →
       dict_lookup "mode" props = None →
       get_bond_mode iface = Ok (get "mode" iface))
  ∧ (dict_lookup "bond_properties" iface = None →
     get_bond_mode iface = Ok (get "mode" iface)).
Proof.
  split; [|split].
  - intros props mode Hprops Hmode.
    unfold get_bond_mode, get_or. rewrite Hprops.
    unfold py_in, has_key at 2. rewrite Hmode. simpl.
    unfold getitem. rewrite Hprops. simpl. rewrite Hmode. reflexivity.
  - intros props Hprops Hmode.
    unfold get_bond_mode, get_or. rewrite Hprops.
    unfold py_in, has_key at 2. rewrite Hmode. simpl.
    unfold has_key, get, get_or.
    destruct (dict_lookup "mode" iface); reflexivity.
  - intros Hprops.
    unfold get_bond_mode, get_or. rewrite Hprops. simpl.
    unfold has_key, get, get_or.
    destruct (dict_lookup "mode" iface); reflexivity.
Qed.

End AcceptedStructure.

Section AcceptedStructureExamples.
Import NetAssignmentValidator Shapes Examples.

Lemma validate_accepts_shaped_witness :
  validate BOND_PROPERTIES BOND_MODES request_initial = Ok request_initial
  ∧ ∃ n interfaces,
      request_initial = JDict n
      ∧ is_Some (dict_lookup "id" n)
      ∧ dict_lookup "interfaces" n = Some (JList interfaces)
      ∧ Forall (iface_shape BOND_PROPERTIES BOND_MODES) interfaces.
Proof.
  assert (validate BOND_PROPERTIES BOND_MODES request_initial
          = Ok request_initial) as Hok by (vm_compute; reflexivity).
  split; [exact Hok|].
  apply (validate_accepts_shaped BOND_PROPERTIES BOND_MODES
           request_initial request_initial Hok).
Defined.

Lemma validate_bond_needs_two_slaves_witness :
  dict_lookup "type" (bond_fields "bond0" "active-backup" ["eth0"] [])
  = Some (JStr consts.NETWORK_INTERFACE_TYPES.bond)
  ∧ validate BOND_PROPERTIES BOND_MODES
      (node_request [ether 3 "eth2" [];
                     bond "bond0" "active-backup" ["eth0"] []])
    = Raise (InvalidData
               (TFormat "Node '{0}': each bond interface must have two or more slaves"
                        [TVal (JNum 1)])).
Proof.
  split; [reflexivity|].
  apply (validate_bond_needs_two_slaves BOND_PROPERTIES BOND_MODES
           [("id", JNum 1);
            ("interfaces",
             JList [ether 3 "eth2" [];
                    bond "bond0" "active-backup" ["eth0"] []])]
           (bond_fields "bond0" "active-backup" ["eth0"] [])
           [ether 3 "eth2" []] [] ∅).
  - eexists; reflexivity.
  - reflexivity.
  - vm_compute; reflexivity.
  - reflexivity.
  - eexists; reflexivity.
  - intros slaves [= <-]. simpl. lia.
Defined.

Lemma get_bond_mode_precedence_witness :
  get_bond_mode [("mode", JStr "active-backup");
                 ("bond_properties", JDict [("mode", JStr "802.3ad")])]
  = Ok (JStr "802.3ad").
Proof.
  apply (proj1 (get_bond_mode_precedence
                  [("mode", JStr "active-backup");
                   ("bond_properties", JDict [("mode", JStr "802.3ad")])])
           [("mode", JStr "802.3ad")] (JStr "802.3ad")); reflexivity.
Defined.

End AcceptedStructureExamples.

(** ** The request against the node: gates and bonds *)

Section DataGates.
Import node_models NetAssignmentData DataNotions.

Variable prohibited_admin_bond_modes : list string.
Variable NIC_dpdk_available : option Interface → json → bool.
Variable Bond_dpdk_available : Interface → json → bool.
Variable default_admin_network_id : Z.

Notation verify_iface := (verify_iface prohibited_admin_bond_modes).
Notation verify_data_correctness :=
  (verify_data_correctness prohibited_admin_bond_modes NIC_dpdk_available
                           Bond_dpdk_available default_admin_network_id).

(** X4.  The interfaces of a node cannot be changed unless its status is
    [discover] or [error]: for a node in any other status
    [verify_data_correctness] fails with [InvalidData] whatever the
    request holds besides the node's id; so it does for an id that is not
    in the database. *)
Theorem verify_data_correctness_locked (db_nodes : list DbNode)
    (node : dict) (node_id : json) :
  dict_lookup "id" node = Some node_id →
  (query_node db_nodes node_id = None →
   verify_data_correctness db_nodes node
   = Raise (InvalidData
              (TFormat "There is no node with ID '{0}' in DB" [TVal node_id])))
  ∧ (∀ db_node,
       query_node db_nodes node_id = Some db_node →
       status db_node ≠ consts.NODE_STATUSES.discover →
       status db_node ≠ consts.NODE_STATUSES.error →
       verify_data_correctness db_nodes node
       = Raise (InvalidData
                  (TFormat "Node '{0}': Interfaces configuration can't be changed after or during deployment."
                           [TVal (JNum (id db_node))]))).
Proof.
  intros Hid. unfold NetAssignmentData.verify_data_correctness, getitem.
  rewrite Hid. simpl. split.
  - intros ->. reflexivity.
  - intros db_node -> Hdiscover Herror.
    unfold is_interfaces_configuration_locked.
    apply String.eqb_neq in Hdiscover, Herror.
    rewrite Hdiscover, Herror. reflexivity.
Qed.

Lemma verify_data_correctness_loop_raises (db_nodes : list DbNode)
    (node : dict) (node_id : json) (db_node : DbNode)
    (by_name : list (json * dict)) (pre post : list json) (x : json)
    (bonded : gset Z) (e : error) :
  loop_reaches prohibited_admin_bond_modes db_nodes node node_id db_node
               by_name pre x post bonded →
  verify_iface node_id db_node (nic_interfaces db_node) by_name bonded x
  = Raise e →
  verify_data_correctness db_nodes node = Raise e.
Proof.
  intros (Hid & Hdb & Hlock & Hifaces & Hidx & Hpxe & Hpre) Hx.
  unfold NetAssignmentData.verify_data_correctness, getitem.
  rewrite Hid. simpl. rewrite Hdb, Hlock. simpl.
  rewrite Hifaces. simpl. rewrite Hidx. simpl. rewrite Hpxe. simpl.
  rewrite (for_fold_raises _ _ _ _ _ _ _ Hpre Hx). reflexivity.
Qed.

Lemma join_items_strings (names : list string) :
  join_items (map JStr names) = Ok (map (fun s => TVal (JStr s)) names).
Proof.
  unfold join_items. induction names as [|name names IH]; simpl;
    [reflexivity|].
  rewrite IH. reflexivity.
Qed.

Lemma join_items_other (items : list json) (x : json) :
  x ∈ items → (∀ s, x ≠ JStr s) →
  join_items items = Raise (PyError "TypeError").
Proof.
  unfold join_items. induction items as [|y items IH]; intros Hin Hx.
  - apply elem_of_nil in Hin. destruct Hin.
  - simpl. destruct y as [| | |s| |]; try reflexivity. simpl.
    apply elem_of_cons in Hin as [->|Hin]; [destruct (Hx s eq_refl)|].
    rewrite (IH Hin Hx). reflexivity.
Qed.

(** X5.  Networks can be assigned only on a node that is in a cluster:
    when the first loop reaches an interface with at least one assigned
    network and the node has no cluster, the request is refused.  It is
    refused with [InvalidData], the message listing the names of the
    networks, when every network entry has a string as its name; when
    some entry has another name, or none at all, joining the names fails
    with [TypeError] before the [InvalidData] is built. *)
Theorem verify_data_correctness_needs_cluster (db_nodes : list DbNode)
    (node : dict) (node_id : json) (db_node : DbNode)
    (by_name : list (json * dict)) (pre post : list json) (i : dict)
    (bonded : gset Z) (net : json) (nets : list json) :
  loop_reaches prohibited_admin_bond_modes db_nodes node node_id db_node
               by_name pre (JDict i) post bonded →
  cluster db_node = None →
  iface_nets_of i = Ok (net :: nets) →
  (∀ names,
     net :: nets = map JStr names →
     verify_data_correctness db_nodes node
     = Raise (InvalidData
                (TFormat "Node '{0}': networks {1} cannot be assigned as the node is not added to any cluster"
                         [TVal node_id;
                          TJoin ", " (map (fun s => TVal (JStr s)) names)])))
  ∧ (∀ x,
       x ∈ net :: nets → (∀ s, x ≠ JStr s) →
       verify_data_correctness db_nodes node = Raise (PyError "TypeError")).
Proof.
  intros Hreach Hcluster Hnets. split.
  - intros names Hnames.
    eapply verify_data_correctness_loop_raises; [exact Hreach|].
    unfold NetAssignmentData.verify_iface. simpl. rewrite Hnets. simpl.
    rewrite Hcluster. cbn [andb].
    replace (join_items (net :: nets))
      with (Ok (map (fun s => TVal (JStr s)) names) : result (list text))
      by (rewrite Hnames, join_items_strings; reflexivity).
    reflexivity.
  - intros x Hx Hstr.
    eapply verify_data_correctness_loop_raises; [exact Hreach|].
    unfold NetAssignmentData.verify_iface. simpl. rewrite Hnets. simpl.
    rewrite Hcluster. cbn [andb].
    rewrite (join_items_other _ _ Hx Hstr). reflexivity.
Qed.

(** One slave: it names a physical interface that is in no bond yet. *)
Lemma verify_slave_Ok (node_id : json) (db_interfaces : list Interface)
    (by_name : list (json * dict)) (pxe : json) (iface : dict)
    (p p' : bool) (b b' : gset Z) (slave : json) :
  verify_slave node_id db_interfaces by_name pxe iface (p, b) slave
  = Ok (p', b') →
  ∃ n, slave_id db_interfaces slave = Some n ∧ n ∉ b ∧ b' = {[n]} ∪ b.
Proof.
  unfold verify_slave, slave_id.
  destruct (item "name" slave) as [slave_name|]; simpl; [|discriminate].
  destruct (_get_iface_by_name slave_name db_interfaces) as [db_slave|];
    [|discriminate].
  intros H. apply bind_inv_Ok in H as (? & Hnew & H).
  apply raise_if_inv_Ok, bool_decide_eq_false in Hnew.
  apply bind_inv_Ok in H as (? & _ & H).
  apply bind_inv_Ok in H as (? & _ & H).
  apply bind_inv_Ok in H as (? & _ & H).
  injection H as _ <-. exists (iface_id db_slave). auto.
Qed.

(** X6.  When the loop over the slaves of a bond passes, every slave names
    a physical interface of the node, no two slaves name the same one,
    none of them was a slave of an earlier bond, and their ids are what
    the loop adds to the set of bonded interfaces. *)
Theorem verify_slaves_distinct (node_id : json)
    (db_interfaces : list Interface) (by_name : list (json * dict))
    (pxe : json) (iface : dict) (slaves : list json) :
  ∀ (p p' : bool) (b b' : gset Z),
  for_fold (verify_slave node_id db_interfaces by_name pxe iface)
           (p, b) slaves = Ok (p', b') →
  length (omap (slave_id db_interfaces) slaves) = length slaves
  ∧ NoDup (omap (slave_id db_interfaces) slaves)
  ∧ (∀ n, n ∈ omap (slave_id db_interfaces) slaves → n ∉ b)
  ∧ b' = list_to_set (omap (slave_id db_interfaces) slaves) ∪ b.
Proof.
  induction slaves as [|slave slaves IH]; intros p p' b b'; simpl.
  - intros [= <- <-]. split; [reflexivity|]. split; [constructor|].
    split; set_solver.
  - intros H. apply bind_inv_Ok in H as ([p1 b1] & H1 & H2).
    apply verify_slave_Ok in H1 as (n & Hn & Hnew & ->).
    apply IH in H2 as (Hlen & Hnd & Hdisj & ->). rewrite Hn. simpl.
    split; [f_equal; exact Hlen|]. split; [|split].
    + constructor; [|exact Hnd]. intros Hin. apply Hdisj in Hin. set_solver.
    + intros n' Hn'. apply elem_of_cons in Hn' as [->|Hn']; [exact Hnew|].
      apply Hdisj in Hn'. set_solver.
    + set_solver.
Qed.

(** X7.  A slave that names a physical interface already used in a bond
    is refused with [InvalidData], the message naming the interface. *)
Theorem verify_slave_used_twice (node_id : json)
    (db_interfaces : list Interface) (by_name : list (json * dict))
    (pxe : json) (iface : dict) (p : bool) (b : gset Z) (slave : json)
    (n : Z) :
  slave_id db_interfaces slave = Some n →
  n ∈ b →
  verify_slave node_id db_interfaces by_name pxe iface (p, b) slave
  = Raise (InvalidData
             (TFormat "Node '{0}': interface '{1}' is used in bonds more than once"
                      [TVal node_id; TVal (JNum n)])).
Proof.
  unfold verify_slave, slave_id.
  destruct (item "name" slave) as [slave_name|]; simpl; [|discriminate].
  destruct (_get_iface_by_name slave_name db_interfaces) as [db_slave|];
    [|discriminate].
  simpl. intros [= <-] Hin.
  rewrite (bool_decide_eq_true_2 _ Hin). reflexivity.
Qed.

(** X8.  When the second loop passes, no physical interface of the request
    whose id is among the bonded ones carries a network. *)
Theorem verify_not_bonded_Ok (node_id : json) (bonded : gset Z)
    (interfaces : list json) (u : unit) :
  for_each (verify_not_bonded node_id bonded) interfaces = Ok u →
  ∀ i n,
    JDict i ∈ interfaces →
    dict_lookup "type" i = Some (JStr consts.NETWORK_INTERFACE_TYPES.ether) →
    dict_lookup "id" i = Some (JNum n) →
    n ∈ bonded →
    dict_lookup "assigned_networks" i = Some (JList []).
Proof.
  intros Hloop i n Hin Htype Hid Hbonded.
  apply for_each_Ok in Hloop.
  rewrite Forall_forall in Hloop. specialize (Hloop _ Hin).
  unfold verify_not_bonded in Hloop. simpl in Hloop.
  unfold getitem in Hloop. rewrite Htype in Hloop. simpl in Hloop.
  rewrite Hid in Hloop. simpl in Hloop.
  rewrite (bool_decide_eq_true_2 _ Hbonded) in Hloop.
  destruct (dict_lookup "assigned_networks" i) as [[| | | |nets|]|];
    try discriminate.
  simpl in Hloop. destruct nets; [reflexivity|discriminate].
Qed.

End DataGates.

Section DataGatesExamples.
Import node_models NetAssignmentData DataNotions Examples MoreExamples.

Lemma verify_data_correctness_locked_witness :
  verify_data_correctness prohibited_admin_bond_modes no_dpdk_nic no_dpdk_bond
                          1 [db_node_ready] (node_fields [])
  = Raise (InvalidData
             (TFormat "Node '{0}': Interfaces configuration can't be changed after or during deployment."
                      [TVal (JNum 1)])).
Proof.
  apply (proj2 (verify_data_correctness_locked
                  prohibited_admin_bond_modes no_dpdk_nic no_dpdk_bond 1
                  [db_node_ready] (node_fields []) (JNum 1) eq_refl)
               db_node_ready);
    [reflexivity | vm_compute; discriminate | vm_compute; discriminate].
Defined.

Lemma verify_data_correctness_needs_cluster_witness :
  verify_data_correctness prohibited_admin_bond_modes no_dpdk_nic no_dpdk_bond
                          1 [db_node_unclustered]
                          (node_fields
                             [ether 1 "eth0" [net_ref 1 "fuelweb_admin"];
                              ether 2 "eth1" [net_ref 4 "public"]])
  = Raise (InvalidData
             (TFormat "Node '{0}': networks {1} cannot be assigned as the node is not added to any cluster"
                      [TVal (JNum 1);
                       TJoin ", " [TVal (JStr "fuelweb_admin")]]))
  ∧ verify_data_correctness prohibited_admin_bond_modes no_dpdk_nic
                            no_dpdk_bond 1 [db_node_unclustered]
                            (node_fields
                               [ether 1 "eth0" [JDict [("id", JNum 1)]]])
    = Raise (PyError "TypeError").
Proof.
  split.
  - unshelve eapply (proj1 (verify_data_correctness_needs_cluster
             prohibited_admin_bond_modes no_dpdk_nic no_dpdk_bond 1
             [db_node_unclustered] _ (JNum 1) db_node_unclustered
             [(JStr "eth0", ether_fields 1 "eth0" [net_ref 1 "fuelweb_admin"]);
              (JStr "eth1", ether_fields 2 "eth1" [net_ref 4 "public"])]
             [] [ether 2 "eth1" [net_ref 4 "public"]]
             (ether_fields 1 "eth0" [net_ref 1 "fuelweb_admin"])
             ∅ (JStr "fuelweb_admin") [] _ _ _) ["fuelweb_admin"] _).
    + unfold loop_reaches. repeat split; vm_compute; reflexivity.
    + reflexivity.
    + vm_compute. reflexivity.
    + reflexivity.
  - unshelve eapply (proj2 (verify_data_correctness_needs_cluster
             prohibited_admin_bond_modes no_dpdk_nic no_dpdk_bond 1
             [db_node_unclustered] _ (JNum 1) db_node_unclustered
             [(JStr "eth0", ether_fields 1 "eth0" [JDict [("id", JNum 1)]])]
             [] [] (ether_fields 1 "eth0" [JDict [("id", JNum 1)]])
             ∅ JNull [] _ _ _) JNull _ _).
    + unfold loop_reaches. repeat split; vm_compute; reflexivity.
    + reflexivity.
    + vm_compute. reflexivity.
    + left.
    + discriminate.
Defined.

Lemma verify_slaves_distinct_witness :
  ∃ p' b',
    for_fold (verify_slave (JNum 1) (nic_interfaces db_node1) [] (JStr "eth0")
                           (bond_fields "bond0" "active-backup"
                                        ["eth1"; "eth2"] []))
             (false, ∅) [slave_ref "eth1"; slave_ref "eth2"] = Ok (p', b')
    ∧ NoDup (omap (slave_id (nic_interfaces db_node1))
                  [slave_ref "eth1"; slave_ref "eth2"])
    ∧ b' = list_to_set (omap (slave_id (nic_interfaces db_node1))
                             [slave_ref "eth1"; slave_ref "eth2"]) ∪ ∅.
Proof.
  assert (∃ p b,
            for_fold (verify_slave (JNum 1) (nic_interfaces db_node1) []
                                   (JStr "eth0")
                                   (bond_fields "bond0" "active-backup"
                                                ["eth1"; "eth2"] []))
                     (false, ∅) [slave_ref "eth1"; slave_ref "eth2"]
            = Ok (p, b)) as (p & b & Hloop)
    by (eexists _, _; vm_compute; reflexivity).
  exists p, b. split; [exact Hloop|].
  destruct (verify_slaves_distinct _ _ _ _ _ _ _ _ _ _ Hloop)
    as (_ & Hnd & _ & Hb).
  split; [exact Hnd | exact Hb].
Defined.

Lemma verify_slave_used_twice_witness :
  verify_slave (JNum 1) (nic_interfaces db_node1) [] (JStr "eth0")
               (bond_fields "bond1" "active-backup" ["eth1"; "eth2"] [])
               (false, {[2]}) (slave_ref "eth1")
  = Raise (InvalidData
             (TFormat "Node '{0}': interface '{1}' is used in bonds more than once"
                      [TVal (JNum 1); TVal (JNum 2)])).
Proof.
  apply verify_slave_used_twice;
    [reflexivity | apply elem_of_singleton; reflexivity].
Defined.

Lemma verify_not_bonded_Ok_witness :
  for_each (verify_not_bonded (JNum 1) {[2]})
           [ether 2 "eth1" []; ether 3 "eth2" [net_ref 4 "public"]] = Ok tt
  ∧ dict_lookup "assigned_networks" (ether_fields 2 "eth1" [])
    = Some (JList []).
Proof.
  assert (for_each (verify_not_bonded (JNum 1) {[2]})
                   [ether 2 "eth1" []; ether 3 "eth2" [net_ref 4 "public"]]
          = Ok tt) as Hloop by (vm_compute; reflexivity).
  split; [exact Hloop|].
  apply (verify_not_bonded_Ok _ _ _ _ Hloop (ether_fields 2 "eth1" []) 2);
    [constructor | reflexivity | reflexivity
    | apply elem_of_singleton; reflexivity].
Defined.

End DataGatesExamples.

(** ** SR-IOV, DPDK and the networks of the node group *)

Lemma getitem_inv_Ok (k : string) (d : dict) (v : json) :
  getitem k d = Ok v → dict_lookup k d = Some v.
Proof. unfold getitem. destruct (dict_lookup k d); congruence. Qed.

Lemma as_dict_inv_Ok (j : json) (d : dict) : as_dict j = Ok d → j = JDict d.
Proof. destruct j; simpl; congruence. Qed.

Lemma as_list_inv_Ok (j : json) (l : list json) :
  as_list j = Ok l → j = JList l.
Proof. destruct j; simpl; congruence. Qed.

Lemma raise_named_inv_Ok (c : bool) (iface : dict)
    (mk : json → error) (u : unit) :
  NetAssignmentData.raise_named c iface mk = Ok u → c = false.
Proof.
  destruct c; [|reflexivity]. unfold NetAssignmentData.raise_named.
  destruct (getitem "name" iface); discriminate.
Qed.

Section Properties.
Import node_models NetAssignmentData DataNotions.

Variable NIC_dpdk_available : option Interface → json → bool.
Variable Bond_dpdk_available : Interface → json → bool.
Variable default_admin_network_id : Z.

Notation dpdk_resolve := (dpdk_resolve NIC_dpdk_available Bond_dpdk_available).
Notation check_networks_are_acceptable_for_node_to_assign :=
  (check_networks_are_acceptable_for_node_to_assign default_admin_network_id).

(** X9.  What an accepted SR-IOV change looks like: the stored settings
    updated with the requested ones keep [sriov_totalvfs], [available] and
    [pci_id], ask for no more virtual functions than the total, and, when
    SR-IOV ends up enabled, the cluster runs KVM, the interface has SR-IOV
    available, a number of virtual functions is given and the interface
    carries no network. *)
Theorem verify_sriov_properties_accepted (iface : Interface) (data : dict)
    (db_node : DbNode) (u : unit) :
  _verify_sriov_properties iface data db_node = Ok u →
  ∃ sriov_db sriov_data enabled available numvfs totalvfs,
    dict_lookup "sriov" (iface_interface_properties iface)
    = Some (JDict sriov_db)
    ∧ (getitem "interface_properties" data ≫= item "sriov")
      = Ok (JDict sriov_data)
    ∧ dict_lookup "enabled" (dict_update sriov_db sriov_data) = Some enabled
    ∧ dict_lookup "available" sriov_db = Some available
    ∧ dict_lookup "sriov_numvfs" (dict_update sriov_db sriov_data)
      = Some numvfs
    ∧ dict_lookup "sriov_totalvfs" sriov_db = Some totalvfs
    ∧ py_lt totalvfs numvfs = false
    ∧ Forall (fun param_name =>
                ∃ old new,
                  dict_lookup param_name sriov_db = Some old
                  ∧ dict_lookup param_name (dict_update sriov_db sriov_data)
                    = Some new
                  ∧ json_eqb old new = true)
             ["sriov_totalvfs"; "available"; "pci_id"]
    ∧ (truthy enabled = true →
       (∃ c, cluster db_node = Some c
             ∧ json_eqb (libvirt_type c) (JStr consts.HYPERVISORS.kvm) = true)
       ∧ truthy available = true
       ∧ truthy numvfs = true
       ∧ truthy (get_or "assigned_networks"
                        (JList (map JNum (iface_assigned_networks iface)))
                        data) = false).
Proof.
  unfold _verify_sriov_properties. intros H.
  apply bind_inv_Ok in H as (sd & Hsd & H).
  apply bind_inv_Ok in H as (sriov_db & Hdb & H).
  apply bind_inv_Ok in Hdb as (sdb & Hdb & Hdb').
  apply getitem_inv_Ok in Hdb. apply as_dict_inv_Ok in Hdb' as ->.
  apply bind_inv_Ok in H as (sriov_data & Hdata & H).
  apply as_dict_inv_Ok in Hdata as ->. cbv zeta in H.
  apply bind_inv_Ok in H as (enabled & Hen & H).
  apply bind_inv_Ok in H as (? & Hkvm & H).
  apply bind_inv_Ok in H as (? & Himm & H).
  apply bind_inv_Ok in H as (available & Hav & H).
  apply bind_inv_Ok in H as (? & Hav' & H).
  apply bind_inv_Ok in H as (numvfs & Hnum & H).
  apply bind_inv_Ok in H as (? & Hnum' & H).
  apply bind_inv_Ok in H as (totalvfs & Htot & H).
  apply bind_inv_Ok in H as (? & Hlt & Hnets).
  apply raise_if_inv_Ok in Hav', Hnum', Hlt, Hnets.
  apply getitem_inv_Ok in Hen, Hav, Hnum, Htot.
  exists sriov_db, sriov_data, enabled, available, numvfs, totalvfs.
  repeat (split; [assumption|]). split.
  - apply for_each_Ok in Himm. eapply Forall_impl; [exact Himm|].
    intros param_name Hp. simpl in Hp.
    apply bind_inv_Ok in Hp as (old & Hold & Hp).
    apply bind_inv_Ok in Hp as (new & Hnew & Hp).
    apply raise_if_inv_Ok, negb_false_iff in Hp.
    apply getitem_inv_Ok in Hold, Hnew. eauto.
  - intros Henabled. rewrite Henabled in *.
    rewrite andb_true_r in Hav', Hnum'. apply negb_false_iff in Hav', Hnum'.
    simpl in Hnets. repeat split; try assumption.
    apply bind_inv_Ok in Hkvm as (c & Hc & Hkvm).
    apply raise_if_inv_Ok, negb_false_iff in Hkvm.
    exists c. split; [|exact Hkvm].
    unfold attr in Hc. destruct (cluster db_node); congruence.
Qed.

(** X10.  DPDK on an interface the node already has: when the checks that
    come before the MTU one pass, the merged properties keep the stored
    PCI id; and if DPDK is enabled in them, the hardware supports it and,
    unless the interface is a slave of a bond, the interface carries
    exactly one network, named [private]. *)
Theorem dpdk_resolve_known (iface : dict) (db_interfaces : list Interface)
    (dpdk_drivers : json) (is_slave : bool) (db_iface : Interface)
    (interface_properties : dict) (enabled : json) :
  _get_iface_by_id (get "id" iface) db_interfaces = Some db_iface →
  dpdk_resolve iface db_interfaces dpdk_drivers is_slave
  = Ok (interface_properties, enabled) →
  dict_merge (JDict (iface_interface_properties db_iface))
             (get_or "interface_properties" (JDict []) iface)
  = JDict interface_properties
  ∧ json_eqb (get "pci_id" interface_properties)
             (get "pci_id" (iface_interface_properties db_iface)) = true
  ∧ (truthy enabled = true →
     (∃ type,
        dict_lookup "type" iface = Some type
        ∧ (if json_eqb type (JStr consts.NETWORK_INTERFACE_TYPES.ether)
           then NIC_dpdk_available (Some db_iface) dpdk_drivers
           else Bond_dpdk_available db_iface dpdk_drivers) = true)
     ∧ (is_slave = false →
        ∃ net name,
          dict_lookup "assigned_networks" iface = Some (JList [net])
          ∧ item "name" net = Ok name
          ∧ json_eqb name (JStr consts.NETWORKS.private) = true)).
Proof.
  intros Hdb H. unfold NetAssignmentData.dpdk_resolve in H.
  rewrite Hdb in H. simpl in H.
  apply bind_inv_Ok in H as ([[hw props] en] & Hres & H).
  apply bind_inv_Ok in Hres as (type & Htype & Hres).
  apply bind_inv_Ok in Hres as (hw' & Hhw & Hres).
  apply bind_inv_Ok in Hres as (props' & Hprops & Hres).
  apply bind_inv_Ok in Hres as (dpdk & Hdpdk & Hres).
  injection Hres as -> -> <-.
  apply bind_inv_Ok in H as (? & Havail & H).
  apply bind_inv_Ok in H as (? & Hpci & H).
  apply bind_inv_Ok in H as (nets & Hnets & H).
  apply bind_inv_Ok in H as (only_private & Honly & H).
  apply bind_inv_Ok in H as (? & Hraise & H).
  injection H as <- <-.
  apply raise_named_inv_Ok in Havail, Hpci, Hraise.
  apply negb_false_iff in Hpci, Hraise. subst only_private.
  apply as_dict_inv_Ok in Hprops. apply getitem_inv_Ok in Htype, Hnets.
  split; [exact Hprops|]. split; [exact Hpci|].
  intros Henabled. rewrite Henabled in *.
  rewrite andb_true_r in Havail. apply negb_false_iff in Havail. subst hw.
  split.
  - exists type. split; [exact Htype|].
    destruct (json_eqb type (JStr consts.NETWORK_INTERFACE_TYPES.ether));
      [congruence|].
    destruct (json_eqb type (JStr consts.NETWORK_INTERFACE_TYPES.bond));
      [congruence|discriminate].
  - intros ->. simpl in Honly.
    apply bind_inv_Ok in Honly as (l & Hl & Honly).
    apply as_list_inv_Ok in Hl as ->.
    destruct l as [|net [|]]; try discriminate.
    apply bind_inv_Ok in Honly as (name & Hname & Honly).
    exists net, name. split; [exact Hnets|]. split; [exact Hname|].
    congruence.
Qed.

Lemma all_available_Ok (db_interfaces : list Interface) (dpdk_drivers : json)
    (slaves : list json) :
  ∀ hw,
  for_fold (fun hw slave =>
              name ← item "name" slave;
              Ok (hw && NIC_dpdk_available
                          (_get_iface_by_name name db_interfaces)
                          dpdk_drivers))
           hw slaves = Ok true →
  hw = true
  ∧ Forall (fun slave =>
              ∃ name,
                item "name" slave = Ok name
                ∧ NIC_dpdk_available (_get_iface_by_name name db_interfaces)
                                     dpdk_drivers = true)
           slaves.
Proof.
  induction slaves as [|slave slaves IH]; intros hw; simpl.
  - intros [= ->]. split; [reflexivity | constructor].
  - intros H. apply bind_inv_Ok in H as (hw' & Hx & H).
    apply IH in H as (-> & Hall).
    apply bind_inv_Ok in Hx as (name & Hname & Hx). injection Hx as Hx.
    apply andb_true_iff in Hx as (-> & Hx).
    split; [reflexivity|]. constructor; [eauto | exact Hall].
Qed.

(** X11.  DPDK on a bond the request creates (no stored interface has its
    id or its name): the checks pass only if DPDK is enabled exactly when
    the bond type is [dpdkovs]; and then the bond has at least one slave
    and every slave is a network card that supports DPDK. *)
Theorem dpdk_resolve_new_bond (iface : dict) (db_interfaces : list Interface)
    (dpdk_drivers : json) (is_slave : bool) (name : json)
    (interface_properties : dict) (enabled : json) :
  _get_iface_by_id (get "id" iface) db_interfaces = None →
  dict_lookup "name" iface = Some name →
  _get_iface_by_name name db_interfaces = None →
  dpdk_resolve iface db_interfaces dpdk_drivers is_slave
  = Ok (interface_properties, enabled) →
  ∃ bond_properties,
    get_or "bond_properties" (JDict []) iface = JDict bond_properties
    ∧ truthy enabled
      = json_eqb (get "type__" bond_properties)
                 (JStr consts.BOND_TYPES.dpdkovs)
    ∧ (truthy enabled = true →
       ∃ slave slaves,
         dict_lookup "slaves" iface = Some (JList (slave :: slaves))
         ∧ Forall (fun slave =>
                     ∃ name,
                       item "name" slave = Ok name
                       ∧ NIC_dpdk_available
                           (_get_iface_by_name name db_interfaces)
                           dpdk_drivers = true)
                  (slave :: slaves)).
Proof.
  intros Hid Hname Hdb H. unfold NetAssignmentData.dpdk_resolve in H.
  assert (getitem "name" iface = Ok name) as Hget
    by (unfold getitem; rewrite Hname; reflexivity).
  rewrite Hid, Hget in H. simpl in H. rewrite Hdb in H.
  apply bind_inv_Ok in H as ([[hw props] en] & Hres & H).
  apply bind_inv_Ok in Hres as (slaves & Hslaves & Hres).
  apply bind_inv_Ok in Hslaves as (sl & Hsl & Hslaves).
  apply getitem_inv_Ok in Hsl. apply as_list_inv_Ok in Hslaves as ->.
  apply bind_inv_Ok in Hres as (hw' & Hhw & Hres).
  apply bind_inv_Ok in Hres as (props' & Hprops & Hres).
  apply bind_inv_Ok in Hres as (dpdk & Hdpdk & Hres).
  apply bind_inv_Ok in Hres as (bond_properties & Hbond & Hres).
  cbv zeta in Hres.
  apply bind_inv_Ok in Hres as (? & Hshould & Hres).
  apply bind_inv_Ok in Hres as (? & Honly & Hres).
  injection Hres as -> -> <-.
  apply raise_named_inv_Ok in Hshould, Honly.
  apply bind_inv_Ok in H as (? & Havail & H).
  apply bind_inv_Ok in H as (? & _ & H).
  apply bind_inv_Ok in H as (nets & _ & H).
  apply bind_inv_Ok in H as (only_private & _ & H).
  apply bind_inv_Ok in H as (? & _ & H).
  injection H as <- <-.
  apply raise_named_inv_Ok in Havail.
  apply as_dict_inv_Ok in Hbond.
  exists bond_properties. split; [exact Hbond|].
  set (enabled := get_or "enabled" (JBool false) dpdk) in *.
  split.
  - destruct (truthy enabled),
      (json_eqb (get "type__" bond_properties)
                (JStr consts.BOND_TYPES.dpdkovs));
      simpl in *; congruence.
  - intros Henabled. rewrite Henabled in Havail.
    rewrite andb_true_r in Havail. apply negb_false_iff in Havail. subst hw.
    apply all_available_Ok in Hhw as (Hne & Hall).
    destruct slaves as [|slave slaves]; [discriminate|]. eauto.
Qed.

(** X12.  The networks of a request fit the node group of the node exactly
    in these cases: the request assigns no network at all, or every
    network id it assigns is one the node may use and every network id the
    node must use is assigned. *)
Theorem acceptable_networks (interfaces : list json) (node_db : DbNode)
    (g : NodeNodeGroup) :
  nodegroup node_db = Some g →
  check_networks_are_acceptable_for_node_to_assign interfaces node_db = Ok tt
  ↔ ∃ net_ids,
      collect_net_ids interfaces = Ok net_ids
      ∧ (net_ids = ∅
         ∨ (net_ids ⊆ allowed_net_ids default_admin_network_id g
            ∧ required_net_ids default_admin_network_id node_db g
              ⊆ net_ids)).
Proof.
  intros Hg.
  unfold NetAssignmentData.check_networks_are_acceptable_for_node_to_assign.
  rewrite Hg. simpl. cbv zeta.
  change (for_fold _ ∅ interfaces) with (collect_net_ids interfaces).
  fold (allowed_net_ids default_admin_network_id g).
  destruct (collect_net_ids interfaces) as [net_ids|e]; simpl.
  2: { split; [discriminate | intros (? & [=] & _)]. }
  fold (required_net_ids default_admin_network_id node_db g).
  split.
  - intros H. exists net_ids. split; [reflexivity|].
    destruct (decide (net_ids = ∅)) as [He|He]; [left; exact He|right].
    rewrite (bool_decide_eq_false_2 _ He) in H.
    destruct (decide (net_ids ⊆ allowed_net_ids default_admin_network_id g))
      as [Hsub|Hsub].
    + split; [exact Hsub|].
      rewrite (bool_decide_eq_true_2 _ Hsub) in H. simpl in H.
      apply raise_if_inv_Ok, negb_false_iff, bool_decide_eq_true in H.
      set_solver.
    + rewrite (bool_decide_eq_false_2 _ Hsub) in H. discriminate.
  - intros (ids & [= <-] & [He|(Hsub & Hreq)]).
    + rewrite (bool_decide_eq_true_2 _ He). reflexivity.
    + destruct (bool_decide (net_ids = ∅)); [reflexivity|].
      rewrite (bool_decide_eq_true_2 _ Hsub). simpl.
      rewrite bool_decide_eq_true_2; [reflexivity|]. set_solver.
Qed.

End Properties.

Section PropertiesExamples.
Import node_models NetAssignmentData DataNotions Examples MoreExamples.

Lemma verify_sriov_properties_accepted_witness :
  _verify_sriov_properties sriov_nic sriov_change db_node1 = Ok tt
  ∧ ∃ sriov_db sriov_data enabled available numvfs totalvfs,
      dict_lookup "sriov" (iface_interface_properties sriov_nic)
      = Some (JDict sriov_db)
      ∧ (getitem "interface_properties" sriov_change ≫= item "sriov")
        = Ok (JDict sriov_data)
      ∧ dict_lookup "enabled" (dict_update sriov_db sriov_data) = Some enabled
      ∧ dict_lookup "available" sriov_db = Some available
      ∧ dict_lookup "sriov_numvfs" (dict_update sriov_db sriov_data)
        = Some numvfs
      ∧ dict_lookup "sriov_totalvfs" sriov_db = Some totalvfs
      ∧ py_lt totalvfs numvfs = false.
Proof.
  assert (_verify_sriov_properties sriov_nic sriov_change db_node1 = Ok tt)
    as Hok by (vm_compute; reflexivity).
  split; [exact Hok|].
  destruct (verify_sriov_properties_accepted _ _ _ _ Hok)
    as (sriov_db & sriov_data & enabled & available & numvfs & totalvfs
        & H1 & H2 & H3 & H4 & H5 & H6 & H7 & _).
  exists sriov_db, sriov_data, enabled, available, numvfs, totalvfs.
  repeat (split; [assumption|]). assumption.
Defined.

Lemma dpdk_resolve_known_witness :
  dpdk_resolve dpdk_nic no_dpdk_bond (dpdk_iface (JNum 1500))
               [nic 2 "eth1" false] (JDict []) false
  = Ok ([("dpdk", JDict [("enabled", JBool true)]); ("mtu", JNum 1500)],
        JBool true)
  ∧ ∃ net name,
      dict_lookup "assigned_networks" (dpdk_iface (JNum 1500))
      = Some (JList [net])
      ∧ item "name" net = Ok name
      ∧ json_eqb name (JStr consts.NETWORKS.private) = true.
Proof.
  assert (dpdk_resolve dpdk_nic no_dpdk_bond (dpdk_iface (JNum 1500))
                       [nic 2 "eth1" false] (JDict []) false
          = Ok ([("dpdk", JDict [("enabled", JBool true)]);
                 ("mtu", JNum 1500)], JBool true))
    as Hok by (vm_compute; reflexivity).
  split; [exact Hok|].
  refine (proj2 (proj2 (proj2 (dpdk_resolve_known
                   dpdk_nic no_dpdk_bond _ _ _ _ (nic 2 "eth1" false) _ _
                   _ Hok)) eq_refl) eq_refl).
  vm_compute. reflexivity.
Defined.

Lemma dpdk_resolve_new_bond_witness :
  dpdk_resolve dpdk_known_nic no_dpdk_bond dpdk_bond_fields
               (nic_interfaces db_node1) (JDict []) false
  = Ok ([("dpdk", JDict [("enabled", JBool true)])], JBool true)
  ∧ ∃ bond_properties,
      get_or "bond_properties" (JDict []) dpdk_bond_fields
      = JDict bond_properties
      ∧ truthy (JBool true)
        = json_eqb (get "type__" bond_properties)
                   (JStr consts.BOND_TYPES.dpdkovs).
Proof.
  assert (dpdk_resolve dpdk_known_nic no_dpdk_bond dpdk_bond_fields
                       (nic_interfaces db_node1) (JDict []) false
          = Ok ([("dpdk", JDict [("enabled", JBool true)])], JBool true))
    as Hok by (vm_compute; reflexivity).
  split; [exact Hok|].
  destruct (dpdk_resolve_new_bond dpdk_known_nic no_dpdk_bond
              dpdk_bond_fields (nic_interfaces db_node1) (JDict []) false
              (JStr "bond0") _ _ eq_refl eq_refl eq_refl Hok)
    as (bond_properties & Hbond & Henabled & _).
  exists bond_properties. split; [exact Hbond | exact Henabled].
Defined.

Lemma acceptable_networks_witness :
  ∃ net_ids,
    collect_net_ids [ether 1 "eth0" [net_ref 1 "fuelweb_admin"];
                     ether 2 "eth1" [net_ref 4 "public"]] = Ok net_ids
    ∧ (net_ids = ∅
       ∨ (net_ids ⊆ allowed_net_ids 1 {| group_name := "default";
                                         group_is_default := true;
                                         group_networks := [(4, "public")] |}
          ∧ required_net_ids 1 db_node1
              {| group_name := "default"; group_is_default := true;
                 group_networks := [(4, "public")] |} ⊆ net_ids)).
Proof.
  apply (acceptable_networks 1 _ db_node1 _ eq_refl).
  vm_compute. reflexivity.
Defined.

End PropertiesExamples.

(** ** Virtual IP addresses: creation and update *)

Lemma opt_id_eqb_eq (a : option Z) (b : Z) :
  opt_id_eqb a (Some b) = true → a = Some b.
Proof.
  destruct a as [x|]; simpl; [|discriminate].
  intros H. apply Z.eqb_eq in H. congruence.
Qed.

Section Vip.
Import IPAddrValidator VipNotions.

Variable loads : string → option json.
Variable schema_error : string → json → option text.

Notation parse := (parse loads).
Notation validate_create := (validate_create loads schema_error).
Notation validate_update := (validate_update loads).
Notation validate_collection_update := (validate_collection_update loads).

(** The names the loop of [_check_vip_name] collects come from the roles. *)
Lemma allowed_vip_names_from_roles (roles : list json) :
  ∀ (acc all : list json),
  for_fold (fun acc net_role =>
              r ← as_dict net_role;
              props ← as_dict (get_or "properties" (JDict []) r);
              vip_info ← as_list (get_or "vip" (JList []) props);
              names ← map_result (fun vip => dflt ← as_dict vip;
                                             getitem "name" dflt) vip_info;
              Ok (app acc names))
           acc roles = Ok all →
  ∀ x, x ∈ all →
       x ∈ acc
       ∨ ∃ net_role names,
           net_role ∈ roles
           ∧ vip_names_of_role net_role = Ok names
           ∧ x ∈ names.
Proof.
  induction roles as [|role roles IH]; intros acc all; simpl.
  - intros [= ->] x Hx. left. exact Hx.
  - intros H x Hx. apply bind_inv_Ok in H as (acc' & Hrole & H).
    destruct (IH _ _ H x Hx) as [Hacc|(net_role & names & Hin & Hn & Hxn)].
    + apply bind_inv_Ok in Hrole as (r & Hr & Hrole).
      apply bind_inv_Ok in Hrole as (props & Hprops & Hrole).
      apply bind_inv_Ok in Hrole as (vip_info & Hvip & Hrole).
      apply bind_inv_Ok in Hrole as (names & Hnames & Hrole).
      injection Hrole as <-.
      apply elem_of_app in Hacc as [Hacc|Hacc]; [left; exact Hacc|].
      right. exists role, names. split; [left|]. split; [|exact Hacc].
      unfold vip_names_of_role. rewrite Hr. simpl. rewrite Hprops. simpl.
      rewrite Hvip. simpl. exact Hnames.
    + right. exists net_role, names. split; [right; exact Hin|]. auto.
Qed.

(** X13.  A VIP name is accepted only if a network role of the cluster
    declares it: when [_check_vip_name] passes, the request has a
    [vip_name] and some role of the cluster lists a VIP of that name. *)
Theorem check_vip_name_accepted (data : dict) (cluster : Cluster)
    (u : unit) :
  _check_vip_name data cluster = Ok u →
  ∃ vip_name net_role names declared,
    dict_lookup "vip_name" data = Some vip_name
    ∧ net_role ∈ cluster_network_roles cluster
    ∧ vip_names_of_role net_role = Ok names
    ∧ declared ∈ names
    ∧ json_eqb vip_name declared = true.
Proof.
  unfold _check_vip_name. intros H.
  apply bind_inv_Ok in H as (allowed & Hallowed & H).
  apply bind_inv_Ok in H as (vip_name & Hname & H).
  apply raise_if_inv_Ok, negb_false_iff, existsb_exists in H
    as (declared & Hin & Heq).
  apply getitem_inv_Ok in Hname. apply list_elem_of_In in Hin.
  destruct (allowed_vip_names_from_roles _ _ _ Hallowed _ Hin)
    as [Hnil|(net_role & names & Hrole & Hnames & Hd)].
  - apply elem_of_nil in Hnil. destruct Hnil.
  - exists vip_name, net_role, names, declared. auto.
Qed.

(** X14.  What an accepted VIP creation guarantees: the request is a dict
    that passes the schema, its [is_user_defined] is not [false] (it may
    be absent), its name is accepted for the cluster, its network exists
    and belongs to a node group of this very cluster, no stored address
    equals its [ip_addr], and the parsed request is returned as it is. *)
Theorem validate_create_accepted (db : Database) (data : payload)
    (cluster : Cluster) (result : json) :
  validate_create db data cluster = Ok result →
  ∃ d network_id network_db nodegroup ip_addr,
    parse data = Ok result
    ∧ result = JDict d
    ∧ schema_error "VIP_CREATE_SCHEMA" result = None
    ∧ get "is_user_defined" d ≠ JBool false
    ∧ _check_vip_name d cluster = Ok tt
    ∧ dict_lookup "network" d = Some network_id
    ∧ NetworkGroupValidator.query_get db network_id = Some network_db
    ∧ ng_nodegroup db network_db = Some nodegroup
    ∧ nodegroup_cluster_id nodegroup = Some (cluster_id cluster)
    ∧ dict_lookup "ip_addr" d = Some ip_addr
    ∧ get_all_by_addr db ip_addr = [].
Proof.
  unfold IPAddrValidator.validate_create. intros H.
  apply bind_inv_Ok in H as (j & Hparse & H).
  apply bind_inv_Ok in H as (? & Hschema & H).
  apply bind_inv_Ok in H as (d & Hd & H).
  apply as_dict_inv_Ok in Hd as ->.
  apply bind_inv_Ok in H as (? & Hflag & H).
  apply bind_inv_Ok in H as ([] & Hname & H).
  apply bind_inv_Ok in H as (network_id & Hnet & H).
  apply getitem_inv_Ok in Hnet.
  destruct (NetworkGroupValidator.query_get db network_id)
    as [network_db|] eqn:Hquery; [|discriminate].
  destruct (ng_nodegroup db network_db) as [nodegroup|] eqn:Hgroup;
    [|discriminate].
  apply bind_inv_Ok in H as (? & Hcluster & H).
  apply raise_if_inv_Ok, negb_false_iff, opt_id_eqb_eq in Hcluster.
  apply bind_inv_Ok in H as (ip_addr & Haddr & H).
  apply getitem_inv_Ok in Haddr.
  destruct (get_all_by_addr db ip_addr) eqn:Hrows; [|discriminate].
  injection H as <-.
  exists d, network_id, network_db, nodegroup, ip_addr.
  split; [exact Hparse|]. split; [reflexivity|]. split.
  { unfold BasicValidator.validate_schema in Hschema.
    destruct (schema_error "VIP_CREATE_SCHEMA" (JDict d));
      [discriminate|reflexivity]. }
  split.
  { apply raise_if_inv_Ok in Hflag. intros Heq. rewrite Heq in Hflag.
    discriminate. }
  auto 10.
Qed.

Lemma bad_fields_of_elem (data existing_data : dict) (k : string) (v : json) :
  (k, v) ∈ data →
  protected k = true →
  json_eqb v (get k existing_data) = false →
  k ∈ bad_fields_of data existing_data.
Proof.
  intros Hin Hprot Hne. unfold bad_fields_of.
  apply (list_elem_of_fmap_2 fst _ (k, v)).
  apply list_elem_of_In, filter_In. split; [apply list_elem_of_In, Hin|].
  simpl. rewrite Hne. exact Hprot.
Qed.

Lemma bad_fields_of_nil (data existing_data : dict) :
  Forall (fun kv => protected (fst kv) = true →
                    json_eqb (snd kv) (get (fst kv) existing_data) = true)
         data →
  bad_fields_of data existing_data = [].
Proof.
  intros Hall. unfold bad_fields_of.
  induction Hall as [|kv data Hkv Hall IH]; [reflexivity|].
  unfold protected in Hkv. cbn [List.filter].
  destruct (negb (existsb (String.eqb (fst kv)) updatable_fields));
    [rewrite Hkv by reflexivity|rewrite andb_false_r]; exact IH.
Qed.

(** X15.  Only [ip_addr], [is_user_defined] and [vip_namespace] of a VIP
    can be updated: a request with a field outside these three whose value
    differs from the stored one (an absent column counting as [None]) is
    refused with [InvalidData], the message listing that field, whatever
    the database holds. *)
Theorem validate_update_protected_field (db : Database) (data : payload)
    (existing_obj : IPAddr) (d : dict) (k : string) (v : json) :
  parse data = Ok (JDict d) →
  (k, v) ∈ d →
  protected k = true →
  json_eqb v (get k (ipaddr_dict existing_obj)) = false →
  let bad_fields := bad_fields_of d (ipaddr_dict existing_obj) in
  k ∈ bad_fields
  ∧ validate_update db data existing_obj
    = Raise (InvalidData (not_updatable_msg bad_fields (JDict d))).
Proof.
  intros Hparse Hin Hprot Hne bad_fields.
  pose proof (bad_fields_of_elem _ _ _ _ Hin Hprot Hne) as Hbad.
  fold bad_fields in Hbad. split; [exact Hbad|].
  unfold IPAddrValidator.validate_update. rewrite Hparse. simpl.
  fold bad_fields. destruct bad_fields; [|reflexivity].
  apply elem_of_nil in Hbad. destruct Hbad.
Qed.

(** X16.  The address of a VIP is checked against the stored addresses
    only when the update sets [is_user_defined] and a non-empty [ip_addr]:
    an update that changes no protected field and lacks one of the two is
    accepted and returned as it is, whatever the database holds, also
    when it gives the VIP an address another row already has. *)
Theorem validate_update_unchecked (db : Database) (data : payload)
    (existing_obj : IPAddr) (d : dict) :
  parse data = Ok (JDict d) →
  Forall (fun kv =>
            protected (fst kv) = true →
            json_eqb (snd kv) (get (fst kv) (ipaddr_dict existing_obj))
            = true) d →
  truthy (get "is_user_defined" d) && truthy (get "ip_addr" d) = false →
  validate_update db data existing_obj = Ok (JDict d).
Proof.
  intros Hparse Hfields Hflag.
  unfold IPAddrValidator.validate_update. rewrite Hparse. simpl.
  rewrite (bad_fields_of_nil _ _ Hfields). simpl.
  rewrite Hflag. reflexivity.
Qed.

(** One record leaves the messages as they are only when it is accepted. *)
Lemma check_record_grows (db : Database) (cluster_id : Z)
    (existing_instances : list IPAddr) (msgs msgs' : list text)
    (record : json) :
  check_record loads db cluster_id existing_instances msgs record = Ok msgs' →
  (msgs' = msgs
   ∧ ∃ r instance,
       record = JDict r
       ∧ instance_of existing_instances r = Some instance
       ∧ validate_update db (Parsed record) instance = Ok record)
  ∨ ∃ msg, msgs' = app msgs [msg].
Proof.
  unfold check_record. intros H.
  apply bind_inv_Ok in H as (r & Hr & H).
  destruct record; try discriminate. injection Hr as ->.
  fold (instance_of existing_instances r) in H.
  destruct (instance_of existing_instances r) as [instance|] eqn:Hinst;
    [|injection H as <-; eauto].
  destruct (validate_update db (Parsed (JDict r)) instance) as [j|e] eqn:Hv.
  - injection H as <-. left. split; [reflexivity|].
    exists r, instance. split; [reflexivity|]. split; [exact Hinst|].
    rewrite Hv. f_equal.
    unfold IPAddrValidator.validate_update in Hv. simpl in Hv.
    apply bind_inv_Ok in Hv as (? & _ & Hv).
    apply bind_inv_Ok in Hv as (? & _ & Hv). congruence.
  - destruct e; try discriminate. injection H as <-. eauto.
Qed.

Lemma check_records_clean (db : Database) (cluster_id : Z)
    (existing_instances : list IPAddr) (records : list json) :
  ∀ msgs msgs',
  for_fold (check_record loads db cluster_id existing_instances) msgs records
  = Ok msgs' →
  (length msgs <= length msgs')%nat
  ∧ (length msgs' <= length msgs →
     Forall (fun record =>
               ∃ r instance,
                 record = JDict r
                 ∧ instance_of existing_instances r = Some instance
                 ∧ validate_update db (Parsed record) instance = Ok record)
            records)%nat.
Proof.
  induction records as [|record records IH]; intros msgs msgs'; simpl.
  - intros [= ->]. split; [lia | constructor].
  - intros H. apply bind_inv_Ok in H as (msgs1 & Hrec & H).
    apply IH in H as (Hle & Hall).
    apply check_record_grows in Hrec as [(-> & Hrec)|(msg & ->)].
    + split; [exact Hle|]. intros Hlen. constructor; auto.
    + rewrite length_app in Hle, Hall. simpl in Hle, Hall.
      split; [lia|]. intros Hlen. lia.
Qed.

(** X17.  A batch of VIP updates is accepted as a whole or not at all:
    when [validate_collection_update] returns, it returns the parsed body
    unchanged, and the body is a list every record of which is a dict
    whose [id] is the id of a VIP of the cluster and which
    [validate_update] accepts for that VIP; or it is an empty dict or an
    empty string, which the loop takes for a batch without records and
    which are returned as they are. *)
Theorem validate_collection_update_accepted (db : Database) (data : string)
    (cluster_id : Z) :
  (∀ result,
     validate_collection_update db data cluster_id = Ok result →
     loads data = Some result
     ∧ ((∃ records,
           result = JList records
           ∧ Forall (fun record =>
                       ∃ r instance,
                         record = JDict r
                         ∧ instance_of (get_vips_by_cluster_id db cluster_id)
                                       r
                           = Some instance
                         ∧ validate_update db (Parsed record) instance
                           = Ok record)
                    records)
        ∨ result = JDict []
        ∨ result = JStr ""))
  ∧ (∀ body,
       loads data = Some body →
       body = JDict [] ∨ body = JStr "" ∨ body = JList [] →
       validate_collection_update db data cluster_id = Ok body).
Proof.
  split.
  - intros result.
    unfold IPAddrValidator.validate_collection_update. intros H.
    apply bind_inv_Ok in H as (j & Hjson & H). cbv zeta in H.
    apply bind_inv_Ok in H as (records & Hrecords & H).
    apply bind_inv_Ok in H as (msgs & Hloop & H).
    destruct msgs; [|discriminate]. injection H as <-.
    split.
    { unfold BasicValidator.validate_json in Hjson.
      destruct (loads data); congruence. }
    apply check_records_clean in Hloop as (_ & Hall).
    specialize (Hall ltac:(simpl; lia)).
    destruct j as [| | |s|l|d]; try discriminate; injection Hrecords as <-.
    + right. right. destruct s as [|c s]; [reflexivity|].
      simpl in Hall. apply Forall_cons in Hall as ((r & ? & [=] & _) & _).
    + left. eauto.
    + right. left. destruct d as [|[k v] d]; [reflexivity|].
      simpl in Hall. apply Forall_cons in Hall as ((r & ? & [=] & _) & _).
  - intros body Hloads Hbody.
    unfold IPAddrValidator.validate_collection_update,
      BasicValidator.validate_json.
    rewrite Hloads. destruct Hbody as [->|[->| ->]]; reflexivity.
Qed.

End Vip.

Section VipExamples.
Import IPAddrValidator VipNotions Examples MoreExamples.

Lemma check_vip_name_accepted_witness :
  ∃ vip_name net_role names declared,
    dict_lookup "vip_name" [("vip_name", JStr "management")] = Some vip_name
    ∧ net_role ∈ cluster_network_roles cluster_operational
    ∧ vip_names_of_role net_role = Ok names
    ∧ declared ∈ names
    ∧ json_eqb vip_name declared = true.
Proof.
  apply (check_vip_name_accepted [("vip_name", JStr "management")]
                                  cluster_operational tt).
  vm_compute. reflexivity.
Defined.

Lemma validate_create_accepted_witness :
  validate_create (loads bodies) schema_ok db0 (Parsed vip_new)
                  cluster_operational = Ok vip_new
  ∧ ∃ d ip_addr,
      vip_new = JDict d
      ∧ get "is_user_defined" d ≠ JBool false
      ∧ dict_lookup "ip_addr" d = Some ip_addr
      ∧ get_all_by_addr db0 ip_addr = [].
Proof.
  assert (validate_create (loads bodies) schema_ok db0 (Parsed vip_new)
                          cluster_operational = Ok vip_new)
    as Hok by (vm_compute; reflexivity).
  split; [exact Hok|].
  destruct (validate_create_accepted _ _ _ _ _ _ Hok)
    as (d & network_id & network_db & nodegroup & ip_addr & _ & Hd & _
        & Hflag & _ & _ & _ & _ & _ & Haddr & Hfree).
  exists d, ip_addr. auto.
Defined.

Lemma validate_update_protected_field_witness :
  "network" ∈ bad_fields_of [("id", JNum 1); ("network", JNum 3)]
                            (ipaddr_dict row_vrouter)
  ∧ validate_update (loads bodies) db0 (Parsed vip_renetwork) row_vrouter
    = Raise (InvalidData
               (not_updatable_msg
                  (bad_fields_of [("id", JNum 1); ("network", JNum 3)]
                                 (ipaddr_dict row_vrouter))
                  vip_renetwork)).
Proof.
  apply (validate_update_protected_field (loads bodies) db0
           (Parsed vip_renetwork) row_vrouter
           [("id", JNum 1); ("network", JNum 3)] "network" (JNum 3));
    [reflexivity | right; left | reflexivity | reflexivity].
Defined.

Lemma validate_update_unchecked_witness :
  get_all_by_addr db0 (JStr "10.0.0.9") = [node_row 2 2 "10.0.0.9"]
  ∧ validate_update (loads bodies) db0 (Parsed vip_steal) row_vrouter
    = Ok vip_steal.
Proof.
  split; [reflexivity|].
  apply (validate_update_unchecked (loads bodies) db0 (Parsed vip_steal)
           row_vrouter [("id", JNum 1); ("ip_addr", JStr "10.0.0.9")]);
    [reflexivity | | reflexivity].
  repeat constructor; simpl; intros; try reflexivity; discriminate.
Defined.

Lemma validate_collection_update_accepted_witness :
  validate_collection_update (loads batch_bodies) db0 "[update]" 1
  = Ok (JList [vip_update])
  ∧ validate_collection_update (loads bodies) db0 "{}" 1 = Ok (JDict [])
  ∧ ((∃ records,
        JList [vip_update] = JList records
        ∧ Forall (fun record =>
                    ∃ r instance,
                      record = JDict r
                      ∧ instance_of (get_vips_by_cluster_id db0 1) r
                        = Some instance
                      ∧ validate_update (loads batch_bodies) db0
                                        (Parsed record) instance = Ok record)
                 records)
     ∨ JList [vip_update] = JDict []
     ∨ JList [vip_update] = JStr "").
Proof.
  assert (validate_collection_update (loads batch_bodies) db0 "[update]" 1
          = Ok (JList [vip_update])) as Hok by (vm_compute; reflexivity).
  split; [exact Hok|]. split.
  - apply (proj2 (validate_collection_update_accepted
                    (loads bodies) db0 "{}" 1) (JDict []) eq_refl).
    left. reflexivity.
  - exact (proj2 (proj1 (validate_collection_update_accepted
                           (loads batch_bodies) db0 "[update]" 1) _ Hok)).
Defined.

End VipExamples.

(** ** Network groups: what an update may change *)

Lemma attr_inv_Ok {A : Type} (o : option A) (a : A) :
  NetworkGroupValidator.attr o = Ok a → o = Some a.
Proof. destruct o; simpl; congruence. Qed.

Lemma dict_lookup_remove (k : string) (d : dict) :
  dict_lookup k (dict_remove k d) = None.
Proof.
  induction d as [|[k' v] d IH]; simpl; [reflexivity|].
  destruct (String.eqb k k') eqn:Hk; [exact IH|]. simpl. rewrite Hk. exact IH.
Qed.

Section NetworkGroups.
Import NetworkConfigurationValidator NetworkGroupValidator.

Variable loads : string → option json.
Variable schema_error : string → json → option text.

Notation validate_update := (validate_update loads schema_error).

(** The outcome of [validate_network_group] is the request or an error. *)
Lemma validate_network_group_returns_request (db : Database) (ng_data : dict)
    (ng_db : NetworkGroup) (cluster : Cluster)
    (admin_ranges : option (gmap Z ip_ranges)) (d : dict) :
  snd (validate_network_group db ng_data ng_db cluster admin_ranges) = Ok d →
  d = ng_data.
Proof.
  unfold validate_network_group.
  destruct (effective_ranges ng_data ng_db); simpl; [|discriminate].
  intros H. apply bind_inv_Ok in H as ([|] & _ & H).
  - apply bind_inv_Ok in H as (? & _ & H).
    apply bind_inv_Ok in H as (? & _ & H). discriminate.
  - congruence.
Qed.

(** X18.  The node group of a network group cannot be changed through an
    update: what [validate_update] returns is the parsed request without
    its [group_id] key, every other key as it was sent. *)
Theorem validate_update_drops_group_id (db : Database) (data : string)
    (instance : NetworkGroup) (d' : dict) :
  validate_update db data instance = Ok d' →
  ∃ d,
    loads data = Some (JDict d)
    ∧ d' = dict_remove "group_id" d
    ∧ dict_lookup "group_id" d' = None
    ∧ ∀ k, k ≠ "group_id" → dict_lookup k d' = dict_lookup k d.
Proof.
  unfold NetworkGroupValidator.validate_update. intros H.
  apply bind_inv_Ok in H as (j & Hjson & H).
  apply bind_inv_Ok in H as (? & _ & H).
  apply bind_inv_Ok in H as (d & Hd & H). apply as_dict_inv_Ok in Hd as ->.
  cbv zeta in H.
  apply bind_inv_Ok in H as (ng_db & _ & H).
  apply bind_inv_Ok in H as (? & _ & H).
  apply bind_inv_Ok in H as (nodegroup & _ & H).
  apply bind_inv_Ok in H as (? & _ & H).
  apply bind_inv_Ok in H as (cluster & _ & H).
  apply validate_network_group_returns_request in H as ->.
  exists d. split.
  { unfold BasicValidator.validate_json in Hjson.
    destruct (loads data); congruence. }
  split; [reflexivity|]. split; [apply dict_lookup_remove|].
  intros k Hk. apply dict_lookup_remove_ne. exact Hk.
Qed.

(** X19.  Renaming a network group: a request whose [name] differs from
    the stored name and is the name of a network the node group already
    has is refused with [AlreadyExists]; a request that sends the stored
    name skips the duplicate check, its outcome being that of
    [validate_network_group]. *)
Theorem validate_update_rename (db : Database) (data : string)
    (instance : NetworkGroup) (d : dict) (ng_db : NetworkGroup)
    (nodegroup : NodeGroup) (name : json) :
  loads data = Some (JDict d) →
  schema_error "NETWORK_GROUP" (JDict d) = None →
  query_get db (py_or (get "id" d) (JNum (ng_id instance))) = Some ng_db →
  falsy_id (ng_group_id ng_db) = false →
  ng_nodegroup db ng_db = Some nodegroup →
  dict_lookup "name" d = Some name →
  (json_eqb (JStr (ng_name ng_db)) name = false →
   is_Some (get_from_node_group_by_name db (nodegroup_id nodegroup) name) →
   validate_update db data instance
   = Raise (AlreadyExists
              (TFormat "Network with name {0} already exists in node group {1}"
                       [TVal name; TVal (JStr (nodegroup_name nodegroup))])))
  ∧ (json_eqb (JStr (ng_name ng_db)) name = true →
     validate_update db data instance
     = (cluster ← attr (nodegroup_cluster db nodegroup);
        snd (validate_network_group db (dict_remove "group_id" d)
                                    ng_db cluster None))).
Proof.
  intros Hloads Hschema Htarget Hgroup Hng Hname.
  assert (get "id" (dict_remove "group_id" d) = get "id" d) as Hid.
  { unfold get, get_or. rewrite dict_lookup_remove_ne; [reflexivity|].
    discriminate. }
  assert (dict_lookup "name" (dict_remove "group_id" d) = Some name)
    as Hname'.
  { rewrite dict_lookup_remove_ne; [exact Hname | discriminate]. }
  assert (validate_update db data instance
          = ((if negb (json_eqb (JStr (ng_name ng_db)) name)
              then _check_duplicate_network_name db nodegroup name
              else Ok tt) ;;
             cluster ← attr (nodegroup_cluster db nodegroup);
             snd (validate_network_group db (dict_remove "group_id" d)
                                         ng_db cluster None))) as Hv.
  { unfold NetworkGroupValidator.validate_update,
      BasicValidator.validate_json, BasicValidator.validate_schema.
    rewrite Hloads. simpl. rewrite Hschema. simpl.
    rewrite Hid, Htarget. simpl. rewrite Hgroup. simpl. rewrite Hng. simpl.
    unfold has_key, get, get_or. rewrite Hname'. reflexivity. }
  split.
  - intros Hne [other Hother]. rewrite Hv, Hne. simpl.
    unfold _check_duplicate_network_name. rewrite Hother. reflexivity.
  - intros Heq. rewrite Hv, Heq. reflexivity.
Qed.

(** X20.  In a cluster whose status is [new], a network group other than
    an Admin one is never checked against the allocated addresses: the
    request is accepted as soon as its consistency checks pass, the
    database is not read, and the collected Admin ranges stay as they
    are. *)
Theorem validate_network_group_new_cluster (db : Database) (ng_data : dict)
    (ng_db : NetworkGroup) (cluster : Cluster)
    (admin_ranges : option (gmap Z ip_ranges)) :
  ng_name ng_db ≠ consts.NETWORKS.fuelweb_admin →
  cluster_status cluster = consts.CLUSTER_STATUSES.new →
  validate_network_group db ng_data ng_db cluster admin_ranges
  = (admin_ranges,
     match effective_ranges ng_data ng_db with
     | Ok _ => Ok ng_data
     | Raise e => Raise e
     end)
  ∧ ∀ db',
      validate_network_group db' ng_data ng_db cluster admin_ranges
      = validate_network_group db ng_data ng_db cluster admin_ranges.
Proof.
  intros Hname Hstatus.
  assert (∀ db0,
            validate_network_group db0 ng_data ng_db cluster admin_ranges
            = (admin_ranges,
               match effective_ranges ng_data ng_db with
               | Ok _ => Ok ng_data
               | Raise e => Raise e
               end)) as Hany.
  { intros db0. unfold validate_network_group.
    destruct (effective_ranges ng_data ng_db); [|reflexivity].
    apply String.eqb_neq in Hname. rewrite Hname, Hstatus.
    reflexivity. }
  split; [apply Hany|]. intros db'. rewrite !Hany. reflexivity.
Qed.

(** X21.  The ranges of an Admin network are recorded for the caller
    before the coverage check: whenever the consistency checks of an Admin
    network pass, the caller's [admin_ranges] holds the computed ranges
    under the id of the network, also when the validation then fails; the
    entries of the other networks are not touched. *)
Theorem validate_network_group_records_admin_ranges (db : Database)
    (ng_data : dict) (ng_db : NetworkGroup) (cluster : Cluster)
    (admin_ranges : gmap Z ip_ranges) (ranges : ip_ranges) :
  ng_name ng_db = consts.NETWORKS.fuelweb_admin →
  effective_ranges ng_data ng_db = Ok ranges →
  ∃ admin_ranges',
    fst (validate_network_group db ng_data ng_db cluster (Some admin_ranges))
    = Some admin_ranges'
    ∧ admin_ranges' !! ng_id ng_db = Some ranges
    ∧ ∀ id, id ≠ ng_id ng_db → admin_ranges' !! id = admin_ranges !! id.
Proof.
  intros Hname Heff. unfold validate_network_group.
  rewrite Heff, Hname. simpl.
  exists (<[ng_id ng_db := ranges]> admin_ranges).
  split; [reflexivity|]. split; [apply lookup_insert_eq|].
  intros id Hid. apply lookup_insert_ne. congruence.
Qed.

(** X22.  What the consistency checks of a network group guarantee once
    they pass: the release is the stored one; [use_gateway] comes with a
    gateway; in [ip_ranges] notation there are ranges, in the request or
    in the database; in [cidr] or [ip_ranges] notation there is a CIDR,
    in the request or in the database. *)
Theorem effective_ranges_consistent (ng_data : dict) (ng_db : NetworkGroup)
    (ranges : ip_ranges) :
  effective_ranges ng_data ng_db = Ok ranges →
  ∃ meta,
    get_or "meta" (JDict []) ng_data = JDict meta
    ∧ let notation :=
        get_or "notation" (get "notation" (ng_meta ng_db)) meta in
      let use_gateway :=
        get_or "use_gateway"
               (get_or "use_gateway" (JBool false) (ng_meta ng_db)) meta in
      json_eqb (get_or "release" (ng_release ng_db) ng_data)
               (ng_release ng_db) = true
      ∧ (truthy use_gateway = true →
         truthy (get_or "gateway" (ng_gateway ng_db) ng_data) = true)
      ∧ (json_eqb notation (JStr consts.NETWORK_NOTATION.ip_ranges) = true →
         truthy (get_or "ip_ranges" (db_ranges ng_db) ng_data) = true)
      ∧ (json_eqb notation (JStr consts.NETWORK_NOTATION.cidr) = true
         ∨ json_eqb notation (JStr consts.NETWORK_NOTATION.ip_ranges) = true →
         truthy (get_or "cidr" (ng_cidr ng_db) ng_data) = true
         ∨ truthy (ng_cidr ng_db) = true).
Proof.
  unfold effective_ranges. intros H. cbv zeta in H.
  apply bind_inv_Ok in H as (? & Hrelease & H).
  apply bind_inv_Ok in H as (meta & Hmeta & H).
  apply as_dict_inv_Ok in Hmeta.
  apply bind_inv_Ok in H as (? & Hgw & H).
  apply bind_inv_Ok in H as (? & Hranges & H).
  apply bind_inv_Ok in H as (? & Hcidr & _).
  apply raise_if_inv_Ok in Hrelease, Hgw, Hranges, Hcidr.
  apply negb_false_iff in Hrelease.
  exists meta. split; [exact Hmeta|]. cbv zeta.
  split; [exact Hrelease|]. split; [|split].
  - intros Hu. rewrite Hu in Hgw. simpl in Hgw.
    apply negb_false_iff in Hgw. exact Hgw.
  - intros Hn. rewrite Hn, andb_true_r in Hranges.
    apply negb_false_iff in Hranges. exact Hranges.
  - intros Hn.
    assert (json_eqb (get_or "notation" (get "notation" (ng_meta ng_db)) meta)
                     (JStr consts.NETWORK_NOTATION.cidr)
            || json_eqb
                 (get_or "notation" (get "notation" (ng_meta ng_db)) meta)
                 (JStr consts.NETWORK_NOTATION.ip_ranges) = true) as Hor
      by (apply orb_true_iff; exact Hn).
    rewrite Hor in Hcidr. simpl in Hcidr.
    destruct (truthy (get_or "cidr" (ng_cidr ng_db) ng_data)); [auto|].
    destruct (truthy (ng_cidr ng_db)); [auto|discriminate].
Qed.

End NetworkGroups.

Section NetworkGroupsExamples.
Import NetworkConfigurationValidator NetworkGroupValidator.
Import Examples MoreExamples.

Lemma validate_update_drops_group_id_witness :
  validate_update (loads edit_bodies) schema_ok db0
                  "{'id': 2, 'group_id': 7}" ng_management
  = Ok [("id", JNum 2)]
  ∧ ∃ d,
      loads edit_bodies "{'id': 2, 'group_id': 7}" = Some (JDict d)
      ∧ [("id", JNum 2)] = dict_remove "group_id" d.
Proof.
  assert (validate_update (loads edit_bodies) schema_ok db0
                          "{'id': 2, 'group_id': 7}" ng_management
          = Ok [("id", JNum 2)]) as Hok by (vm_compute; reflexivity).
  split; [exact Hok|].
  destruct (validate_update_drops_group_id _ _ _ _ _ _ Hok)
    as (d & Hloads & Hd & _).
  exists d. split; [exact Hloads | exact Hd].
Defined.

Lemma validate_update_rename_witness :
  validate_update (loads edit_bodies) schema_ok db0
                  "{'id': 2, 'name': 'storage'}" ng_management
  = Raise (AlreadyExists
             (TFormat "Network with name {0} already exists in node group {1}"
                      [TVal (JStr "storage"); TVal (JStr "default")])).
Proof.
  apply (proj1 (validate_update_rename (loads edit_bodies) schema_ok db0
                  "{'id': 2, 'name': 'storage'}" ng_management
                  [("id", JNum 2); ("name", JStr "storage")]
                  ng_management group_default (JStr "storage")
                  eq_refl eq_refl eq_refl eq_refl eq_refl eq_refl));
    [reflexivity | vm_compute; eauto].
Defined.

Lemma validate_network_group_new_cluster_witness :
  validate_network_group db_new edit_narrow ng_management cluster_new None
  = (None, Ok edit_narrow)
  ∧ snd (validate_network_group db0 edit_narrow ng_management
                                cluster_operational None)
    = Raise (InvalidData (not_covered_msg (JStr "management") (JNum 2))).
Proof.
  split; [|vm_compute; reflexivity].
  rewrite (proj1 (validate_network_group_new_cluster
                    db_new edit_narrow ng_management cluster_new None
                    ltac:(vm_compute; discriminate) eq_refl)).
  vm_compute. reflexivity.
Defined.

Lemma validate_network_group_records_admin_ranges_witness :
  ∃ ranges admin_ranges',
    effective_ranges [("id", JNum 1)] ng_admin = Ok ranges
    ∧ fst (validate_network_group db0 [("id", JNum 1)] ng_admin
                                  cluster_operational (Some ∅))
      = Some admin_ranges'
    ∧ admin_ranges' !! 1 = Some ranges.
Proof.
  assert (∃ ranges, effective_ranges [("id", JNum 1)] ng_admin = Ok ranges)
    as (ranges & Heff) by (eexists; vm_compute; reflexivity).
  destruct (validate_network_group_records_admin_ranges
              db0 [("id", JNum 1)] ng_admin cluster_operational ∅ ranges
              eq_refl Heff) as (admin_ranges' & Hfst & Hlookup & _).
  exists ranges, admin_ranges'. auto.
Defined.

Lemma effective_ranges_consistent_witness :
  ∃ ranges meta,
    effective_ranges edit_narrow ng_management = Ok ranges
    ∧ get_or "meta" (JDict []) edit_narrow = JDict meta
    ∧ json_eqb (get_or "release" (ng_release ng_management) edit_narrow)
               (ng_release ng_management) = true.
Proof.
  assert (∃ ranges, effective_ranges edit_narrow ng_management = Ok ranges)
    as (ranges & Heff) by (eexists; vm_compute; reflexivity).
  destruct (effective_ranges_consistent _ _ _ Heff)
    as (meta & Hmeta & Hrelease & _).
  exists ranges, meta. auto.
Defined.

End NetworkGroupsExamples.

(** ** Structure and data of a request together *)

Section Entry.
Import node_models NetAssignmentEntry.

Variable loads : string → option json.
Variable BOND_PROPERTIES : list string.
Variable BOND_MODES : list string.
Variable prohibited_admin_bond_modes : list string.
Variable NIC_dpdk_available : option Interface → json → bool.
Variable Bond_dpdk_available : Interface → json → bool.
Variable default_admin_network_id : Z.

Notation validate := (NetAssignmentValidator.validate BOND_PROPERTIES BOND_MODES).
Notation verify_data_correctness :=
  (NetAssignmentData.verify_data_correctness
     prohibited_admin_bond_modes NIC_dpdk_available Bond_dpdk_available
     default_admin_network_id).
Notation validate_and_verify :=
  (validate_and_verify BOND_PROPERTIES BOND_MODES prohibited_admin_bond_modes
                       NIC_dpdk_available Bond_dpdk_available
                       default_admin_network_id).
Notation validate_structure_and_data :=
  (validate_structure_and_data
     loads BOND_PROPERTIES BOND_MODES prohibited_admin_bond_modes
     NIC_dpdk_available Bond_dpdk_available default_admin_network_id).
Notation validate_collection_structure_and_data :=
  (validate_collection_structure_and_data
     loads BOND_PROPERTIES BOND_MODES prohibited_admin_bond_modes
     NIC_dpdk_available Bond_dpdk_available default_admin_network_id).

Lemma validate_Ok_dict (node node' : json) :
  validate node = Ok node' → ∃ n, node = JDict n.
Proof.
  unfold NetAssignmentValidator.validate.
  destruct node; try discriminate. eauto.
Qed.

Lemma validate_and_verify_Ok (db_nodes : list DbNode) (node : json)
    (u : unit) :
  validate_and_verify db_nodes node = Ok u →
  ∃ n, node = JDict n
       ∧ validate node = Ok node
       ∧ verify_data_correctness db_nodes n = Ok tt.
Proof.
  unfold NetAssignmentEntry.validate_and_verify. intros H.
  apply bind_inv_Ok in H as (node' & Hv & H).
  destruct (validate_Ok_dict _ _ Hv) as (n & ->).
  simpl in H. destruct u. exists n. split; [reflexivity|]. split; [|exact H].
  unfold NetAssignmentValidator.validate in *.
  destruct (raise_if _ _); simpl in *; [|discriminate].
  destruct (dict_lookup "interfaces" n) as [[| | | |interfaces|]|];
    try discriminate.
  destruct (for_fold _ _ _); simpl in *; [reflexivity|discriminate].
Qed.

(** X23.  The interfaces of one node: the request is accepted exactly when
    it parses and the node made of the given id and the parsed interfaces
    passes the structure check and then the check against the database;
    the parsed interfaces are returned as they are.  The structure is
    checked first: its error is raised whatever the database holds. *)
Theorem validate_structure_and_data_composes (db_nodes : list DbNode)
    (webdata : string) (node_id : json) :
  (∀ result,
     validate_structure_and_data db_nodes webdata node_id = Ok result
     ↔ loads webdata = Some result
       ∧ validate (JDict [("id", node_id); ("interfaces", result)])
         = Ok (JDict [("id", node_id); ("interfaces", result)])
       ∧ verify_data_correctness
           db_nodes [("id", node_id); ("interfaces", result)] = Ok tt)
  ∧ (∀ interfaces e,
       loads webdata = Some interfaces →
       validate (JDict [("id", node_id); ("interfaces", interfaces)])
       = Raise e →
       validate_structure_and_data db_nodes webdata node_id = Raise e).
Proof.
  split.
  - intros result. unfold NetAssignmentEntry.validate_structure_and_data,
      BasicValidator.validate_json.
    destruct (loads webdata) as [interfaces|];
      [rewrite bind_Ok|rewrite bind_Raise]; cbv zeta.
    + split.
      * intros H. apply bind_inv_Ok in H as (? & Hvv & H).
        injection H as <-.
        apply validate_and_verify_Ok in Hvv as (n & [= <-] & Hv & Hd). auto.
      * intros ([= <-] & Hv & Hd).
        unfold NetAssignmentEntry.validate_and_verify. rewrite Hv, bind_Ok.
        cbn [as_dict]. rewrite bind_Ok, Hd. reflexivity.
    + split; [discriminate | intros ([=] & _)].
  - intros interfaces e Hloads Hv.
    unfold NetAssignmentEntry.validate_structure_and_data,
      BasicValidator.validate_json, NetAssignmentEntry.validate_and_verify.
    rewrite Hloads, bind_Ok. cbv zeta. rewrite Hv. reflexivity.
Qed.

(** X24.  A collection of nodes is accepted as a whole: when
    [validate_collection_structure_and_data] returns, it returns the
    parsed list, and every node of it is a dict that passes the structure
    check and the check against the database; a body that parses to
    anything but a list is refused with [InvalidData]. *)
Theorem validate_collection_structure_and_data_accepted
    (db_nodes : list DbNode) (webdata : string) :
  (∀ result,
     validate_collection_structure_and_data db_nodes webdata = Ok result →
     ∃ nodes,
       loads webdata = Some (JList nodes)
       ∧ result = JList nodes
       ∧ Forall (fun node =>
                   ∃ n, node = JDict n
                        ∧ validate node = Ok node
                        ∧ verify_data_correctness db_nodes n = Ok tt)
                nodes)
  ∧ (∀ data,
       loads webdata = Some data →
       (∀ nodes, data ≠ JList nodes) →
       validate_collection_structure_and_data db_nodes webdata
       = Raise (InvalidData (TStr "Data should be list of nodes"))).
Proof.
  split.
  - intros result.
    unfold NetAssignmentEntry.validate_collection_structure_and_data,
      BasicValidator.validate_json.
    destruct (loads webdata) as [data|]; simpl; [|discriminate].
    destruct data as [| | | |nodes|]; try discriminate.
    intros H. apply bind_inv_Ok in H as (? & Hloop & H). injection H as <-.
    exists nodes. split; [reflexivity|]. split; [reflexivity|].
    apply for_each_Ok in Hloop. eapply Forall_impl; [exact Hloop|].
    intros node Hnode. simpl in Hnode.
    apply validate_and_verify_Ok in Hnode. exact Hnode.
  - intros data Hloads Hlist.
    unfold NetAssignmentEntry.validate_collection_structure_and_data,
      BasicValidator.validate_json.
    rewrite Hloads. simpl.
    destruct data as [| | | |nodes|]; try reflexivity.
    destruct (Hlist nodes eq_refl).
Qed.

End Entry.

Section EntryExamples.
Import node_models NetAssignmentEntry Examples MoreExamples.

Lemma validate_structure_and_data_composes_witness :
  validate_structure_and_data
    (loads entry_bodies) BOND_PROPERTIES BOND_MODES
    prohibited_admin_bond_modes no_dpdk_nic no_dpdk_bond 1 [db_node1]
    "[eth0: admin, eth1: public]" (JNum 1)
  = Ok (JList [ether 1 "eth0" [net_ref 1 "fuelweb_admin"];
               ether 2 "eth1" [net_ref 4 "public"]]).
Proof.
  apply (proj1 (validate_structure_and_data_composes
                  (loads entry_bodies) BOND_PROPERTIES BOND_MODES
                  prohibited_admin_bond_modes no_dpdk_nic no_dpdk_bond 1
                  [db_node1] "[eth0: admin, eth1: public]" (JNum 1))).
  split; [reflexivity|]. split; vm_compute; reflexivity.
Defined.

Lemma validate_collection_structure_and_data_accepted_witness :
  validate_collection_structure_and_data
    (loads entry_bodies) BOND_PROPERTIES BOND_MODES
    prohibited_admin_bond_modes no_dpdk_nic no_dpdk_bond 1 [db_node1]
    "{'id': 1}"
  = Raise (InvalidData (TStr "Data should be list of nodes")).
Proof.
  apply (proj2 (validate_collection_structure_and_data_accepted
                  (loads entry_bodies) BOND_PROPERTIES BOND_MODES
                  prohibited_admin_bond_modes no_dpdk_nic no_dpdk_bond 1
                  [db_node1] "{'id': 1}") (JDict [("id", JNum 1)]));
    [reflexivity | discriminate].
Defined.

End EntryExamples.

(** ** Interfaces outside bonds and the default placement *)

Section FreeInterfaces.
Import Node.

Lemma insert_sorted_Permutation (x : string) (l : list string) :
  insert_sorted x l ≡ₚ x :: l.
Proof.
  induction l as [|y l IH]; simpl; [reflexivity|].
  destruct (String.leb x y); [reflexivity|].
  rewrite IH. apply Permutation_swap.
Qed.

Lemma sorted_Permutation (l : list string) : sorted l ≡ₚ l.
Proof.
  induction l as [|x l IH]; simpl; [reflexivity|].
  rewrite insert_sorted_Permutation, IH. reflexivity.
Qed.

Lemma insert_sorted_Sorted (x : string) (l : list string) :
  Sorted (fun a b => String.leb a b = true) l →
  Sorted (fun a b => String.leb a b = true) (insert_sorted x l).
Proof.
  induction 1 as [|y l Hs IH Hhd]; simpl; [repeat constructor|].
  destruct (String.leb x y) eqn:Hxy.
  - constructor; [constructor; assumption|]. constructor. exact Hxy.
  - constructor; [exact IH|].
    assert (String.leb y x = true) as Hyx.
    { destruct (String.leb_total x y) as [H|H]; [congruence|exact H]. }
    destruct Hhd as [|z l Hyz]; simpl; [constructor; exact Hyx|].
    destruct (String.leb x z); constructor; assumption.
Qed.

Lemma sorted_Sorted (l : list string) :
  Sorted (fun a b => String.leb a b = true) (sorted l).
Proof.
  induction l as [|x l IH]; simpl; [constructor|].
  apply insert_sorted_Sorted, IH.
Qed.

(** Folding [^=] over bonds whose slaves are pairwise distinct. *)
Lemma fold_symmetric_difference (bonds : list (string * list string)) :
  ∀ acc : gset string,
  NoDup (concat (map snd bonds)) →
  ∀ x,
    x ∈ fold_left (fun acc bond =>
                     symmetric_difference acc (list_to_set (snd bond)))
                  bonds acc
    ↔ (x ∈ acc ∧ x ∉ concat (map snd bonds))
      ∨ (x ∉ acc ∧ x ∈ concat (map snd bonds)).
Proof.
  induction bonds as [|bond bonds IH]; intros acc Hnd x; simpl.
  - rewrite elem_of_nil. tauto.
  - simpl in Hnd. apply NoDup_app in Hnd as (_ & Hdisj & Hnd).
    rewrite (IH _ Hnd x). unfold symmetric_difference.
    rewrite elem_of_union, !elem_of_difference, elem_of_list_to_set,
      elem_of_app.
    specialize (Hdisj x).
    destruct (decide (x ∈ acc)), (decide (x ∈ snd bond)),
      (decide (x ∈ concat (map snd bonds))); tauto.
Qed.

(** X25.  The interfaces the default placement considers are listed in the
    order of their names and without repetition; on a node whose bonds
    enslave interfaces of the node, none of them twice, they are exactly
    the interfaces that are not a slave of a bond. *)
Theorem get_interfaces_without_bonds_slaves_spec (node : t) :
  NoDup (concat (map snd (bond_interfaces node))) →
  (∀ s, s ∈ concat (map snd (bond_interfaces node)) → s ∈ interfaces node) →
  Sorted (fun a b => String.leb a b = true)
         (get_interfaces_without_bonds_slaves node)
  ∧ NoDup (get_interfaces_without_bonds_slaves node)
  ∧ ∀ x,
      x ∈ get_interfaces_without_bonds_slaves node
      ↔ x ∈ interfaces node
        ∧ x ∉ concat (map snd (bond_interfaces node)).
Proof.
  intros Hnd Hsub. unfold get_interfaces_without_bonds_slaves.
  split; [apply sorted_Sorted|]. split.
  - rewrite sorted_Permutation. apply NoDup_elements.
  - intros x. rewrite sorted_Permutation, elem_of_elements.
    rewrite (fold_symmetric_difference _ _ Hnd x), elem_of_list_to_set.
    specialize (Hsub x). tauto.
Qed.

Lemma get_interfaces_without_bonds_slaves_NoDup (node : t) :
  NoDup (get_interfaces_without_bonds_slaves node).
Proof.
  unfold get_interfaces_without_bonds_slaves.
  rewrite sorted_Permutation. apply NoDup_elements.
Qed.

(** An interface on which the scan runs to its end holds no dedicated
    network, not the network itself, and no untagged network beside an
    untagged one. *)
Lemma scan_networks_Else (network : Network) (nets : list Network) :
  scan_networks network nets = Else →
  Forall (fun net =>
            dedicated_nic net = false
            ∧ same_network net network = false
            ∧ net_untagged network && net_untagged net = false)
         nets.
Proof.
  induction nets as [|net nets IH]; simpl; [constructor|].
  destruct (dedicated_nic net) eqn:Hded; [discriminate|].
  destruct (same_network net network) eqn:Hsame; [discriminate|].
  destruct (net_untagged network && net_untagged net) eqn:Htag;
    [discriminate|].
  intros H. constructor; auto.
Qed.

Lemma place_Assigned (node : t) (network : Network) (ifaces : list string)
    (iface : string) :
  place node network ifaces = Assigned iface →
  iface ∈ ifaces
  ∧ (dedicated_nic network = true → assigned_networks_list node iface = [])
  ∧ scan_networks network (assigned_networks_list node iface) = Else.
Proof.
  induction ifaces as [|iface' ifaces IH]; simpl; [discriminate|].
  destruct (dedicated_nic network
            && match assigned_networks_list node iface' with
               | [] => false
               | _ => true
               end) eqn:Hskip.
  { intros H. apply IH in H as (Hin & H). split; [right; exact Hin|exact H]. }
  destruct (scan_networks network (assigned_networks_list node iface'))
    eqn:Hscan.
  - intros H. apply IH in H as (Hin & H). split; [right; exact Hin|exact H].
  - discriminate.
  - intros [= <-]. split; [left|]. split; [|exact Hscan].
    intros Hded. rewrite Hded in Hskip. simpl in Hskip.
    destruct (assigned_networks_list node iface'); [reflexivity|discriminate].
Qed.

(** X26.  What one run of the default placement does.  On a node with no
    interface outside bonds it fails with [IndexError].  Otherwise the
    node is left as it is or the network is appended to the list of
    exactly one interface outside bonds; and when this interface was
    chosen by the rules (not by the fallback to the first interface), it
    was empty if the network is dedicated, and it held no dedicated
    network, not the network itself, and no untagged network if the
    network is untagged. *)
Theorem assign_network_to_interface_outcome (node : t) (network : Network) :
  let ifaces := get_interfaces_without_bonds_slaves node in
  (ifaces = [] →
   assign_network_to_interface node (Some network)
   = Raise (PyError "IndexError"))
  ∧ ∀ node',
      assign_network_to_interface node (Some network) = Ok node' →
      node' = node
      ∨ ∃ iface,
          iface ∈ ifaces
          ∧ node' = assign_networks
                      node iface
                      (app (assigned_networks_list node iface) [network])
          ∧ (place node network ifaces ≠ Fallback →
             (dedicated_nic network = true →
              assigned_networks_list node iface = [])
             ∧ Forall (fun net =>
                         dedicated_nic net = false
                         ∧ same_network net network = false
                         ∧ net_untagged network && net_untagged net = false)
                      (assigned_networks_list node iface)).
Proof.
  intros ifaces. unfold assign_network_to_interface. fold ifaces. split.
  - intros ->. reflexivity.
  - intros node'.
    destruct (place node network ifaces) as [iface| |] eqn:Hplace.
    + intros [= <-]. right. exists iface.
      apply place_Assigned in Hplace as (Hin & Hded & Hscan).
      split; [exact Hin|]. split; [reflexivity|]. intros _.
      split; [exact Hded | apply scan_networks_Else, Hscan].
    + intros [= <-]. left. reflexivity.
    + destruct ifaces as [|first rest]; [discriminate|].
      intros [= <-]. right. exists first. split; [left|].
      split; [reflexivity|]. intros Hne. destruct Hne. reflexivity.
Qed.

End FreeInterfaces.

(** ** The public network: assigned, then unassigned *)

Section PublicNetwork.
Import Node NodePublic.

Lemma remove_appended (p : Network) (l : list Network) :
  existsb (fun net => same_network net p) l = false →
  existsb (fun net => same_network net p) (app l [p]) = true
  ∧ remove p (app l [p]) = l.
Proof.
  induction l as [|net l IH]; simpl.
  - intros _. unfold same_network. rewrite Z.eqb_refl. auto.
  - destruct (same_network net p); [discriminate|]. simpl.
    intros H. destruct (IH H) as (He & Hr). rewrite Hr. auto.
Qed.

Lemma unassign_from_absent (p : Network) (node : t) (iface : string) :
  existsb (fun net => same_network net p) (assigned_networks_list node iface)
  = false →
  unassign_from (Some p) node iface = node.
Proof. unfold unassign_from. intros ->. reflexivity. Qed.

Lemma unassign_absent (p : Network) (ifaces : list string) (node : t) :
  (∀ iface, iface ∈ ifaces →
            existsb (fun net => same_network net p)
                    (assigned_networks_list node iface) = false) →
  fold_left (unassign_from (Some p)) ifaces node = node.
Proof.
  induction ifaces as [|iface ifaces IH]; intros Habsent; cbn [fold_left];
    [reflexivity|].
  rewrite unassign_from_absent by (apply Habsent; left).
  apply IH. intros iface' Hin. apply Habsent. right. exact Hin.
Qed.

(** Removing the network again from a node to which it was appended. *)
Lemma unassign_appended (p : Network) (node : t) (iface : string)
    (ifaces : list string) :
  NoDup ifaces →
  iface ∈ ifaces →
  (∀ iface', iface' ∈ ifaces →
             existsb (fun net => same_network net p)
                     (assigned_networks_list node iface') = false) →
  ∀ iface',
    assigned_networks_list
      (fold_left (unassign_from (Some p)) ifaces
                 (assign_networks
                    node iface
                    (app (assigned_networks_list node iface) [p])))
      iface'
    = assigned_networks_list node iface'.
Proof.
  intros Hnd Hin Habsent.
  set (node1 := assign_networks
                  node iface (app (assigned_networks_list node iface) [p])).
  apply list_elem_of_split in Hin as (pre & post & ->).
  apply NoDup_app in Hnd as (_ & Hpre & Hpost).
  apply NoDup_cons in Hpost as (Hpost & _).
  assert (iface ∉ pre) as Hpre' by (intros H; apply (Hpre _ H); left).
  rewrite fold_left_app. cbn [fold_left].
  assert (∀ other, other ≠ iface →
                   assigned_networks_list node1 other
                   = assigned_networks_list node other) as Hother.
  { intros other Hne. unfold node1. rewrite assigned_networks_list_assign.
    destruct (decide (iface = other)); [congruence|reflexivity]. }
  rewrite (unassign_absent p pre node1).
  2: { intros other Hin. rewrite Hother by (intros ->; auto).
       apply Habsent, elem_of_app. left. exact Hin. }
  assert (existsb (fun net => same_network net p)
                  (assigned_networks_list node iface) = false) as Hiface.
  { apply Habsent, elem_of_app. right. left. }
  destruct (remove_appended p _ Hiface) as (Hexists & Hremove).
  assert (unassign_from (Some p) node1 iface
          = assign_networks node1 iface (assigned_networks_list node iface))
    as ->.
  { unfold unassign_from.
    assert (assigned_networks_list node1 iface
            = app (assigned_networks_list node iface) [p]) as ->.
    { unfold node1. rewrite assigned_networks_list_assign.
      destruct (decide (iface = iface)); [reflexivity|congruence]. }
    rewrite Hexists, Hremove. reflexivity. }
  set (node2 := assign_networks node1 iface
                                (assigned_networks_list node iface)).
  assert (∀ other, assigned_networks_list node2 other
                   = assigned_networks_list node other) as Hsame.
  { intros other. unfold node2. rewrite assigned_networks_list_assign.
    destruct (decide (iface = other)) as [->|Hne]; [reflexivity|].
    apply Hother. congruence. }
  rewrite (unassign_absent p post node2); [apply Hsame|].
  intros other Hin. rewrite Hsame. apply Habsent, elem_of_app.
  right. right. exact Hin.
Qed.

Lemma place_Unchanged (node : t) (network : Network) (ifaces : list string) :
  place node network ifaces = Unchanged →
  ∃ iface,
    iface ∈ ifaces
    ∧ existsb (fun net => same_network net network)
              (assigned_networks_list node iface) = true.
Proof.
  induction ifaces as [|iface ifaces IH]; simpl; [discriminate|].
  assert (scan_networks network (assigned_networks_list node iface) = Return →
          existsb (fun net => same_network net network)
                  (assigned_networks_list node iface) = true) as Hscan.
  { generalize (assigned_networks_list node iface).
    induction l as [|net l IHl]; simpl; [discriminate|].
    destruct (dedicated_nic net); [discriminate|].
    destruct (same_network net network); [reflexivity|].
    destruct (net_untagged network && net_untagged net); [discriminate|].
    exact IHl. }
  destruct (dedicated_nic network
            && match assigned_networks_list node iface with
               | [] => false
               | _ => true
               end).
  { intros H. apply IH in H as (i & Hin & H). exists i. split; [right|]; auto. }
  destruct (scan_networks network (assigned_networks_list node iface)).
  - intros H. apply IH in H as (i & Hin & H). exists i. split; [right|]; auto.
  - intros _. exists iface. split; [left|auto].
  - discriminate.
Qed.

(** X27.  Assigning the public network and unassigning it again: on a
    node none of whose interfaces outside bonds carries the public network
    of its node group, [assign_public_network] followed by
    [unassign_public_network] leaves on every interface the networks it
    had, in the order they had. *)
Theorem unassign_after_assign_public_network (node node1 : t)
    (nodegroup_networks : option (list Network)) (p : Network) :
  public_net nodegroup_networks = Ok (Some p) →
  (∀ iface, iface ∈ get_interfaces_without_bonds_slaves node →
            existsb (fun net => same_network net p)
                    (assigned_networks_list node iface) = false) →
  assign_public_network node nodegroup_networks = Ok node1 →
  ∃ node2,
    unassign_public_network node1 nodegroup_networks = Ok node2
    ∧ nic_interfaces node2 = nic_interfaces node
    ∧ bond_interfaces node2 = bond_interfaces node
    ∧ ∀ iface,
        assigned_networks_list node2 iface
        = assigned_networks_list node iface.
Proof.
  intros Hpublic Habsent Hassign.
  unfold assign_public_network in Hassign.
  rewrite Hpublic, bind_Ok in Hassign.
  unfold unassign_public_network. rewrite Hpublic, bind_Ok. cbv zeta.
  eexists. split; [reflexivity|].
  pose proof (assign_network_to_interface_extends _ _ _ Hassign)
    as Hext.
  rewrite (extends_interfaces _ _ Hext).
  assert (∀ ifaces n, nic_interfaces
                        (fold_left (unassign_from (Some p)) ifaces n)
                      = nic_interfaces n
                      ∧ bond_interfaces
                          (fold_left (unassign_from (Some p)) ifaces n)
                        = bond_interfaces n) as Hshape.
  { induction ifaces as [|i ifaces IH]; intros n; cbn [fold_left]; [auto|].
    destruct (IH (unassign_from (Some p) n i)) as (-> & ->).
    unfold unassign_from. destruct (existsb _ _); split; reflexivity. }
  destruct (Hshape (get_interfaces_without_bonds_slaves node) node1)
    as (-> & ->).
  destruct Hext as (_ & Hnic & Hbond & _).
  split; [exact Hnic|]. split; [exact Hbond|].
  unfold assign_network_to_interface in Hassign.
  destruct (place node p (get_interfaces_without_bonds_slaves node))
    as [iface| |] eqn:Hplace.
  - injection Hassign as <-.
    apply place_Assigned in Hplace as (Hin & _).
    apply unassign_appended;
      [apply get_interfaces_without_bonds_slaves_NoDup|exact Hin|exact Habsent].
  - apply place_Unchanged in Hplace as (iface & Hin & Hfound).
    rewrite (Habsent _ Hin) in Hfound. discriminate.
  - destruct (get_interfaces_without_bonds_slaves node) as [|first rest]
      eqn:Hifaces; [discriminate|].
    injection Hassign as <-. rewrite <- Hifaces in *.
    apply unassign_appended;
      [apply get_interfaces_without_bonds_slaves_NoDup| |exact Habsent].
    rewrite Hifaces. left.
Qed.

End PublicNetwork.

(** ** Roles *)

Section Roles.
Import NodeRoles.

(** X28.  Primary roles are a subset of the assigned roles:
    [update_primary_roles] changes nothing but [primary_roles], sets it to
    the new list only for a node in a cluster all of whose new primary
    roles are among its roles and pending roles, and leaves the node as
    it is otherwise; so a node whose primary roles are among its assigned
    roles stays so. *)
Theorem update_primary_roles_invariant (instance : t)
    (new_primary_roles : list string) :
  let instance' := update_primary_roles instance new_primary_roles in
  (instance' = instance
   ∨ (falsy_id (cluster_id instance) = false
      ∧ (∀ role, role ∈ new_primary_roles →
                 role ∈ roles instance ∨ role ∈ pending_roles instance)
      ∧ primary_roles instance' = new_primary_roles
      ∧ roles instance' = roles instance
      ∧ pending_roles instance' = pending_roles instance
      ∧ cluster_id instance' = cluster_id instance))
  ∧ ((∀ role, role ∈ primary_roles instance →
              role ∈ roles instance ∨ role ∈ pending_roles instance) →
     ∀ role, role ∈ primary_roles instance' →
             role ∈ roles instance' ∨ role ∈ pending_roles instance').
Proof.
  unfold update_primary_roles.
  destruct (falsy_id (cluster_id instance)); [split; [left|]; auto|].
  destruct (forallb _ new_primary_roles) eqn:Hall.
  - assert (∀ role, role ∈ new_primary_roles →
                    role ∈ roles instance ∨ role ∈ pending_roles instance)
      as Hnew.
    { intros role Hrole. rewrite forallb_forall in Hall.
      apply list_elem_of_In, Hall, bool_decide_eq_true in Hrole.
      apply elem_of_list_to_set, elem_of_app in Hrole. exact Hrole. }
    split; [right; auto 10|]. intros _ role Hrole. apply Hnew, Hrole.
  - split; [left|]; auto.
Qed.

(** X29.  [all_roles] lists, in order and without repetition, every
    assigned role that is not primary under its own name and every primary
    role under the name [primary-<role>]; after
    [move_roles_to_pending_roles] it lists exactly the roles and pending
    roles the node had, none of them marked primary. *)
Theorem all_roles_spec (instance : t) :
  Sorted (fun a b => String.leb a b = true) (all_roles instance)
  ∧ NoDup (all_roles instance)
  ∧ (∀ x,
       x ∈ all_roles instance
       ↔ ((x ∈ roles instance ∨ x ∈ pending_roles instance)
          ∧ x ∉ primary_roles instance)
         ∨ ∃ role, role ∈ primary_roles instance ∧ x = primary_name role)
  ∧ ∀ x,
      x ∈ all_roles (move_roles_to_pending_roles instance)
      ↔ x ∈ roles instance ∨ x ∈ pending_roles instance.
Proof.
  assert (∀ i x,
            x ∈ all_roles i
            ↔ ((x ∈ roles i ∨ x ∈ pending_roles i) ∧ x ∉ primary_roles i)
              ∨ ∃ role, role ∈ primary_roles i ∧ x = primary_name role)
    as Hmem.
  { intros i x. unfold all_roles.
    rewrite sorted_Permutation, elem_of_elements, elem_of_union,
      elem_of_difference, !elem_of_list_to_set, elem_of_app,
      list_elem_of_fmap.
    split; (intros [H|(role & H1 & H2)]; [left; exact H|right; eauto]). }
  split; [apply sorted_Sorted|]. split.
  { unfold all_roles. rewrite sorted_Permutation. apply NoDup_elements. }
  split; [apply Hmem|].
  intros x. rewrite Hmem. simpl. rewrite elem_of_app, elem_of_nil.
  split.
  - intros [([H|H] & _)|(role & H & _)]; [destruct H|tauto|].
    apply elem_of_nil in H. destruct H.
  - intros H. left. tauto.
Qed.

End Roles.

Section NodeExamples.
Import Node NodePublic Examples MoreExamples.

Lemma get_interfaces_without_bonds_slaves_spec_witness :
  get_interfaces_without_bonds_slaves node_bonded = ["bond0"; "eth0"]
  ∧ NoDup (get_interfaces_without_bonds_slaves node_bonded)
  ∧ ∀ x,
      x ∈ get_interfaces_without_bonds_slaves node_bonded
      ↔ x ∈ interfaces node_bonded
        ∧ x ∉ concat (map snd (bond_interfaces node_bonded)).
Proof.
  split; [vm_compute; reflexivity|].
  refine (proj2 (get_interfaces_without_bonds_slaves_spec node_bonded _ _)).
  - refine (bool_decide_unpack _ _). vm_compute. exact I.
  - apply Forall_forall. refine (bool_decide_unpack _ _).
    vm_compute. exact I.
Defined.

Lemma assign_network_to_interface_outcome_witness :
  assign_network_to_interface node_bare (Some net_public)
  = Raise (PyError "IndexError").
Proof.
  apply (proj1 (assign_network_to_interface_outcome node_bare net_public)).
  vm_compute. reflexivity.
Defined.

Lemma unassign_after_assign_public_network_witness :
  ∃ node1 node2,
    assign_public_network node_bonded (Some [net_admin; net_public])
    = Ok node1
    ∧ assigned_networks_list node1 "bond0" = [net_public]
    ∧ unassign_public_network node1 (Some [net_admin; net_public]) = Ok node2
    ∧ ∀ iface,
        assigned_networks_list node2 iface
        = assigned_networks_list node_bonded iface.
Proof.
  assert (∃ node1,
            assign_public_network node_bonded (Some [net_admin; net_public])
            = Ok node1
            ∧ assigned_networks_list node1 "bond0" = [net_public])
    as (node1 & Hassign & Hbond)
    by (eexists; split; vm_compute; reflexivity).
  assert (∀ iface,
            iface ∈ get_interfaces_without_bonds_slaves node_bonded →
            existsb (fun net => same_network net net_public)
                    (assigned_networks_list node_bonded iface) = false)
    as Habsent.
  { apply Forall_forall.
    replace (get_interfaces_without_bonds_slaves node_bonded)
      with ["bond0"; "eth0"] by (vm_compute; reflexivity).
    repeat constructor. }
  destruct (unassign_after_assign_public_network
              node_bonded node1 (Some [net_admin; net_public]) net_public
              eq_refl Habsent Hassign) as (node2 & Hunassign & _ & _ & Hsame).
  exists node1, node2. auto.
Defined.

Lemma update_primary_roles_invariant_witness :
  NodeRoles.primary_roles
    (NodeRoles.update_primary_roles roles_controller ["cinder"]) = ["cinder"]
  ∧ ("cinder" ∈ NodeRoles.roles
                  (NodeRoles.update_primary_roles roles_controller ["cinder"])
     ∨ "cinder" ∈ NodeRoles.pending_roles
                    (NodeRoles.update_primary_roles roles_controller
                                                    ["cinder"])).
Proof.
  split; [vm_compute; reflexivity|].
  apply (proj2 (update_primary_roles_invariant roles_controller ["cinder"])).
  - intros role Hrole. left. exact Hrole.
  - left.
Defined.

End NodeExamples.

(** ** Network templates *)

Section Template.
Import NetworkTemplateValidator.

Variable base_validate : string → result json.
Variable schema_error : string → json → option text.

Notation validate := (validate base_validate schema_error).

Lemma has_key_keys (name : string) (d : dict) :
  name ∈ keys d → has_key name d = true.
Proof.
  unfold has_key, keys. induction d as [|[k v] d IH]; simpl.
  - intros H. apply elem_of_nil in H. destruct H.
  - intros H. destruct (String.eqb name k) eqn:Hk; [reflexivity|].
    apply elem_of_cons in H as [->|H]; [|exact (IH H)].
    rewrite String.eqb_refl in Hk. discriminate.
Qed.

(** A value found among the defined templates is the name of one. *)
Lemma defined_template (scheme : dict) (template : json) (k : key) :
  hashable template = Ok k →
  k ∈ (list_to_set (map (fun k => Some (inr k)) (keys scheme)) : gset key) →
  ∃ name, template = JStr name ∧ has_key name scheme = true.
Proof.
  intros Hk Hin. apply elem_of_list_to_set, list_elem_of_fmap in Hin
    as (name & -> & Hin).
  exists name. split; [|apply has_key_keys, Hin].
  destruct template; simpl in Hk; try discriminate; congruence.
Qed.

Lemma templates_found (defined : gset key) (templates : list json) :
  ∀ not_found not_found' : gset key,
  for_fold (fun (not_found : gset key) template =>
              k ← hashable template;
              Ok (if bool_decide (k ∈ defined) then not_found
                  else {[k]} ∪ not_found))
           not_found templates = Ok not_found' →
  not_found ⊆ not_found'
  ∧ (not_found' = ∅ →
     Forall (fun template => ∃ k, hashable template = Ok k ∧ k ∈ defined)
            templates).
Proof.
  induction templates as [|template templates IH];
    intros not_found not_found'; simpl.
  - intros [= ->]. split; [reflexivity | constructor].
  - intros H. apply bind_inv_Ok in H as (nf & Hstep & H).
    apply IH in H as (Hsub & Hall).
    apply bind_inv_Ok in Hstep as (k & Hk & Hstep). injection Hstep as <-.
    destruct (bool_decide (k ∈ defined)) eqn:Hin.
    + split; [exact Hsub|]. intros He. constructor; [|exact (Hall He)].
      apply bool_decide_eq_true in Hin. eauto.
    + split; [set_solver|]. intros He. set_solver.
Qed.

Lemma roles_found (defined : gset key) (values : list json) :
  ∀ not_found not_found' : gset key,
  for_fold (fun (not_found : gset key) templates_by_role =>
              templates ← iterate templates_by_role;
              for_fold (fun (not_found : gset key) template =>
                          k ← hashable template;
                          Ok (if bool_decide (k ∈ defined) then not_found
                              else {[k]} ∪ not_found))
                       not_found templates)
           not_found values = Ok not_found' →
  not_found ⊆ not_found'
  ∧ (not_found' = ∅ →
     Forall (fun templates_by_role =>
               ∃ templates,
                 iterate templates_by_role = Ok templates
                 ∧ Forall (fun template =>
                             ∃ k, hashable template = Ok k ∧ k ∈ defined)
                          templates)
            values).
Proof.
  induction values as [|value values IH]; intros not_found not_found'; simpl.
  - intros [= ->]. split; [reflexivity | constructor].
  - intros H. apply bind_inv_Ok in H as (nf & Hstep & H).
    apply IH in H as (Hsub & Hall).
    apply bind_inv_Ok in Hstep as (templates & Hiter & Hstep).
    apply templates_found in Hstep as (Hsub' & Hall').
    split; [set_solver|]. intros He. constructor; [|exact (Hall He)].
    exists templates. split; [exact Hiter|]. apply Hall'. set_solver.
Qed.

(** One node group passes: it defines a template, and every template its
    roles ask for is defined. *)
Lemma check_node_group_Ok (group : string * json) (u : unit) :
  check_node_group group = Ok u →
  ∃ scheme roles,
    NetAssignmentData.item "network_scheme" (snd group) = Ok (JDict scheme)
    ∧ scheme ≠ []
    ∧ NetAssignmentData.item "templates_for_node_role" (snd group)
      = Ok (JDict roles)
    ∧ Forall (fun role =>
                ∃ templates,
                  iterate (snd role) = Ok templates
                  ∧ Forall (fun template =>
                              ∃ name, template = JStr name
                                      ∧ has_key name scheme = true)
                           templates)
             roles.
Proof.
  destruct group as [ng_name node_group]. unfold check_node_group. simpl.
  intros H. apply bind_inv_Ok in H as (scheme & Hscheme & H).
  apply bind_inv_Ok in Hscheme as (s & Hs & Hscheme).
  destruct s; try discriminate. injection Hscheme as ->.
  apply bind_inv_Ok in H as (roles & Hroles & H).
  apply bind_inv_Ok in Hroles as (r & Hr & Hroles).
  destruct r; try discriminate. injection Hroles as ->.
  apply bind_inv_Ok in H as (not_found & Hfold & H).
  destruct (bool_decide (not_found = ∅)) eqn:Hnf.
  2: { apply bind_inv_Ok in H as (? & _ & H). discriminate. }
  apply bool_decide_eq_true in Hnf.
  apply raise_if_inv_Ok, bool_decide_eq_false in H.
  apply roles_found in Hfold as (_ & Hall). specialize (Hall Hnf).
  exists scheme, roles. split; [exact Hs|]. split.
  { intros ->. apply H. reflexivity. }
  split; [exact Hr|].
  pose proof (proj1 (List.Forall_map snd _ roles) Hall) as Hroles.
  eapply Forall_impl; [exact Hroles|].
  intros role (templates & Hiter & Htemplates). simpl in Hiter.
  exists templates. split; [exact Hiter|].
  eapply Forall_impl; [exact Htemplates|].
  intros template (k & Hk & Hin). simpl in Hk.
  eapply defined_template; eassumption.
Qed.

(** X30.  What an accepted network template guarantees: it is the value
    [BasicValidator.validate] returns, it passes the schema, its
    [adv_net_template] is a dict of at least one node group, and every
    node group defines at least one template in its [network_scheme] and
    asks in [templates_for_node_role] only for templates that
    [network_scheme] defines. *)
Theorem validate_template_accepted (data : string) (parsed : json) :
  validate data = Ok parsed →
  base_validate data = Ok parsed
  ∧ schema_error "NETWORK_TEMPLATE" parsed = None
  ∧ ∃ groups,
      NetAssignmentData.item "adv_net_template" parsed = Ok (JDict groups)
      ∧ groups ≠ []
      ∧ Forall (fun group =>
                  ∃ scheme roles,
                    NetAssignmentData.item "network_scheme" (snd group)
                    = Ok (JDict scheme)
                    ∧ scheme ≠ []
                    ∧ NetAssignmentData.item "templates_for_node_role"
                                             (snd group)
                      = Ok (JDict roles)
                    ∧ Forall (fun role =>
                                ∃ templates,
                                  iterate (snd role) = Ok templates
                                  ∧ Forall (fun template =>
                                              ∃ name,
                                                template = JStr name
                                                ∧ has_key name scheme = true)
                                           templates)
                             roles)
               groups.
Proof.
  unfold NetworkTemplateValidator.validate. intros H.
  apply bind_inv_Ok in H as (p & Hbase & H).
  apply bind_inv_Ok in H as (? & Hschema & H).
  apply bind_inv_Ok in H as (adv & Hadv & H).
  apply bind_inv_Ok in H as (? & Htruthy & H).
  apply bind_inv_Ok in H as (groups & Hgroups & H).
  apply bind_inv_Ok in H as (? & Hloop & H). injection H as <-.
  destruct adv; try discriminate. injection Hgroups as ->.
  apply raise_if_inv_Ok, negb_false_iff in Htruthy.
  split; [exact Hbase|]. split.
  { unfold BasicValidator.validate_schema in Hschema.
    destruct (schema_error "NETWORK_TEMPLATE" p); [discriminate|reflexivity]. }
  exists groups. split; [exact Hadv|]. split.
  { intros ->. discriminate. }
  apply for_each_Ok in Hloop. eapply Forall_impl; [exact Hloop|].
  intros group Hgroup. simpl in Hgroup.
  eapply check_node_group_Ok, Hgroup.
Qed.

End Template.

Section TemplateExamples.
Import NetworkTemplateValidator Examples MoreExamples.

Lemma validate_template_accepted_witness :
  validate (BasicValidator.validate_json (loads template_bodies)) schema_ok
           "template"
  = Ok template
  ∧ ∃ groups,
      NetAssignmentData.item "adv_net_template" template = Ok (JDict groups)
      ∧ groups ≠ [].
Proof.
  assert (validate (BasicValidator.validate_json (loads template_bodies))
                   schema_ok "template" = Ok template) as Hok
    by (vm_compute; reflexivity).
  split; [exact Hok|].
  destruct (validate_template_accepted _ _ _ _ Hok)
    as (_ & _ & groups & Hadv & Hne & _).
  exists groups. split; [exact Hadv | exact Hne].
Defined.

End TemplateExamples.
